(** * House Life Notes: costs, currency, room labels, soft delete, uploads

    A shallow embedding of the business logic of the application:
    - [Currency]      src/lib/currency.ts
    - [RoomLabel]     pluralizeRoomType / pluralizeWord of the house form
    - [Db]            the relational tables and the stored procedure
                      soft_delete_appliance
    - [CostDashboard] loadCosts with its effects, and the derived figures of
                      the dashboard
    - [CostSums]      the breakdown that loadCosts computes, over any
                      arithmetic ([Arith]), IEEE 754 binary64 included
    - [FileUpload]    handleFileSelect of the upload widget

    Conventions.  The sums of loadCosts are stated in [CostSums], whose
    arithmetic is a parameter: [Arith.binary64] is the arithmetic of the
    JavaScript engine, rounding, infinities, NaN and the sign of zero
    included.  The model of the effects of loadCosts (requests, console,
    component state) and the figures derived from the stored total carry
    exact rationals ([Qc]) in place of doubles; rounding, infinities and the
    sign of zero are outside that model, and [NaN] is modelled where
    [Number(..)] can produce it.  On exact rationals the two models store
    the same breakdown ([loadCosts_stores_breakdown]).  Strings are
    sequences of bytes (UTF-8); every character the code tests or inserts
    is ASCII, so byte positions and UTF-16 positions agree on the parts the
    code touches. *)

From Stdlib Require Import ZArith QArith Qcanon List String Ascii Bool Lia Lqa.
From Stdlib Require Import DecimalString.
From Stdlib Require Import PrimFloat.
Import ListNotations.

Set Implicit Arguments.

(** A decimal literal of a double denotes the double nearest to it. *)
Set Warnings "-inexact-float".

(** ** JavaScript numbers and truthiness *)

Module Js.

Definition number := Qc.

Definition ofZ (z : Z) : number := Q2Qc (inject_Z z).

Definition zero : number := ofZ 0.

Definition is_zero (x : number) : bool := Qeq_bool (this x) 0.

(** [x <= y] and [x > y] on numbers. *)
Definition leb (x y : number) : bool := Qle_bool (this x) (this y).
Definition gtb (x y : number) : bool := negb (Qle_bool (this x) (this y)).

(** Result of a numeric coercion: a number or NaN. *)
Inductive numeric : Type :=
| NaN
| Num (x : number).

(** [v || 0] for the result of a numeric coercion: NaN and 0 are falsy. *)
Definition or_zero (v : numeric) : number :=
  match v with
  | NaN => zero
  | Num x => if is_zero x then zero else x
  end.

(** A cell of a fetched row as loadCosts may meet it: absent from the row
    (undefined), null, a number, or any other value whose numeric coercion
    is NaN (a non-numeric string, an object). *)
Inductive value : Type :=
| VUndefined
| VNull
| VNumber (x : number)
| VNonNumeric.

(** [Number(v)] *)
Definition Number (v : value) : numeric :=
  match v with
  | VUndefined => NaN
  | VNull => Num zero
  | VNumber x => Num x
  | VNonNumeric => NaN
  end.

(** [x ? a : b] and [x || d] for a field of type [number | null]:
    null and 0 are falsy. *)
Definition truthy (v : option number) : bool :=
  match v with
  | None => false
  | Some x => negb (is_zero x)
  end.

End Js.

(** ** Currency formatter (src/lib/currency.ts) *)

Module Currency.

Local Open Scope string_scope.

Inductive Country : Type :=
| UnitedStates
| Canada
| Mexico
| UnitedKingdom
| Other.

Record CurrencyInfo : Type := {
  code : string;
  symbol : string;
  locale : string
}.

(** The table of the source, literal for literal.  The symbol of the
    United Kingdom entry is the four bytes C3 82 C2 A3 in the source file. *)
Definition currencyMap (c : Country) : CurrencyInfo :=
  match c with
  | UnitedStates => {| code := "USD"; symbol := "$"; locale := "en-US" |}
  | Canada => {| code := "CAD"; symbol := "C$"; locale := "en-CA" |}
  | Mexico => {| code := "MXN"; symbol := "MX$"; locale := "es-MX" |}
  | UnitedKingdom => {| code := "GBP"; symbol := "Â£"; locale := "en-GB" |}
  | Other => {| code := "USD"; symbol := "$"; locale := "en-US" |}
  end.

(** [country || 'United States'] for [Country | null | undefined]; no
    member of [Country] is the empty string, so only null and undefined
    (both [None]) are falsy. *)
Definition orUnitedStates (country : option Country) : Country :=
  match country with
  | Some c => c
  | None => UnitedStates
  end.

Definition getCurrencySymbol (country : option Country) : string :=
  let currencyInfo := currencyMap (orUnitedStates country) in
  symbol currencyInfo.

Record Options : Type := {
  minimumFractionDigits : option Z;
  maximumFractionDigits : option Z
}.

Definition noOptions : Options :=
  {| minimumFractionDigits := None; maximumFractionDigits := None |}.

Record NumberFormatOptions : Type := {
  style : string;
  currency : string;
  fmt_minimumFractionDigits : Z;
  fmt_maximumFractionDigits : Z
}.

(** [a ?? b] *)
Definition nullish {A : Type} (a : option A) (b : A) : A :=
  match a with
  | Some x => x
  | None => b
  end.

Section Format.

(** [new Intl.NumberFormat(locale, options).format(amount)], the
    platform's formatter. *)
Variable Intl_NumberFormat_format :
  string -> NumberFormatOptions -> Js.number -> string.

Definition formatCurrency (amount : Js.number) (country : option Country)
           (options : Options) : string :=
  let currencyInfo := currencyMap (orUnitedStates country) in
  let maxFractionDigits := nullish (maximumFractionDigits options) 2%Z in
  let minFractionDigits :=
    nullish (minimumFractionDigits options) (Z.min 2 maxFractionDigits) in
  let formatOptions :=
    {| style := "currency";
       currency := code currencyInfo;
       fmt_minimumFractionDigits := minFractionDigits;
       fmt_maximumFractionDigits := maxFractionDigits |} in
  Intl_NumberFormat_format (locale currencyInfo) formatOptions amount.

End Format.

(** The pound sign U+00A3 in UTF-8: C2 A3. *)
Definition pound_sign : string :=
  String (ascii_of_nat 194) (String (ascii_of_nat 163) EmptyString).

End Currency.

(** ** Room label pluralizer (house details form) *)

Module RoomLabel.

Local Open Scope string_scope.

Definition lower_ascii (c : ascii) : ascii :=
  let n := nat_of_ascii c in
  if (65 <=? n)%nat && (n <=? 90)%nat then ascii_of_nat (n + 32) else c.

(** [s.toLowerCase()].  Only ASCII letters are folded: the results are
    used for [endsWith] tests against ASCII suffixes alone, and no other
    character lower-cases to one of the letters tested. *)
Fixpoint toLowerCase (s : string) : string :=
  match s with
  | EmptyString => EmptyString
  | String c r => String (lower_ascii c) (toLowerCase r)
  end.

(** [s.endsWith(suffix)]: [suffix] is [s] or the end of its tail. *)
Fixpoint endsWith (s suffix : string) : bool :=
  String.eqb s suffix
  || match s with
     | EmptyString => false
     | String _ r => endsWith r suffix
     end.

(** [s.includes(' ')] *)
Fixpoint includes_space (s : string) : bool :=
  match s with
  | EmptyString => false
  | String c r => Ascii.eqb c " " || includes_space r
  end.

(** [s.split(' ')]: never empty; the empty string gives one empty word. *)
Fixpoint split_space (s : string) : list string :=
  match s with
  | EmptyString => [EmptyString]
  | String c r =>
      if Ascii.eqb c " " then EmptyString :: split_space r
      else match split_space r with
           | w :: ws => String c w :: ws
           | [] => [String c EmptyString]
           end
  end.

(** [words.join(' ')] *)
Fixpoint join_space (words : list string) : string :=
  match words with
  | [] => EmptyString
  | [w] => w
  | w :: ws => w ++ " " ++ join_space ws
  end.

(** [words[i] = v] for an index inside the array. *)
Fixpoint array_set (i : nat) (v : string) (words : list string) : list string :=
  match words, i with
  | [], _ => []
  | _ :: ws, O => v :: ws
  | w :: ws, S j => w :: array_set j v ws
  end.

(** [word.slice(0, -1)]: all but the last character. *)
Fixpoint slice_0_m1 (word : string) : string :=
  match word with
  | EmptyString => EmptyString
  | String c r =>
      match r with
      | EmptyString => EmptyString
      | String _ _ => String c (slice_0_m1 r)
      end
  end.

Definition pluralizeWord (word : string) : string :=
  if endsWith (toLowerCase word) "y" then slice_0_m1 word ++ "ies"
  else if endsWith (toLowerCase word) "ch" || endsWith (toLowerCase word) "sh"
          || endsWith (toLowerCase word) "s" || endsWith (toLowerCase word) "x"
          || endsWith (toLowerCase word) "z"
       then word ++ "es"
       else word ++ "s".

Definition pluralizeRoomType (roomType : string) (count : Js.number) : string :=
  if Js.leb count (Js.ofZ 1) then roomType
  else if includes_space roomType then
    let words := split_space roomType in
    let lastWord := nth (List.length words - 1) words EmptyString in
    join_space
      (array_set (List.length words - 1) (pluralizeWord lastWord) words)
  else pluralizeWord roomType.

(** Specification side: [w] ends, up to the case of ASCII letters, with
    [suffix]. *)
Definition ends_with_ci (w suffix : string) : Prop :=
  exists stem tail, w = stem ++ tail /\ toLowerCase tail = suffix.

(** Specification side: [w] ends with one of [suffixes], as written. *)
Definition ends_with_one_of (w : string) (suffixes : list string) : Prop :=
  exists stem suffix, In suffix suffixes /\ w = stem ++ suffix.

(** The endings of the second rule, in every casing. *)
Definition es_endings : list string :=
  ["ch"; "cH"; "Ch"; "CH"; "sh"; "sH"; "Sh"; "SH";
   "s"; "S"; "x"; "X"; "z"; "Z"].

End RoomLabel.

(** ** The relational store (supabase/migrations) *)

Module Db.

Definition uuid := string.
Definition timestamptz := Z.

(** houses: [user_id] is NOT NULL; the year columns are integer and the
    price columns numeric(12,2), all nullable. *)
Record houses_row : Type := {
  h_id : uuid;
  h_user_id : uuid;
  h_year_bought : option Js.number;
  h_year_sold : option Js.number;
  h_price_paid : option Js.number;
  h_price_sold : option Js.number;
  h_square_footage : option Js.number;
  h_country : option Currency.Country;
  h_deleted_at : option timestamptz
}.

Record interior_appliances_row : Type := {
  ia_id : uuid;
  ia_house_id : uuid;
  ia_purchase_cost : option Js.number;
  ia_installation_cost : option Js.number;
  ia_deleted_at : option timestamptz
}.

Record appliance_repairs_row : Type := {
  ar_id : uuid;
  ar_appliance_id : uuid;
  ar_repair_cost : option Js.number;
  ar_deleted_at : option timestamptz
}.

Record appliance_attachments_row : Type := {
  aa_id : uuid;
  aa_appliance_id : uuid;
  aa_file_name : string;
  aa_deleted_at : option timestamptz
}.

Record exterior_features_row : Type := {
  ef_id : uuid;
  ef_house_id : uuid;
  ef_build_cost : option Js.number;
  ef_deleted_at : option timestamptz
}.

Record exterior_maintenance_row : Type := {
  em_id : uuid;
  em_house_id : uuid;
  em_cost : option Js.number;
  em_deleted_at : option timestamptz
}.

Record Database : Type := {
  houses : list houses_row;
  interior_appliances : list interior_appliances_row;
  appliance_repairs : list appliance_repairs_row;
  appliance_attachments : list appliance_attachments_row;
  exterior_features : list exterior_features_row;
  exterior_maintenance : list exterior_maintenance_row
}.

(** [deleted_at IS NULL] *)
Definition is_null {A : Type} (v : option A) : bool :=
  match v with
  | None => true
  | Some _ => false
  end.

(** [houses.user_id = auth.uid()]: a comparison with NULL is not true. *)
Definition eq_auth_uid (user_id : uuid) (auth_uid : option uuid) : bool :=
  match auth_uid with
  | Some u => String.eqb user_id u
  | None => false
  end.

(** [EXISTS (SELECT 1 FROM houses WHERE houses.id = house_id
             AND houses.user_id = auth.uid())] *)
Definition exists_owned_house (auth_uid : option uuid) (db : Database)
           (house_id : uuid) : bool :=
  existsb (fun h => String.eqb (h_id h) house_id
                    && eq_auth_uid (h_user_id h) auth_uid)
          (houses db).

Definition set_ia_deleted_at (t : option timestamptz)
           (a : interior_appliances_row) : interior_appliances_row :=
  {| ia_id := ia_id a; ia_house_id := ia_house_id a;
     ia_purchase_cost := ia_purchase_cost a;
     ia_installation_cost := ia_installation_cost a;
     ia_deleted_at := t |}.

Definition set_ar_deleted_at (t : option timestamptz)
           (r : appliance_repairs_row) : appliance_repairs_row :=
  {| ar_id := ar_id r; ar_appliance_id := ar_appliance_id r;
     ar_repair_cost := ar_repair_cost r; ar_deleted_at := t |}.

Definition set_aa_deleted_at (t : option timestamptz)
           (f : appliance_attachments_row) : appliance_attachments_row :=
  {| aa_id := aa_id f; aa_appliance_id := aa_appliance_id f;
     aa_file_name := aa_file_name f; aa_deleted_at := t |}.

(** [UPDATE table SET ... WHERE cond]: rows that satisfy [cond] are
    rewritten in place, the others are kept. *)
Definition update_where {R : Type} (cond : R -> bool) (set : R -> R)
           (table : list R) : list R :=
  map (fun r => if cond r then set r else r) table.

(** The three statements of soft_delete_appliance, in order.  The function
    is SECURITY DEFINER, so row-level security does not filter them. *)
Definition soft_delete_appliance (auth_uid : option uuid) (now : timestamptz)
           (appliance_id : uuid) (db : Database) : Database :=
  let db1 :=
    {| houses := houses db;
       interior_appliances :=
         update_where
           (fun a => String.eqb (ia_id a) appliance_id
                     && is_null (ia_deleted_at a)
                     && exists_owned_house auth_uid db (ia_house_id a))
           (set_ia_deleted_at (Some now))
           (interior_appliances db);
       appliance_repairs := appliance_repairs db;
       appliance_attachments := appliance_attachments db;
       exterior_features := exterior_features db;
       exterior_maintenance := exterior_maintenance db |} in
  let db2 :=
    {| houses := houses db1;
       interior_appliances := interior_appliances db1;
       appliance_repairs :=
         update_where
           (fun r => String.eqb (ar_appliance_id r) appliance_id
                     && is_null (ar_deleted_at r))
           (set_ar_deleted_at (Some now))
           (appliance_repairs db1);
       appliance_attachments := appliance_attachments db1;
       exterior_features := exterior_features db1;
       exterior_maintenance := exterior_maintenance db1 |} in
  {| houses := houses db2;
     interior_appliances := interior_appliances db2;
     appliance_repairs := appliance_repairs db2;
     appliance_attachments :=
       update_where
         (fun f => String.eqb (aa_appliance_id f) appliance_id
                   && is_null (aa_deleted_at f))
         (set_aa_deleted_at (Some now))
         (appliance_attachments db2);
     exterior_features := exterior_features db2;
     exterior_maintenance := exterior_maintenance db2 |}.

End Db.

(** ** Cost dashboard (CostDashboard component) *)

Module CostDashboard.

Import Db.
Local Open Scope Qc_scope.

Record CostBreakdown : Type := {
  housePurchase : Js.number;
  appliances : Js.number;
  applianceInstallation : Js.number;
  applianceRepairs : Js.number;
  exteriorFeatures : Js.number;
  exteriorMaintenance : Js.number;
  totalCost : Js.number
}.

(** [price_paid] is declared [number], but the column is nullable and the
    code guards it with [|| 0]. *)
Record HouseInfo : Type := {
  year_bought : option Js.number;
  year_sold : option Js.number;
  price_paid : option Js.number;
  price_sold : option Js.number;
  square_footage : option Js.number;
  country : option Currency.Country
}.

(** Rows as selected by the four child queries. *)
Record ApplianceCosts : Type := {
  purchase_cost : Js.value;
  installation_cost : Js.value;
  id : uuid
}.
Record FeatureCost : Type := { build_cost : Js.value }.
Record MaintenanceCost : Type := { cost : Js.value }.
Record RepairCost : Type := { repair_cost : Js.value }.

(** *** The query client *)

Definition Error := string.

(** What a settled query resolves to: [{ data, error }]. *)
Record Response (A : Type) : Type := {
  data : option A;
  error : option Error
}.

(** A query either resolves to a response (which may carry an error) or
    rejects. *)
Inductive Settled (A : Type) : Type :=
| Fulfilled (r : Response A)
| Rejected (e : Error).
Arguments Rejected {A} e.

Inductive Query : Type :=
| From_houses (house_id : uuid)
| From_interior_appliances (house_id : uuid)
| From_exterior_features (house_id : uuid)
| From_exterior_maintenance (house_id : uuid)
| From_appliance_repairs (appliance_ids : list uuid).

Record Client : Type := {
  select_house : uuid -> Settled HouseInfo;
  select_appliances : uuid -> Settled (list ApplianceCosts);
  select_features : uuid -> Settled (list FeatureCost);
  select_maintenance : uuid -> Settled (list MaintenanceCost);
  select_repairs : list uuid -> Settled (list RepairCost)
}.

(** *** Component state and effects *)

Record Component : Type := {
  costs : CostBreakdown;
  houseInfo : option HouseInfo;
  loading : bool
}.

Definition zeroCosts : CostBreakdown :=
  {| housePurchase := Js.zero; appliances := Js.zero;
     applianceInstallation := Js.zero; applianceRepairs := Js.zero;
     exteriorFeatures := Js.zero; exteriorMaintenance := Js.zero;
     totalCost := Js.zero |}.

(** The three [useState] initial values. *)
Definition initialComponent : Component :=
  {| costs := zeroCosts; houseInfo := None; loading := true |}.

Record World : Type := {
  component : Component;
  console : list (string * Error);
  requests : list Query
}.

Definition initialWorld : World :=
  {| component := initialComponent; console := []; requests := [] |}.

Inductive Completion (A : Type) : Type :=
| Normal (a : A)
| Throw (e : Error).
Arguments Throw {A} e.

Definition Async (A : Type) : Type := World -> Completion A * World.

Definition ret {A : Type} (a : A) : Async A := fun w => (Normal a, w).

Definition bind {A B : Type} (m : Async A) (k : A -> Async B) : Async B :=
  fun w =>
    match m w with
    | (Normal a, w1) => k a w1
    | (Throw e, w1) => (Throw e, w1)
    end.

Notation "x <- m ;; k" := (bind m (fun x => k))
  (at level 61, m at next level, right associativity).
Notation "m ;;; k" := (bind m (fun _ => k))
  (at level 61, right associativity).

(** [try { body } catch (error) { handler } finally { final }] *)
Definition try_catch_finally {A : Type} (body : Async A)
           (handler : Error -> Async A) (final : Async unit) : Async A :=
  fun w =>
    let '(c, w1) :=
      match body w with
      | (Normal a, w1) => (Normal a, w1)
      | (Throw e, w1) => handler e w1
      end in
    match final w1 with
    | (Normal _, w2) => (c, w2)
    | (Throw e, w2) => (Throw e, w2)
    end.

(** The request leaves the client. *)
Definition send (q : Query) : Async unit :=
  fun w =>
    (Normal tt,
     {| component := component w; console := console w;
        requests := requests w ++ [q] |}).

(** [await] of an already sent request. *)
Definition await {A : Type} (s : Settled A) : Async (Response A) :=
  fun w =>
    match s with
    | Fulfilled r => (Normal r, w)
    | Rejected e => (Throw e, w)
    end.

Definition set_component (f : Component -> Component) : Async unit :=
  fun w =>
    (Normal tt,
     {| component := f (component w); console := console w;
        requests := requests w |}).

Definition setCosts (c : CostBreakdown) : Async unit :=
  set_component (fun s =>
    {| costs := c; houseInfo := houseInfo s; loading := loading s |}).

Definition setHouseInfo (h : HouseInfo) : Async unit :=
  set_component (fun s =>
    {| costs := costs s; houseInfo := Some h; loading := loading s |}).

Definition setLoading (b : bool) : Async unit :=
  set_component (fun s =>
    {| costs := costs s; houseInfo := houseInfo s; loading := b |}).

Definition console_error (msg : string) (e : Error) : Async unit :=
  fun w =>
    (Normal tt,
     {| component := component w; console := console w ++ [(msg, e)];
        requests := requests w |}).

(** *** loadCosts *)

(** [rows?.reduce((sum, r) => sum + (Number(r.field) || 0), 0) || 0] *)
Definition reduce_cost {R : Type} (field : R -> Js.value)
           (rows : list R) : Js.number :=
  fold_left (fun sum r => sum + Js.or_zero (Js.Number (field r))) rows Js.zero.

Definition sum_or_zero {R : Type} (field : R -> Js.value)
           (rows : option (list R)) : Js.number :=
  match rows with
  | Some l => Js.or_zero (Js.Num (reduce_cost field l))
  | None => Js.zero
  end.

(** [houseRes.data?.price_paid || 0] *)
Definition price_paid_or_zero (h : option HouseInfo) : Js.number :=
  match h with
  | Some i =>
      match price_paid i with
      | Some x => Js.or_zero (Js.Num x)
      | None => Js.zero
      end
  | None => Js.zero
  end.

(** [!houseId] for [string | null]: null and the empty string. *)
Definition falsy_id (houseId : option uuid) : bool :=
  match houseId with
  | None => true
  | Some s => String.eqb s EmptyString
  end.

Definition id_or_empty (houseId : option uuid) : uuid :=
  match houseId with
  | Some s => s
  | None => EmptyString
  end.

(** [data && data.length > 0] *)
Definition non_empty {R : Type} (rows : option (list R)) : bool :=
  match rows with
  | Some (_ :: _) => true
  | _ => false
  end.

Definition rows_or_nil {R : Type} (rows : option (list R)) : list R :=
  match rows with
  | Some l => l
  | None => []
  end.

Section LoadCosts.

Variable supabase : Client.
Variable houseId : option uuid.

(** [await Promise.all([q1, q2, q3, q4])]: the four requests are sent,
    then joined; a rejection rejects the whole (the first in array
    order stands for the first to reject). *)
Definition phase1 (hid : uuid) :
  Async (Response HouseInfo * Response (list ApplianceCosts)
         * Response (list FeatureCost) * Response (list MaintenanceCost)) :=
  send (From_houses hid) ;;;
  send (From_interior_appliances hid) ;;;
  send (From_exterior_features hid) ;;;
  send (From_exterior_maintenance hid) ;;;
  houseRes <- await (select_house supabase hid) ;;
  appliancesRes <- await (select_appliances supabase hid) ;;
  featuresRes <- await (select_features supabase hid) ;;
  maintenanceRes <- await (select_maintenance supabase hid) ;;
  ret (houseRes, appliancesRes, featuresRes, maintenanceRes).

Definition loadCosts_body (hid : uuid) : Async unit :=
  r <- phase1 hid ;;
  let '(houseRes, appliancesRes, featuresRes, maintenanceRes) := r in
  let housePurchase := price_paid_or_zero (data houseRes) in
  let appliances := sum_or_zero purchase_cost (data appliancesRes) in
  let applianceInstallation :=
    sum_or_zero installation_cost (data appliancesRes) in
  applianceRepairs <-
    (if non_empty (data appliancesRes) then
       let applianceIds := map id (rows_or_nil (data appliancesRes)) in
       send (From_appliance_repairs applianceIds) ;;;
       repairsRes <- await (select_repairs supabase applianceIds) ;;
       ret (sum_or_zero repair_cost (data repairsRes))
     else ret Js.zero) ;;
  let exteriorFeatures := sum_or_zero build_cost (data featuresRes) in
  let exteriorMaintenance := sum_or_zero cost (data maintenanceRes) in
  let totalCost :=
    housePurchase + appliances + applianceInstallation + applianceRepairs
    + exteriorFeatures + exteriorMaintenance in
  setCosts {| housePurchase := housePurchase;
              appliances := appliances;
              applianceInstallation := applianceInstallation;
              applianceRepairs := applianceRepairs;
              exteriorFeatures := exteriorFeatures;
              exteriorMaintenance := exteriorMaintenance;
              totalCost := totalCost |} ;;;
  match data houseRes with
  | Some h => setHouseInfo h
  | None => ret tt
  end.

Definition loadCosts : Async unit :=
  if falsy_id houseId then ret tt
  else
    try_catch_finally
      (loadCosts_body (id_or_empty houseId))
      (fun error => console_error "Error loading costs:" error)
      (setLoading false).

End LoadCosts.

(** *** Derived figures and what the component shows *)

Record ProfitCard : Type := {
  label : string;
  amount : Js.number
}.

Record YearsCard : Type := {
  years : Js.number;
  perYear : option Js.number
}.

Inductive View : Type :=
| LoadingView
| WelcomeView
| DashboardView (shown : CostBreakdown) (profitCard : option ProfitCard)
                (yearsCard : option YearsCard).

(** [houseInfo?.field] *)
Definition opt_field (h : option HouseInfo)
           (field : HouseInfo -> option Js.number) : option Js.number :=
  match h with
  | Some i => field i
  | None => None
  end.

(** [Math.abs] *)
Definition Math_abs (x : Js.number) : Js.number :=
  if Js.leb Js.zero x then x else - x.

Section Render.

Variable houseId : option uuid.
Variable st : Component.
(** [new Date().getFullYear()] *)
Variable currentYear : Js.number.

Definition profit : option Js.number :=
  match opt_field (houseInfo st) price_sold with
  | Some p =>
      if Js.truthy (Some p) then Some (p - totalCost (costs st)) else None
  | None => None
  end.

Definition yearsOwned : option Js.number :=
  let bought := opt_field (houseInfo st) year_bought in
  let sold := opt_field (houseInfo st) year_sold in
  if Js.truthy bought && Js.truthy sold then
    match sold, bought with
    | Some s, Some b => Some (s - b)
    | _, _ => None
    end
  else if Js.truthy bought then
    match bought with
    | Some b => Some (currentYear - b)
    | None => None
    end
  else None.

(** [{houseInfo?.price_sold && profit !== null && (...)}] *)
Definition profitCard : option ProfitCard :=
  if Js.truthy (opt_field (houseInfo st) price_sold) then
    match profit with
    | Some p =>
        Some {| label := if Js.leb Js.zero p then "Profit"%string
                         else "Loss"%string;
                amount := Math_abs p |}
    | None => None
    end
  else None.

(** [{yearsOwned && (... {yearsOwned > 0 && (totalCost / yearsOwned)})}] *)
Definition yearsCard : option YearsCard :=
  match yearsOwned with
  | Some y =>
      if Js.truthy (Some y) then
        Some {| years := y;
                perYear := if Js.gtb y Js.zero
                           then Some (totalCost (costs st) / y)
                           else None |}
      else None
  | None => None
  end.

(** The per-year figure handed to the formatter, when there is one. *)
Definition costPerYear : option Js.number :=
  match yearsCard with
  | Some c => perYear c
  | None => None
  end.

Definition render : View :=
  if loading st then LoadingView
  else if falsy_id houseId then WelcomeView
  else DashboardView (costs st) profitCard yearsCard.

End Render.

(** *** The client over a database whose reads all succeed *)

Definition cell (v : option Js.number) : Js.value :=
  match v with
  | Some x => Js.VNumber x
  | None => Js.VNull
  end.

Definition ok {A : Type} (a : option A) : Settled A :=
  Fulfilled {| data := a; error := None |}.

Definition houseInfo_of (h : houses_row) : HouseInfo :=
  {| year_bought := h_year_bought h; year_sold := h_year_sold h;
     price_paid := h_price_paid h; price_sold := h_price_sold h;
     square_footage := h_square_footage h; country := h_country h |}.

(** Each select carries [.is('deleted_at', null)] and its key filter;
    [maybeSingle] on the primary key yields the row or null. *)
Definition db_client (db : Database) : Client :=
  {| select_house := fun hid =>
       ok (option_map houseInfo_of
             (find (fun h => String.eqb (h_id h) hid
                             && is_null (h_deleted_at h))
                   (houses db)));
     select_appliances := fun hid =>
       ok (Some (map (fun a => {| purchase_cost := cell (ia_purchase_cost a);
                                  installation_cost :=
                                    cell (ia_installation_cost a);
                                  id := ia_id a |})
                     (filter (fun a => String.eqb (ia_house_id a) hid
                                       && is_null (ia_deleted_at a))
                             (interior_appliances db))));
     select_features := fun hid =>
       ok (Some (map (fun f => {| build_cost := cell (ef_build_cost f) |})
                     (filter (fun f => String.eqb (ef_house_id f) hid
                                       && is_null (ef_deleted_at f))
                             (exterior_features db))));
     select_maintenance := fun hid =>
       ok (Some (map (fun m => {| cost := cell (em_cost m) |})
                     (filter (fun m => String.eqb (em_house_id m) hid
                                       && is_null (em_deleted_at m))
                             (exterior_maintenance db))));
     select_repairs := fun ids =>
       ok (Some (map (fun r => {| repair_cost := cell (ar_repair_cost r) |})
                     (filter (fun r =>
                                existsb (String.eqb (ar_appliance_id r)) ids
                                && is_null (ar_deleted_at r))
                             (appliance_repairs db)))) |}.

(** *** Specification side *)

(** A cost with missing, null and non-numeric values read as 0. *)
Definition coalesce (v : Js.value) : Js.number :=
  match v with
  | Js.VNumber x => x
  | Js.VUndefined | Js.VNull | Js.VNonNumeric => Js.zero
  end.

(** The sum of a list of amounts. *)
Definition total (l : list Js.number) : Js.number :=
  fold_right Qcplus Js.zero l.

End CostDashboard.

(** ** The arithmetic of the breakdown *)

Module Arith.

(** What loadCosts asks of JavaScript numbers: the constant 0, [+], the
    numbers that [x || 0] replaces by 0 (the falsy ones) and the number as
    which a decimal of the response is read. *)
Record t : Type := {
  number : Type;
  zero : number;
  add : number -> number -> number;
  falsy : number -> bool;
  parse : Js.number -> number
}.

(** Exact rationals, the arithmetic of [CostDashboard]. *)
Definition exact : t :=
  {| number := Js.number;
     zero := Js.zero;
     add := Qcplus;
     falsy := Js.is_zero;
     parse := fun q => q |}.

Local Open Scope float_scope.

(** A whole number below 2^53 as a double; every step is exact there. *)
Fixpoint of_pos (p : positive) : float :=
  match p with
  | xH => 1
  | xO q => 2 * of_pos q
  | xI q => 2 * of_pos q + 1
  end.

Definition of_Z (z : Z) : float :=
  match z with
  | Z0 => 0
  | Zpos p => of_pos p
  | Zneg p => - of_pos p
  end.

(** The double nearest to a decimal, as [JSON.parse] reads it.  For a
    decimal whose numerator and denominator are whole numbers below 2^53
    (every value of a numeric(12,2) or integer column) both are doubles, and
    their IEEE 754 quotient is the correctly rounded quotient. *)
Definition parse_decimal (q : Js.number) : float :=
  of_Z (Qnum (this q)) / of_pos (Qden (this q)).

(** [!x] on a double: 0, -0 and NaN are falsy ([==] is the IEEE 754
    comparison, under which NaN differs from itself). *)
Definition falsy_double (x : float) : bool :=
  (x =? 0) || negb (x =? x).

(** IEEE 754 binary64 with round to nearest, ties to even: the numbers of
    the JavaScript engine. *)
Definition binary64 : t :=
  {| number := float;
     zero := 0;
     add := PrimFloat.add;
     falsy := falsy_double;
     parse := parse_decimal |}.

End Arith.

(** ** The breakdown that loadCosts computes (lines 61-91), over any
    arithmetic *)

Module CostSums.

Import Db.

Section Over.

Variable N : Arith.t.

Local Notation "x + y" := (Arith.add N x y).

Record CostBreakdown : Type := {
  housePurchase : Arith.number N;
  appliances : Arith.number N;
  applianceInstallation : Arith.number N;
  applianceRepairs : Arith.number N;
  exteriorFeatures : Arith.number N;
  exteriorMaintenance : Arith.number N;
  totalCost : Arith.number N
}.

(** Result of a numeric coercion: NaN or a number. *)
Inductive numeric : Type :=
| NaN
| Num (x : Arith.number N).

(** [Number(v)] for a cell of a fetched row. *)
Definition Number (v : Js.value) : numeric :=
  match v with
  | Js.VUndefined => NaN
  | Js.VNull => Num (Arith.zero N)
  | Js.VNumber q => Num (Arith.parse N q)
  | Js.VNonNumeric => NaN
  end.

(** [v || 0] *)
Definition or_zero (v : numeric) : Arith.number N :=
  match v with
  | NaN => Arith.zero N
  | Num x => if Arith.falsy N x then Arith.zero N else x
  end.

(** [rows.reduce((sum, r) => sum + (Number(r.field) || 0), 0)] *)
Definition reduce_cost {R : Type} (field : R -> Js.value)
           (rows : list R) : Arith.number N :=
  fold_left (fun sum r => sum + or_zero (Number (field r)))
            rows (Arith.zero N).

(** [rows?.reduce(...) || 0] *)
Definition sum_or_zero {R : Type} (field : R -> Js.value)
           (rows : option (list R)) : Arith.number N :=
  match rows with
  | Some l => or_zero (Num (reduce_cost field l))
  | None => Arith.zero N
  end.

(** [houseRes.data?.price_paid || 0] *)
Definition price_paid_or_zero (h : option CostDashboard.HouseInfo)
  : Arith.number N :=
  match h with
  | Some i =>
      match CostDashboard.price_paid i with
      | Some q => or_zero (Num (Arith.parse N q))
      | None => Arith.zero N
      end
  | None => Arith.zero N
  end.

(** From the responses to the argument of [setCosts].  [repairsRes] is
    what the repair lookup resolves to; it is awaited, and read, only when
    there are appliances. *)
Definition breakdown
           (houseRes : CostDashboard.Response CostDashboard.HouseInfo)
           (appliancesRes :
              CostDashboard.Response (list CostDashboard.ApplianceCosts))
           (repairsRes :
              CostDashboard.Response (list CostDashboard.RepairCost))
           (featuresRes :
              CostDashboard.Response (list CostDashboard.FeatureCost))
           (maintenanceRes :
              CostDashboard.Response (list CostDashboard.MaintenanceCost))
  : CostBreakdown :=
  let housePurchase := price_paid_or_zero (CostDashboard.data houseRes) in
  let appliances :=
    sum_or_zero CostDashboard.purchase_cost
                (CostDashboard.data appliancesRes) in
  let applianceInstallation :=
    sum_or_zero CostDashboard.installation_cost
                (CostDashboard.data appliancesRes) in
  let applianceRepairs :=
    if CostDashboard.non_empty (CostDashboard.data appliancesRes) then
      sum_or_zero CostDashboard.repair_cost (CostDashboard.data repairsRes)
    else Arith.zero N in
  let exteriorFeatures :=
    sum_or_zero CostDashboard.build_cost (CostDashboard.data featuresRes) in
  let exteriorMaintenance :=
    sum_or_zero CostDashboard.cost (CostDashboard.data maintenanceRes) in
  let totalCost :=
    housePurchase + appliances + applianceInstallation + applianceRepairs
    + exteriorFeatures + exteriorMaintenance in
  {| housePurchase := housePurchase;
     appliances := appliances;
     applianceInstallation := applianceInstallation;
     applianceRepairs := applianceRepairs;
     exteriorFeatures := exteriorFeatures;
     exteriorMaintenance := exteriorMaintenance;
     totalCost := totalCost |}.

(** *** Specification side *)

(** [x || 0] on a number: a falsy one reads as 0. *)
Definition unless_falsy (x : Arith.number N) : Arith.number N :=
  if Arith.falsy N x then Arith.zero N else x.

(** A cost as it enters a sum: a missing, null or non-numeric value reads
    as 0, a number as itself (a falsy number, NaN included, as 0). *)
Definition coalesce (v : Js.value) : Arith.number N :=
  match v with
  | Js.VNumber q => unless_falsy (Arith.parse N q)
  | Js.VUndefined | Js.VNull | Js.VNonNumeric => Arith.zero N
  end.

(** The sum of a list of amounts, each added in turn to what has been
    summed so far, starting from 0 at the head of the list. *)
Definition sum (l : list (Arith.number N)) : Arith.number N :=
  fold_left (fun s x => s + x) l (Arith.zero N).

End Over.

End CostSums.

(** ** File upload widget (FileUpload.handleFileSelect) *)

Module FileUpload.

Local Open Scope string_scope.
Local Open Scope Z_scope.

(** A [File] of the browser: name, size in bytes, MIME type. *)
Record File : Type := {
  name : string;
  size : Z;
  type : string
}.

Record UploadedFile : Type := {
  file_name : string;
  file_url : string;
  file_type : string;
  file_size : Z
}.

(** The props the handler reads.  The two limits are optional; they are
    whole numbers wherever the component is used. *)
Record Props : Type := {
  existingFiles : list UploadedFile;
  maxFiles : option Z;
  maxSizeMB : option Z
}.

(** Default parameter values [maxFiles = 10], [maxSizeMB = 5]. *)
Definition maxFiles_of (p : Props) : Z :=
  match maxFiles p with
  | Some n => n
  | None => 10
  end.

Definition maxSizeMB_of (p : Props) : Z :=
  match maxSizeMB p with
  | Some n => n
  | None => 5
  end.

(** A whole number inside a template literal. *)
Definition show (n : Z) : string := NilZero.string_of_int (Z.to_int n).

(** [file.type || 'application/octet-stream'] *)
Definition type_or_default (t : string) : string :=
  if String.eqb t "" then "application/octet-stream" else t.

(** What one run of the handler did: the [setError] calls in order, and
    the argument of [onFilesSelected] when it was called. *)
Record Effects : Type := {
  setError_calls : list string;
  onFilesSelected_call : option (list UploadedFile)
}.

(** The loop variables: the errors set so far and [uploadedFiles]. *)
Record Loop : Type := {
  errors : list string;
  uploadedFiles : list UploadedFile
}.

Section Handler.

Variable props : Props.
(** [fileToBase64]: the data URI of the file, or [None] when the
    reader fails and the promise rejects. *)
Variable fileToBase64 : File -> option string.

Definition step (maxSize : Z) (st : Loop) (file : File) : Loop :=
  if size file >? maxSize then
    {| errors := errors st
                 ++ ["File " ++ name file ++ " exceeds "
                     ++ show (maxSizeMB_of props) ++ "MB limit"];
       uploadedFiles := uploadedFiles st |}
  else
    match fileToBase64 file with
    | Some base64 =>
        {| errors := errors st;
           uploadedFiles :=
             uploadedFiles st
             ++ [{| file_name := name file;
                    file_url := base64;
                    file_type := type_or_default (type file);
                    file_size := size file |}] |}
    | None =>
        {| errors := errors st ++ ["Failed to upload " ++ name file];
           uploadedFiles := uploadedFiles st |}
    end.

(** [for (const file of fileArray) { ... }] *)
Definition for_of (maxSize : Z) (fileArray : list File) (st : Loop) : Loop :=
  fold_left (step maxSize) fileArray st.

Definition handleFileSelect (files : option (list File)) : Effects :=
  match files with
  | None => {| setError_calls := []; onFilesSelected_call := None |}
  | Some fileArray =>
      if Z.of_nat (List.length (existingFiles props))
         + Z.of_nat (List.length fileArray) >? maxFiles_of props
      then
        {| setError_calls :=
             [""; "Maximum " ++ show (maxFiles_of props) ++ " files allowed"];
           onFilesSelected_call := None |}
      else
        let maxSize := maxSizeMB_of props * 1024 * 1024 in
        let st := for_of maxSize fileArray
                         {| errors := [""]; uploadedFiles := [] |} in
        {| setError_calls := errors st;
           onFilesSelected_call :=
             if Z.of_nat (List.length (uploadedFiles st)) >? 0
             then Some (uploadedFiles st) else None |}
  end.

(** The [error] state after the run: the last value set, if any. *)
Definition error_after (before : string) (e : Effects) : string :=
  last (setError_calls e) before.

(** *** Specification side *)

(** The entry added for a file whose data URI is [base64]. *)
Definition uploaded (file : File) (base64 : string) : UploadedFile :=
  {| file_name := name file;
     file_url := base64;
     file_type := type_or_default (type file);
     file_size := size file |}.

(** The files of a batch that are within the size limit and that the
    reader could encode, in batch order. *)
Definition accepted (maxSize : Z) (batch : list File) : list UploadedFile :=
  flat_map (fun file =>
              if size file <=? maxSize then
                match fileToBase64 file with
                | Some base64 => [uploaded file base64]
                | None => []
                end
              else [])
           batch.

Definition too_large_message (file : File) : string :=
  "File " ++ name file ++ " exceeds " ++ show (maxSizeMB_of props)
  ++ "MB limit".

(** The messages a batch raises, in batch order. *)
Definition raised (maxSize : Z) (batch : list File) : list string :=
  flat_map (fun file =>
              if size file <=? maxSize then
                match fileToBase64 file with
                | Some _ => []
                | None => ["Failed to upload " ++ name file]
                end
              else [too_large_message file])
           batch.

End Handler.

End FileUpload.

(** ** Example data *)

Module Examples.

Import Db CostDashboard.
Local Open Scope string_scope.

Definition house (hid user : uuid) (paid sold : option Z)
           (bought sold_in : option Z) : houses_row :=
  {| h_id := hid; h_user_id := user;
     h_year_bought := option_map Js.ofZ bought;
     h_year_sold := option_map Js.ofZ sold_in;
     h_price_paid := option_map Js.ofZ paid;
     h_price_sold := option_map Js.ofZ sold;
     h_square_footage := None;
     h_country := Some Currency.UnitedStates;
     h_deleted_at := None |}.

(** The end-to-end scenario: a house bought for 300000 with one appliance
    (1200 + 300 installation), one repair on it (150), one exterior
    feature (5000) and one maintenance record (800). *)
Definition scenario_db : Database :=
  {| houses := [house "h1" "alice" (Some 300000%Z) None (Some 2020%Z) None];
     interior_appliances :=
       [{| ia_id := "a1"; ia_house_id := "h1";
           ia_purchase_cost := Some (Js.ofZ 1200);
           ia_installation_cost := Some (Js.ofZ 300);
           ia_deleted_at := None |}];
     appliance_repairs :=
       [{| ar_id := "r1"; ar_appliance_id := "a1";
           ar_repair_cost := Some (Js.ofZ 150); ar_deleted_at := None |}];
     appliance_attachments :=
       [{| aa_id := "f1"; aa_appliance_id := "a1";
           aa_file_name := "manual.pdf"; aa_deleted_at := None |}];
     exterior_features :=
       [{| ef_id := "e1"; ef_house_id := "h1";
           ef_build_cost := Some (Js.ofZ 5000); ef_deleted_at := None |}];
     exterior_maintenance :=
       [{| em_id := "m1"; em_house_id := "h1";
           em_cost := Some (Js.ofZ 800); em_deleted_at := None |}] |}.

Definition scenario_costs : CostBreakdown :=
  {| housePurchase := Js.ofZ 300000;
     appliances := Js.ofZ 1200;
     applianceInstallation := Js.ofZ 300;
     applianceRepairs := Js.ofZ 150;
     exteriorFeatures := Js.ofZ 5000;
     exteriorMaintenance := Js.ofZ 800;
     totalCost := Js.ofZ 307450 |}.

(** The scenario with rows in the trash, rows of another house, and a
    repair of a trashed appliance added. *)
Definition crowded_db : Database :=
  {| houses := houses scenario_db
               ++ [house "h2" "bob" (Some 1%Z) None None None];
     interior_appliances :=
       interior_appliances scenario_db
       ++ [{| ia_id := "a2"; ia_house_id := "h1";
              ia_purchase_cost := Some (Js.ofZ 999);
              ia_installation_cost := None;
              ia_deleted_at := Some 17%Z |};
           {| ia_id := "a3"; ia_house_id := "h2";
              ia_purchase_cost := Some (Js.ofZ 40);
              ia_installation_cost := Some (Js.ofZ 2);
              ia_deleted_at := None |}];
     appliance_repairs :=
       appliance_repairs scenario_db
       ++ [{| ar_id := "r2"; ar_appliance_id := "a1";
              ar_repair_cost := Some (Js.ofZ 75);
              ar_deleted_at := Some 18%Z |};
           {| ar_id := "r3"; ar_appliance_id := "a2";
              ar_repair_cost := Some (Js.ofZ 60); ar_deleted_at := None |};
           {| ar_id := "r4"; ar_appliance_id := "a3";
              ar_repair_cost := None; ar_deleted_at := None |}];
     appliance_attachments := appliance_attachments scenario_db;
     exterior_features :=
       exterior_features scenario_db
       ++ [{| ef_id := "e2"; ef_house_id := "h1";
              ef_build_cost := Some (Js.ofZ 7); ef_deleted_at := Some 3%Z |}];
     exterior_maintenance :=
       exterior_maintenance scenario_db
       ++ [{| em_id := "m2"; em_house_id := "h2";
              em_cost := Some (Js.ofZ 9); em_deleted_at := None |}] |}.

(** The scenario's client, except that the appliances read comes back as
    [{ data: null, error }]. *)
Definition appliances_error_client : Client :=
  let c := db_client scenario_db in
  {| select_house := select_house c;
     select_appliances := fun _ =>
       Fulfilled {| data := None; error := Some "connection lost" |};
     select_features := select_features c;
     select_maintenance := select_maintenance c;
     select_repairs := select_repairs c |}.

(** The scenario's client, except that the maintenance read rejects. *)
Definition maintenance_rejecting_client : Client :=
  let c := db_client scenario_db in
  {| select_house := select_house c;
     select_appliances := select_appliances c;
     select_features := select_features c;
     select_maintenance := fun _ => Rejected "Failed to fetch";
     select_repairs := select_repairs c |}.

(** What a load that lost the appliances read leaves in [costs]. *)
Definition partial_costs : CostBreakdown :=
  {| housePurchase := Js.ofZ 300000;
     appliances := Js.ofZ 0;
     applianceInstallation := Js.ofZ 0;
     applianceRepairs := Js.ofZ 0;
     exteriorFeatures := Js.ofZ 5000;
     exteriorMaintenance := Js.ofZ 800;
     totalCost := Js.ofZ 305800 |}.

(** The scenario's house with no appliance at all. *)
Definition bare_db : Database :=
  {| houses := houses scenario_db;
     interior_appliances := [];
     appliance_repairs := appliance_repairs scenario_db;
     appliance_attachments := [];
     exterior_features := exterior_features scenario_db;
     exterior_maintenance := exterior_maintenance scenario_db |}.

Definition component_of (h : HouseInfo) (c : CostBreakdown) : Component :=
  {| costs := c; houseInfo := Some h; loading := false |}.

Definition info (paid sold : option Z) (bought sold_in : option Z)
  : HouseInfo :=
  houseInfo_of (house "h1" "alice" paid sold bought sold_in).

(** An upload of three files under the default limits: a small image, a
    document one byte over 5 MB, and an untyped file of exactly 5 MB. *)
Definition default_props : FileUpload.Props :=
  {| FileUpload.existingFiles := [];
     FileUpload.maxFiles := None;
     FileUpload.maxSizeMB := None |}.

Definition upload_batch : list FileUpload.File :=
  [{| FileUpload.name := "a.png"; FileUpload.size := 10;
      FileUpload.type := "image/png" |};
   {| FileUpload.name := "big.pdf"; FileUpload.size := 5242881;
      FileUpload.type := "application/pdf" |};
   {| FileUpload.name := "notes"; FileUpload.size := 5242880;
      FileUpload.type := "" |}].

Definition data_uri (file : FileUpload.File) : option string :=
  Some ("data:" ++ FileUpload.type file ++ ";base64,AAAA").

End Examples.

(** ** The other stored procedures of the soft-delete migrations *)

Module DbOps.

Import Db.

(** [deleted_at IS NOT NULL] *)
Definition is_not_null {A : Type} (v : option A) : bool := negb (is_null v).

(** [DELETE FROM table WHERE cond] *)
Definition delete_where {R : Type} (cond : R -> bool) (table : list R)
  : list R :=
  filter (fun r => negb (cond r)) table.

Definition with_interior_appliances (db : Database)
           (t : list interior_appliances_row) : Database :=
  {| houses := houses db; interior_appliances := t;
     appliance_repairs := appliance_repairs db;
     appliance_attachments := appliance_attachments db;
     exterior_features := exterior_features db;
     exterior_maintenance := exterior_maintenance db |}.

Definition with_appliance_repairs (db : Database)
           (t : list appliance_repairs_row) : Database :=
  {| houses := houses db; interior_appliances := interior_appliances db;
     appliance_repairs := t;
     appliance_attachments := appliance_attachments db;
     exterior_features := exterior_features db;
     exterior_maintenance := exterior_maintenance db |}.

Definition with_appliance_attachments (db : Database)
           (t : list appliance_attachments_row) : Database :=
  {| houses := houses db; interior_appliances := interior_appliances db;
     appliance_repairs := appliance_repairs db;
     appliance_attachments := t;
     exterior_features := exterior_features db;
     exterior_maintenance := exterior_maintenance db |}.

Definition with_exterior_features (db : Database)
           (t : list exterior_features_row) : Database :=
  {| houses := houses db; interior_appliances := interior_appliances db;
     appliance_repairs := appliance_repairs db;
     appliance_attachments := appliance_attachments db;
     exterior_features := t;
     exterior_maintenance := exterior_maintenance db |}.

Definition with_exterior_maintenance (db : Database)
           (t : list exterior_maintenance_row) : Database :=
  {| houses := houses db; interior_appliances := interior_appliances db;
     appliance_repairs := appliance_repairs db;
     appliance_attachments := appliance_attachments db;
     exterior_features := exterior_features db;
     exterior_maintenance := t |}.

Definition set_ef_deleted_at (t : option timestamptz)
           (f : exterior_features_row) : exterior_features_row :=
  {| ef_id := ef_id f; ef_house_id := ef_house_id f;
     ef_build_cost := ef_build_cost f; ef_deleted_at := t |}.

Definition set_em_deleted_at (t : option timestamptz)
           (m : exterior_maintenance_row) : exterior_maintenance_row :=
  {| em_id := em_id m; em_house_id := em_house_id m;
     em_cost := em_cost m; em_deleted_at := t |}.

(** The three statements of restore_appliance, in order. *)
Definition restore_appliance (auth_uid : option uuid) (appliance_id : uuid)
           (db : Database) : Database :=
  let db1 :=
    with_interior_appliances db
      (update_where
         (fun a => String.eqb (ia_id a) appliance_id
                   && is_not_null (ia_deleted_at a)
                   && exists_owned_house auth_uid db (ia_house_id a))
         (set_ia_deleted_at None)
         (interior_appliances db)) in
  let db2 :=
    with_appliance_repairs db1
      (update_where
         (fun r => String.eqb (ar_appliance_id r) appliance_id
                   && is_not_null (ar_deleted_at r))
         (set_ar_deleted_at None)
         (appliance_repairs db1)) in
  with_appliance_attachments db2
    (update_where
       (fun f => String.eqb (aa_appliance_id f) appliance_id
                 && is_not_null (aa_deleted_at f))
       (set_aa_deleted_at None)
       (appliance_attachments db2)).

(** [EXISTS (SELECT 1 FROM interior_appliances ia
             JOIN houses h ON h.id = ia.house_id
             WHERE ia.id = appliance_id AND h.user_id = auth.uid())] *)
Definition exists_owned_appliance (auth_uid : option uuid) (db : Database)
           (appliance_id : uuid) : bool :=
  existsb (fun ia => String.eqb (ia_id ia) appliance_id
                     && exists_owned_house auth_uid db (ia_house_id ia))
          (interior_appliances db).

(** The three DELETE statements of permanent_delete_appliance, in order.
    Whenever the last one removes an appliance row, the first two have
    removed every row that references it, so the foreign keys' ON DELETE
    CASCADE has nothing left to remove. *)
Definition permanent_delete_appliance (auth_uid : option uuid)
           (appliance_id : uuid) (db : Database) : Database :=
  let db1 :=
    with_appliance_repairs db
      (delete_where
         (fun r => String.eqb (ar_appliance_id r) appliance_id
                   && exists_owned_appliance auth_uid db appliance_id)
         (appliance_repairs db)) in
  let db2 :=
    with_appliance_attachments db1
      (delete_where
         (fun f => String.eqb (aa_appliance_id f) appliance_id
                   && exists_owned_appliance auth_uid db1 appliance_id)
         (appliance_attachments db1)) in
  with_interior_appliances db2
    (delete_where
       (fun a => String.eqb (ia_id a) appliance_id
                 && exists_owned_house auth_uid db2 (ia_house_id a))
       (interior_appliances db2)).

Definition soft_delete_exterior_feature (auth_uid : option uuid)
           (now : timestamptz) (feature_id : uuid) (db : Database)
  : Database :=
  with_exterior_features db
    (update_where
       (fun f => String.eqb (ef_id f) feature_id
                 && is_null (ef_deleted_at f)
                 && exists_owned_house auth_uid db (ef_house_id f))
       (set_ef_deleted_at (Some now))
       (exterior_features db)).

Definition restore_exterior_feature (auth_uid : option uuid)
           (feature_id : uuid) (db : Database) : Database :=
  with_exterior_features db
    (update_where
       (fun f => String.eqb (ef_id f) feature_id
                 && is_not_null (ef_deleted_at f)
                 && exists_owned_house auth_uid db (ef_house_id f))
       (set_ef_deleted_at None)
       (exterior_features db)).

Definition soft_delete_exterior_maintenance (auth_uid : option uuid)
           (now : timestamptz) (maintenance_id : uuid) (db : Database)
  : Database :=
  with_exterior_maintenance db
    (update_where
       (fun m => String.eqb (em_id m) maintenance_id
                 && is_null (em_deleted_at m)
                 && exists_owned_house auth_uid db (em_house_id m))
       (set_em_deleted_at (Some now))
       (exterior_maintenance db)).

Definition restore_exterior_maintenance (auth_uid : option uuid)
           (maintenance_id : uuid) (db : Database) : Database :=
  with_exterior_maintenance db
    (update_where
       (fun m => String.eqb (em_id m) maintenance_id
                 && is_not_null (em_deleted_at m)
                 && exists_owned_house auth_uid db (em_house_id m))
       (set_em_deleted_at None)
       (exterior_maintenance db)).

(** *** Rooms (add_room_soft_delete_functions) *)

Record rooms_row : Type := {
  rm_id : uuid;
  rm_house_id : uuid;
  rm_room_type : string;
  rm_deleted_at : option timestamptz
}.

Definition set_rm_deleted_at (t : option timestamptz) (r : rooms_row)
  : rooms_row :=
  {| rm_id := rm_id r; rm_house_id := rm_house_id r;
     rm_room_type := rm_room_type r; rm_deleted_at := t |}.

(** The room procedures read [houses] and write [rooms] only; they are
    given the database for the first and the rooms table for the second. *)
Definition soft_delete_room (auth_uid : option uuid) (now : timestamptz)
           (room_id : uuid) (db : Database) (rooms : list rooms_row)
  : list rooms_row :=
  update_where
    (fun r => String.eqb (rm_id r) room_id
              && is_null (rm_deleted_at r)
              && exists_owned_house auth_uid db (rm_house_id r))
    (set_rm_deleted_at (Some now))
    rooms.

Definition restore_room (auth_uid : option uuid) (room_id : uuid)
           (db : Database) (rooms : list rooms_row) : list rooms_row :=
  update_where
    (fun r => String.eqb (rm_id r) room_id
              && is_not_null (rm_deleted_at r)
              && exists_owned_house auth_uid db (rm_house_id r))
    (set_rm_deleted_at None)
    rooms.

Definition permanent_delete_room (auth_uid : option uuid) (room_id : uuid)
           (db : Database) (rooms : list rooms_row) : list rooms_row :=
  delete_where
    (fun r => String.eqb (rm_id r) room_id
              && exists_owned_house auth_uid db (rm_house_id r))
    rooms.

(** Specification side: the caller is the user of a house with this id. *)
Definition owns_house (auth_uid : option uuid) (db : Database)
           (house_id : uuid) : Prop :=
  exists h, In h (houses db) /\ h_id h = house_id
            /\ Some (h_user_id h) = auth_uid.

End DbOps.

(** ** More example data *)

Module MoreExamples.

Import Db DbOps.
Local Open Scope string_scope.

Definition the_appliance : interior_appliances_row :=
  {| ia_id := "a1"; ia_house_id := "h1";
     ia_purchase_cost := Some (Js.ofZ 1200);
     ia_installation_cost := Some (Js.ofZ 300);
     ia_deleted_at := None |}.

Definition the_feature : exterior_features_row :=
  {| ef_id := "e1"; ef_house_id := "h1";
     ef_build_cost := Some (Js.ofZ 5000); ef_deleted_at := None |}.

Definition the_maintenance : exterior_maintenance_row :=
  {| em_id := "m1"; em_house_id := "h1";
     em_cost := Some (Js.ofZ 800); em_deleted_at := None |}.

Definition the_rooms : list rooms_row :=
  [{| rm_id := "k1"; rm_house_id := "h1"; rm_room_type := "Kitchen";
      rm_deleted_at := None |};
   {| rm_id := "b1"; rm_house_id := "h1"; rm_room_type := "Bedroom";
      rm_deleted_at := None |}].

End MoreExamples.

(** ** The dashboard's mount effect *)

Module CostDashboardEffect.

Import Db CostDashboard.
Local Open Scope Qc_scope.

(** [useEffect(() => { if (houseId) loadCosts(); else setLoading(false); },
    [houseId])] *)
Definition houseId_effect (supabase : Client) (houseId : option uuid)
  : Async unit :=
  if falsy_id houseId then setLoading false
  else loadCosts supabase houseId.

(** Specification side: a fetched cost that, when it is a number, is not
    negative. *)
Definition not_negative (v : Js.value) : Prop :=
  match v with
  | Js.VNumber x => Js.zero <= x
  | Js.VUndefined | Js.VNull | Js.VNonNumeric => True
  end.

(** Specification side: one of the reads that loadCosts awaits rejects with
    [e]: a read of the first phase, or the repair lookup when the appliances
    read brought rows. *)
Definition some_read_rejects (supabase : Client) (hid : uuid) (e : Error)
  : Prop :=
  select_house supabase hid = Rejected e
  \/ select_appliances supabase hid = Rejected e
  \/ select_features supabase hid = Rejected e
  \/ select_maintenance supabase hid = Rejected e
  \/ exists appliancesRes,
       select_appliances supabase hid = Fulfilled appliancesRes
       /\ non_empty (data appliancesRes) = true
       /\ select_repairs supabase (map id (rows_or_nil (data appliancesRes)))
          = Rejected e.

End CostDashboardEffect.

(** ** Delete confirmation (DeleteConfirmationModal, HouseDetails) *)

Module DeleteConfirmation.

Import Db.
Local Open Scope string_scope.

(** The browser's localStorage: a map from keys to strings. *)
Definition Storage : Type := string -> option string.

Definition getItem (st : Storage) (key : string) : option string := st key.

Definition setItem (key value : string) (st : Storage) : Storage :=
  fun k => if String.eqb k key then Some value else st k.

Definition STORAGE_KEY : string := "hideDeleteConfirmation".

(** [localStorage.getItem(STORAGE_KEY) !== 'true'] *)
Definition shouldShowDeleteConfirmation (st : Storage) : bool :=
  match getItem st STORAGE_KEY with
  | Some v => negb (String.eqb v "true")
  | None => true
  end.

(** What handleConfirm does to the storage, before it calls onConfirm and
    onClose. *)
Definition handleConfirm (dontShowAgain : bool) (st : Storage) : Storage :=
  if dontShowAgain then setItem STORAGE_KEY "true" st else st.

(** The fields of a room that the delete flow reads. *)
Record Room : Type := {
  id : uuid;
  room_type : string;
  room_type_other : option string
}.

Record ConfirmationState : Type := {
  isOpen : bool;
  roomId : option uuid;
  roomName : string
}.

(** [room.room_type === 'Other' && room.room_type_other
      ? room.room_type_other : room.room_type] *)
Definition roomName_of (room : Room) : string :=
  match room_type_other room with
  | Some other =>
      if String.eqb (room_type room) "Other"
         && negb (String.eqb other "")
      then other else room_type room
  | None => room_type room
  end.

(** What a click on a room's delete button leads to. *)
Inductive Click : Type :=
| SetDeleteConfirmation (d : ConfirmationState)
| CallDeleteRoom (roomId : uuid).

Definition handleDeleteRoomClick (st : Storage) (room : Room) : Click :=
  if shouldShowDeleteConfirmation st then
    SetDeleteConfirmation
      {| isOpen := true; roomId := Some (id room);
         roomName := roomName_of room |}
  else CallDeleteRoom (id room).

(** deleteRoom: the room list and the console entries after the rpc
    'permanent_delete_room' has settled. *)
Definition deleteRoom (rpc : CostDashboard.Settled unit) (rooms : list Room)
           (roomId : uuid)
  : list Room * list (string * CostDashboard.Error) :=
  match rpc with
  | CostDashboard.Fulfilled r =>
      match CostDashboard.error r with
      | Some e => (rooms, [("Error deleting room:", e)])
      | None =>
          (filter (fun r => negb (String.eqb (id r) roomId)) rooms, [])
      end
  | CostDashboard.Rejected e => (rooms, [("Error deleting room:", e)])
  end.

End DeleteConfirmation.

(** ** Attachments of the appliance form (InteriorAppliances) *)

Module Attachments.

Import FileUpload.

(** The props the appliance form gives to FileUpload. *)
Definition props_of (uploadedFiles : list UploadedFile) : Props :=
  {| existingFiles := uploadedFiles;
     maxFiles := Some 10%Z;
     maxSizeMB := Some 5%Z |}.

(** [onFilesSelected={(files) => setUploadedFiles([...uploadedFiles,
    ...files])}] *)
Definition onFilesSelected (uploadedFiles files : list UploadedFile)
  : list UploadedFile :=
  uploadedFiles ++ files.

(** [array.filter((_, i) => i !== index)] *)
Fixpoint filter_index {A : Type} (index : nat) (l : list A) : list A :=
  match l with
  | [] => []
  | x :: xs =>
      match index with
      | O => xs
      | S i => x :: filter_index i xs
      end
  end.

(** [onRemoveFile={(index) => setUploadedFiles(uploadedFiles.filter(...))}] *)
Definition onRemoveFile (uploadedFiles : list UploadedFile) (index : nat)
  : list UploadedFile :=
  filter_index index uploadedFiles.

(** What the user does with the form: select or drop files, remove an
    entry, or save, cancel or start an edit ([setUploadedFiles([])]). *)
Inductive Action : Type :=
| Select (files : option (list File))
| Remove (index : nat)
| Clear.

Section Form.

Variable fileToBase64 : File -> option string.

(** The uploaded list after one action. *)
Definition act (uploadedFiles : list UploadedFile) (a : Action)
  : list UploadedFile :=
  match a with
  | Select files =>
      match onFilesSelected_call
              (handleFileSelect (props_of uploadedFiles) fileToBase64 files)
      with
      | Some selected => onFilesSelected uploadedFiles selected
      | None => uploadedFiles
      end
  | Remove index => onRemoveFile uploadedFiles index
  | Clear => []
  end.

(** The list after a series of actions on the empty form
    ([useState<UploadedFile[]>([])]). *)
Definition after (actions : list Action) : list UploadedFile :=
  fold_left act actions [].

End Form.

End Attachments.

(** ** Sign-in form (AuthForm) *)

Module AuthForm.

Local Open Scope string_scope.

(** A password as JavaScript sees it: a sequence of UTF-16 code units. *)
Definition code_unit : Type := N.

Definition units (s : string) : list code_unit :=
  map N_of_ascii (list_ascii_of_string s).

(** The character class of the regular expression in [hasSpecialChar]:
    ! @ # $ % ^ & * ( ) , . ? (double quote, 34) : { } | < > _ - + = [ ]
    backslash and slash. *)
Definition special : list code_unit :=
  (units "!@#$%^&*(),.?" ++ [34%N] ++ units ":{}|<>_-+=[]\/")%list.

(** [password.length >= 6] *)
Definition hasMinLength (password : list code_unit) : bool :=
  (6 <=? List.length password)%nat.

(** [/[...]/.test(password)] *)
Definition hasSpecialChar (password : list code_unit) : bool :=
  existsb (fun c => existsb (N.eqb c) special) password.

Definition isPasswordValid (password : list code_unit) : bool :=
  hasMinLength password && hasSpecialChar password.

Record State : Type := {
  isSignUp : bool;
  isForgotPassword : bool;
  email : string;
  password : list code_unit;
  error : string;
  loading : bool;
  resetEmailSent : bool
}.

Definition setError (e : string) (st : State) : State :=
  {| isSignUp := isSignUp st; isForgotPassword := isForgotPassword st;
     email := email st; password := password st; error := e;
     loading := loading st; resetEmailSent := resetEmailSent st |}.

Definition setLoading (b : bool) (st : State) : State :=
  {| isSignUp := isSignUp st; isForgotPassword := isForgotPassword st;
     email := email st; password := password st; error := error st;
     loading := b; resetEmailSent := resetEmailSent st |}.

Definition setResetEmailSent (b : bool) (st : State) : State :=
  {| isSignUp := isSignUp st; isForgotPassword := isForgotPassword st;
     email := email st; password := password st; error := error st;
     loading := loading st; resetEmailSent := b |}.

(** How a call to the auth context ends: it resolves to [{ error }], the
    error carrying a message, or it throws. *)
Inductive AuthResult : Type :=
| Resolved (error_message : option string)
| Threw.

Inductive AuthCall : Type :=
| SignUp (email : string) (password : list code_unit)
| SignIn (email : string) (password : list code_unit)
| ResetPassword (email : string).

Section Handlers.

Variable signUp : string -> list code_unit -> AuthResult.
Variable signIn : string -> list code_unit -> AuthResult.
Variable resetPassword : string -> AuthResult.

(** The [try { ... } catch { ... } finally { setLoading(false) }] that both
    handlers share, given how the awaited call ended and what to do when it
    resolved without an error. *)
Definition settle (r : AuthResult) (on_success : State -> State)
           (st : State) : State :=
  setLoading false
    (match r with
     | Resolved (Some message) => setError message st
     | Resolved None => on_success st
     | Threw => setError "An unexpected error occurred" st
     end).

(** The state after the handler and the calls it made to the context. *)
Definition handleSubmit (st : State) : State * list AuthCall :=
  let st1 := setError "" st in
  if isSignUp st && negb (isPasswordValid (password st)) then
    (setError "Please meet all password requirements" st1, [])
  else
    let st2 := setLoading true st1 in
    if isSignUp st then
      (settle (signUp (email st) (password st)) (fun s => s) st2,
       [SignUp (email st) (password st)])
    else
      (settle (signIn (email st) (password st)) (fun s => s) st2,
       [SignIn (email st) (password st)]).

Definition handlePasswordReset (st : State) : State * list AuthCall :=
  let st1 := setError "" st in
  let st2 := setLoading true st1 in
  (settle (resetPassword (email st)) (setResetEmailSent true) st2,
   [ResetPassword (email st)]).

End Handlers.

End AuthForm.

(** ** Example forms and clients *)

Module FormExamples.

Import Db CostDashboard AuthForm.
Local Open Scope string_scope.


(** A component that still shows a house sold in 2024 for 350000. *)
Definition sold_component : Component :=
  Examples.component_of
    (Examples.info (Some 300000%Z) (Some 350000%Z) (Some 2020%Z) (Some 2024%Z))
    Examples.scenario_costs.

Definition form (sign_up : bool) (pw : string) : State :=
  {| isSignUp := sign_up; isForgotPassword := false;
     email := "ann@example.org"; password := units pw;
     error := "stale"; loading := false; resetEmailSent := false |}.

Definition same_units (p q : list code_unit) : bool :=
  (List.length p =? List.length q)%nat
  && forallb (fun ab => N.eqb (fst ab) (snd ab)) (combine p q).

(** An auth service that knows one account. *)
Definition signIn_service (e : string) (p : list code_unit) : AuthResult :=
  if String.eqb e "ann@example.org" && same_units p (units "s3cret!")
  then Resolved None
  else Resolved (Some "Invalid login credentials").

Definition signUp_service (e : string) (p : list code_unit) : AuthResult :=
  Resolved None.

Definition reset_service (e : string) : AuthResult := Resolved None.

(** A formatter that only reports the locale it was asked for. *)
Definition locale_only (locale : string) (o : Currency.NumberFormatOptions)
           (amount : Js.number) : string :=
  locale.

End FormExamples.

(** ** Upload widgets with limits of their own *)

Module UploadExamples.

Import FileUpload.
Local Open Scope string_scope.
Local Open Scope Z_scope.

(** A widget limited to 3 files of at most 1 MB each, with nothing
    attached yet. *)
Definition small_props : Props :=
  {| existingFiles := []; maxFiles := Some 3; maxSizeMB := Some 1 |}.

(** The same widget with two files attached. *)
Definition full_props : Props :=
  {| existingFiles :=
       [{| file_name := "one.png"; file_url := "data:image/png;base64,AAAA";
           file_type := "image/png"; file_size := 10 |};
        {| file_name := "two.png"; file_url := "data:image/png;base64,AAAA";
           file_type := "image/png"; file_size := 10 |}];
     maxFiles := Some 3;
     maxSizeMB := Some 1 |}.

(** A small image and a document of 2 MB. *)
Definition small_batch : list File :=
  [{| name := "a.png"; size := 10; type := "image/png" |};
   {| name := "scan.pdf"; size := 2097152; type := "application/pdf" |}].

End UploadExamples.

(** ** Responses for the breakdown *)

Module SumExamples.

Import CostDashboard.
Local Open Scope string_scope.

Definition answer {A : Type} (a : A) : Response A :=
  {| data := Some a; error := None |}.

(** The decimal [n / d] as a cell. *)
Definition decimal (n : Z) (d : positive) : Js.value :=
  Js.VNumber (Q2Qc (n # d)).

Definition whole (n : Z) : Js.value := Js.VNumber (Js.ofZ n).

(** What the reads of the end-to-end scenario resolve to. *)
Definition scenario_house : Response HouseInfo :=
  answer (Examples.info (Some 300000%Z) None (Some 2020%Z) None).

Definition scenario_appliances : Response (list ApplianceCosts) :=
  answer [{| purchase_cost := whole 1200; installation_cost := whole 300;
             id := "a1" |}].

Definition scenario_repairs : Response (list RepairCost) :=
  answer [{| repair_cost := whole 150 |}].

Definition scenario_features : Response (list FeatureCost) :=
  answer [{| build_cost := whole 5000 |}].

Definition scenario_maintenance : Response (list MaintenanceCost) :=
  answer [{| cost := whole 800 |}].

(** housePurchase, appliances, applianceInstallation, applianceRepairs,
    exteriorFeatures, exteriorMaintenance and totalCost of the scenario. *)
Definition scenario_costs : CostSums.CostBreakdown Arith.binary64 :=
  @CostSums.Build_CostBreakdown Arith.binary64
    300000%float 1200%float 300%float 150%float 5000%float 800%float
    307450%float.

(** A house with no price recorded and costs in cents: three appliances
    bought for 19.99, 5.01 and 0.10 and installed for 0.10, 0.20 and
    nothing (null); repairs of 0.70 and 0.10 with, between them, one whose
    cost is missing and one whose cost is not a number. *)
Definition cents_house : Response HouseInfo :=
  answer (Examples.info None None (Some 2020%Z) None).

Definition cents_appliances : Response (list ApplianceCosts) :=
  answer [{| purchase_cost := decimal 1999 100;
             installation_cost := decimal 1 10; id := "a1" |};
          {| purchase_cost := decimal 501 100;
             installation_cost := decimal 2 10; id := "a2" |};
          {| purchase_cost := decimal 1 10;
             installation_cost := Js.VNull; id := "a3" |}].

Definition cents_repairs : Response (list RepairCost) :=
  answer [{| repair_cost := decimal 7 10 |};
          {| repair_cost := Js.VUndefined |};
          {| repair_cost := Js.VNonNumeric |};
          {| repair_cost := decimal 1 10 |}].

Definition no_rows {A : Type} : Response (list A) := answer [].

End SumExamples.

(** * Properties *)

(** ** Currency formatter *)

Section CurrencyFacts.

Import Currency.
Local Open Scope string_scope.

(** The entries of the table other than the symbol of the United Kingdom,
    and the null/undefined fallback. *)
Lemma currencyMap_entries :
  currencyMap UnitedStates
  = {| code := "USD"; symbol := "$"; locale := "en-US" |}
  /\ currencyMap Canada
     = {| code := "CAD"; symbol := "C$"; locale := "en-CA" |}
  /\ currencyMap Mexico
     = {| code := "MXN"; symbol := "MX$"; locale := "es-MX" |}
  /\ code (currencyMap UnitedKingdom) = "GBP"
  /\ locale (currencyMap UnitedKingdom) = "en-GB"
  /\ currencyMap Other = currencyMap UnitedStates
  /\ currencyMap (orUnitedStates None) = currencyMap UnitedStates.
Proof. repeat split. Qed.

Lemma getCurrencySymbol_examples :
  getCurrencySymbol (Some Mexico) = "MX$"
  /\ getCurrencySymbol None = "$"
  /\ getCurrencySymbol (Some Other) = "$"
  /\ getCurrencySymbol (Some Canada) = "C$"
  /\ getCurrencySymbol (Some UnitedStates) = "$".
Proof. repeat split. Qed.

(** formatCurrency(1234.5, 'Canada') asks the platform for a currency
    rendering in CAD under en-CA with 2 to 2 fraction digits. *)
Lemma formatCurrency_Canada_default
      (fmt : string -> NumberFormatOptions -> Js.number -> string) :
  formatCurrency fmt (Q2Qc (2469 # 2)) (Some Canada) noOptions
  = fmt "en-CA"
        {| style := "currency"; currency := "CAD";
           fmt_minimumFractionDigits := 2;
           fmt_maximumFractionDigits := 2 |}
        (Q2Qc (2469 # 2)).
Proof. reflexivity. Qed.

(** C7 (United Kingdom entry).  The symbol that getCurrencySymbol returns
    for 'United Kingdom' is the four bytes C3 82 C2 A3 (the two characters
    U+00C2 U+00A3), which is not the pound sign U+00A3 (bytes C2 A3). *)
Theorem getCurrencySymbol_UnitedKingdom :
  list_ascii_of_string (getCurrencySymbol (Some UnitedKingdom))
  = map ascii_of_nat [195; 130; 194; 163]%nat
  /\ getCurrencySymbol (Some UnitedKingdom) <> pound_sign.
Proof.
  split; [reflexivity | discriminate].
Qed.

End CurrencyFacts.

(** ** Room label pluralizer *)

Section RoomLabelFacts.

Import RoomLabel.
Local Open Scope string_scope.

Lemma append_nil_r (s : string) : s ++ "" = s.
Proof. induction s as [|c s IH]; simpl; [reflexivity | now rewrite IH]. Qed.

Lemma append_assoc (a b c : string) : (a ++ b) ++ c = a ++ (b ++ c).
Proof. induction a as [|x a IH]; simpl; [reflexivity | now rewrite IH]. Qed.

Lemma endsWith_unfold (s suffix : string) :
  endsWith s suffix
  = String.eqb s suffix
    || match s with
       | EmptyString => false
       | String _ r => endsWith r suffix
       end.
Proof. destruct s; reflexivity. Qed.

Lemma endsWith_refl (s : string) : endsWith s s = true.
Proof. rewrite endsWith_unfold, String.eqb_refl. reflexivity. Qed.

Lemma endsWith_iff (s suffix : string) :
  endsWith s suffix = true <-> exists pre, s = pre ++ suffix.
Proof.
  split.
  - induction s as [|c s IH]; rewrite endsWith_unfold; intros H.
    + rewrite orb_false_r in H. apply String.eqb_eq in H. now exists "".
    + apply orb_true_iff in H. destruct H as [H|H].
      * apply String.eqb_eq in H. now exists "".
      * destruct (IH H) as [pre ->]. now exists (String c pre).
  - intros [pre ->]. induction pre as [|c pre IH].
    + apply endsWith_refl.
    + rewrite endsWith_unfold. cbn [append]. rewrite IH. apply orb_true_r.
Qed.

Lemma toLowerCase_app (a b : string) :
  toLowerCase (a ++ b) = toLowerCase a ++ toLowerCase b.
Proof. induction a as [|c a IH]; simpl; [reflexivity | now rewrite IH]. Qed.

Lemma toLowerCase_app_inv (w a b : string) :
  toLowerCase w = a ++ b ->
  exists x y, w = x ++ y /\ toLowerCase x = a /\ toLowerCase y = b.
Proof.
  revert w. induction a as [|c a IH]; simpl; intros w H.
  - now exists "", w.
  - destruct w as [|d w]; simpl in H; [discriminate|].
    injection H as Hc Hw. destruct (IH _ Hw) as (x & y & -> & Hx & Hy).
    exists (String d x), y. simpl. now rewrite Hc, Hx.
Qed.

Lemma ends_with_ci_iff (w suffix : string) :
  ends_with_ci w suffix <-> endsWith (toLowerCase w) suffix = true.
Proof.
  rewrite endsWith_iff. split.
  - intros (stem & tail & -> & <-). exists (toLowerCase stem).
    apply toLowerCase_app.
  - intros [pre H]. apply toLowerCase_app_inv in H.
    destruct H as (x & y & -> & _ & Hy). now exists x, y.
Qed.

Lemma slice_0_m1_snoc (stem : string) (c : ascii) :
  slice_0_m1 (stem ++ String c "") = stem.
Proof.
  induction stem as [|d stem IH]; simpl; [reflexivity|].
  rewrite IH. destruct stem; reflexivity.
Qed.

(** The three ordered rules of pluralizeWord. *)
Lemma pluralizeWord_rules (w : string) :
  (ends_with_ci w "y" ->
   exists stem c, w = stem ++ String c ""
                  /\ (c = "y"%char \/ c = "Y"%char)
                  /\ pluralizeWord w = stem ++ "ies")
  /\ (~ ends_with_ci w "y" ->
      ends_with_ci w "ch" \/ ends_with_ci w "sh" \/ ends_with_ci w "s"
      \/ ends_with_ci w "x" \/ ends_with_ci w "z" ->
      pluralizeWord w = w ++ "es")
  /\ (~ ends_with_ci w "y" ->
      ~ (ends_with_ci w "ch" \/ ends_with_ci w "sh" \/ ends_with_ci w "s"
         \/ ends_with_ci w "x" \/ ends_with_ci w "z") ->
      pluralizeWord w = w ++ "s").
Proof.
  unfold pluralizeWord. repeat split.
  - intros H. pose proof H as H'. apply ends_with_ci_iff in H'. rewrite H'.
    destruct H as (stem & tail & -> & Ht).
    destruct tail as [|c [|d tail]]; simpl in Ht; try discriminate.
    exists stem, c. rewrite slice_0_m1_snoc. repeat split.
    injection Ht as Hc. unfold lower_ascii in Hc.
    destruct c as [[] [] [] [] [] [] [] []]; vm_compute in Hc;
      try discriminate Hc; auto.
  - intros Hy H. rewrite ends_with_ci_iff in Hy.
    apply not_true_is_false in Hy. rewrite Hy.
    rewrite !ends_with_ci_iff in H.
    destruct H as [H|[H|[H|[H|H]]]]; rewrite H; rewrite ?orb_true_r;
      reflexivity.
  - intros Hy H. rewrite ends_with_ci_iff in Hy.
    apply not_true_is_false in Hy. rewrite Hy.
    rewrite !ends_with_ci_iff in H.
    destruct (endsWith (toLowerCase w) "ch");
      [exfalso; apply H; now left|].
    destruct (endsWith (toLowerCase w) "sh");
      [exfalso; apply H; right; now left|].
    destruct (endsWith (toLowerCase w) "s");
      [exfalso; apply H; right; right; now left|].
    destruct (endsWith (toLowerCase w) "x");
      [exfalso; apply H; right; right; right; now left|].
    destruct (endsWith (toLowerCase w) "z");
      [exfalso; apply H; right; right; right; now right|].
    reflexivity.
Qed.

Lemma split_space_not_nil (s : string) : split_space s <> [].
Proof.
  induction s as [|c s IH]; simpl; [discriminate|].
  destruct (Ascii.eqb c " "); [discriminate|].
  destruct (split_space s); discriminate.
Qed.

Lemma join_space_cons (w : string) (ws : list string) :
  ws <> [] -> join_space (w :: ws) = w ++ " " ++ join_space ws.
Proof. destruct ws; [congruence | reflexivity]. Qed.

Lemma join_split_space (s : string) : join_space (split_space s) = s.
Proof.
  induction s as [|c s IH]; simpl; [reflexivity|].
  destruct (Ascii.eqb_spec c " ") as [->|_].
  - rewrite join_space_cons by apply split_space_not_nil.
    simpl. now rewrite IH.
  - destruct (split_space s) as [|w [|w' ws]] eqn:E.
    + now destruct (split_space_not_nil s).
    + simpl in *. now rewrite IH.
    + change (String c (join_space (w :: w' :: ws)) = String c s).
      now rewrite IH.
Qed.

Lemma split_space_words (s : string) :
  Forall (fun w => includes_space w = false) (split_space s).
Proof.
  induction s as [|c s IH]; simpl.
  - repeat constructor.
  - destruct (Ascii.eqb c " ") eqn:Ec.
    + constructor; [reflexivity | exact IH].
    + destruct (split_space s) as [|w ws].
      * repeat constructor. simpl. now rewrite Ec.
      * inversion IH; subst. constructor; [|assumption].
        simpl. now rewrite Ec.
Qed.

(** Joining words whose last one is [x]: the text before [x] does not
    depend on [x], and is empty or ends with the separator. *)
Lemma join_space_snoc (init : list string) :
  exists pre,
    (pre = "" \/ exists p, pre = p ++ " ")
    /\ forall x, join_space (init ++ [x])%list = pre ++ x.
Proof.
  induction init as [|w init (pre & Hpre & IH)].
  - exists "". split; [now left | reflexivity].
  - exists (w ++ " " ++ pre). split.
    + right. destruct Hpre as [->|[p ->]].
      * exists w. now rewrite append_nil_r.
      * exists (w ++ " " ++ p). now rewrite !append_assoc.
    + intros x. cbn [app]. rewrite join_space_cons by now destruct init.
      rewrite IH. now rewrite !append_assoc.
Qed.

Lemma array_set_last (init : list string) (x v : string) :
  array_set (List.length (init ++ [x])%list - 1) v (init ++ [x])%list
  = (init ++ [v])%list.
Proof.
  induction init as [|w init IH]; [reflexivity|].
  cbn [app List.length]. rewrite Nat.sub_1_r in *. cbn [Nat.pred].
  rewrite length_app in *. cbn [List.length] in *.
  rewrite Nat.add_1_r in *. cbn [Nat.pred array_set] in *. now rewrite IH.
Qed.

Lemma nth_last (init : list string) (x d : string) :
  nth (List.length (init ++ [x])%list - 1) (init ++ [x])%list d = x.
Proof.
  rewrite length_app. cbn [List.length]. rewrite Nat.add_1_r, Nat.sub_1_r.
  cbn [Nat.pred]. rewrite app_nth2 by lia. now rewrite Nat.sub_diag.
Qed.

Lemma split_space_no_space (s : string) :
  includes_space s = false -> split_space s = [s].
Proof.
  induction s as [|c s IH]; simpl; [reflexivity|].
  intros H. apply orb_false_iff in H. destruct H as [Hc Hs].
  rewrite Hc, (IH Hs). reflexivity.
Qed.

(** Replacing the last word of [s] by its image under [f]. *)
Lemma replace_last_word (f : string -> string) (s : string) :
  exists pre w,
    s = pre ++ w
    /\ includes_space w = false
    /\ (pre = "" \/ exists p, pre = p ++ " ")
    /\ (let words := split_space s in
        join_space
          (array_set (List.length words - 1)
                     (f (nth (List.length words - 1) words EmptyString))
                     words))
       = pre ++ f w.
Proof.
  destruct (exists_last (split_space_not_nil s)) as (init & w & E).
  destruct (join_space_snoc init) as (pre & Hpre & Hjoin).
  exists pre, w. repeat split.
  - rewrite <- (join_split_space s), E. apply Hjoin.
  - pose proof (split_space_words s) as H. rewrite E in H.
    apply Forall_app in H. destruct H as [_ H]. now inversion H.
  - exact Hpre.
  - cbv zeta. rewrite E, nth_last, array_set_last. apply Hjoin.
Qed.

Lemma leb_le (x y : Js.number) : Js.leb x y = true <-> (x <= y)%Qc.
Proof. unfold Js.leb, Qcle. apply Qle_bool_iff. Qed.

(** The letters that lower-case to one of the letters tested. *)
Lemma lower_ascii_letter (c : ascii) :
  (lower_ascii c = "y"%char -> c = "y"%char \/ c = "Y"%char)
  /\ (lower_ascii c = "c"%char -> c = "c"%char \/ c = "C"%char)
  /\ (lower_ascii c = "h"%char -> c = "h"%char \/ c = "H"%char)
  /\ (lower_ascii c = "s"%char -> c = "s"%char \/ c = "S"%char)
  /\ (lower_ascii c = "x"%char -> c = "x"%char \/ c = "X"%char)
  /\ (lower_ascii c = "z"%char -> c = "z"%char \/ c = "Z"%char).
Proof.
  destruct c as [[] [] [] [] [] [] [] []]; vm_compute;
    repeat split; intros H; try discriminate H; auto.
Qed.

Lemma ends_with_one_of_iff (w : string) (suffixes : list string) :
  ends_with_one_of w suffixes <-> existsb (endsWith w) suffixes = true.
Proof.
  rewrite existsb_exists. split.
  - intros (stem & suffix & Hin & ->). exists suffix. split; [exact Hin|].
    apply endsWith_iff. now exists stem.
  - intros (suffix & Hin & H). apply endsWith_iff in H.
    destruct H as [stem ->]. now exists stem, suffix.
Qed.

Lemma ends_with_ci_1 (w : string) (l : ascii) :
  ends_with_ci w (String l "") ->
  exists stem c, w = stem ++ String c "" /\ lower_ascii c = l.
Proof.
  intros (stem & tail & -> & Ht).
  destruct tail as [|c [|d tail]]; simpl in Ht; try discriminate.
  injection Ht as Hc. now exists stem, c.
Qed.

Lemma ends_with_ci_2 (w : string) (k l : ascii) :
  ends_with_ci w (String k (String l "")) ->
  exists stem c d,
    w = stem ++ String c (String d "")
    /\ lower_ascii c = k /\ lower_ascii d = l.
Proof.
  intros (stem & tail & -> & Ht).
  destruct tail as [|c [|d [|e tail]]]; simpl in Ht; try discriminate.
  injection Ht as Hc Hd. now exists stem, c, d.
Qed.

Ltac one_of stem suffix :=
  exists stem, suffix; split; [simpl; tauto | reflexivity].

(** The case-insensitive test for "y", letter by letter. *)
Lemma ends_with_ci_y (w : string) :
  ends_with_ci w "y" <-> ends_with_one_of w ["y"; "Y"].
Proof.
  split.
  - intros H. apply ends_with_ci_1 in H.
    destruct H as (stem & c & -> & Hc).
    apply (proj1 (lower_ascii_letter c)) in Hc.
    destruct Hc as [->| ->]; [one_of stem "y" | one_of stem "Y"].
  - intros (stem & suffix & Hin & ->). exists stem, suffix.
    split; [reflexivity|]. simpl in Hin.
    destruct Hin as [<-|[<-|[]]]; reflexivity.
Qed.

(** The case-insensitive tests of the second rule, letter by letter. *)
Lemma ends_with_ci_es (w : string) :
  ends_with_ci w "ch" \/ ends_with_ci w "sh" \/ ends_with_ci w "s"
  \/ ends_with_ci w "x" \/ ends_with_ci w "z"
  <-> ends_with_one_of w es_endings.
Proof.
  unfold es_endings. split.
  - intros [H|[H|[H|[H|H]]]].
    + apply ends_with_ci_2 in H. destruct H as (stem & c & d & -> & Hc & Hd).
      apply (proj1 (proj2 (lower_ascii_letter c))) in Hc.
      apply (proj1 (proj2 (proj2 (lower_ascii_letter d)))) in Hd.
      destruct Hc as [->| ->], Hd as [->| ->];
        [one_of stem "ch" | one_of stem "cH"
         | one_of stem "Ch" | one_of stem "CH"].
    + apply ends_with_ci_2 in H. destruct H as (stem & c & d & -> & Hc & Hd).
      apply (proj1 (proj2 (proj2 (proj2 (lower_ascii_letter c))))) in Hc.
      apply (proj1 (proj2 (proj2 (lower_ascii_letter d)))) in Hd.
      destruct Hc as [->| ->], Hd as [->| ->];
        [one_of stem "sh" | one_of stem "sH"
         | one_of stem "Sh" | one_of stem "SH"].
    + apply ends_with_ci_1 in H.
      destruct H as (stem & c & -> & Hc).
      apply (proj1 (proj2 (proj2 (proj2 (lower_ascii_letter c))))) in Hc.
      destruct Hc as [->| ->]; [one_of stem "s" | one_of stem "S"].
    + apply ends_with_ci_1 in H.
      destruct H as (stem & c & -> & Hc).
      apply (proj1 (proj2 (proj2 (proj2 (proj2
               (lower_ascii_letter c)))))) in Hc.
      destruct Hc as [->| ->]; [one_of stem "x" | one_of stem "X"].
    + apply ends_with_ci_1 in H.
      destruct H as (stem & c & -> & Hc).
      apply (proj2 (proj2 (proj2 (proj2 (proj2
               (lower_ascii_letter c)))))) in Hc.
      destruct Hc as [->| ->]; [one_of stem "z" | one_of stem "Z"].
  - intros (stem & suffix & Hin & ->). simpl in Hin.
    assert (E : forall low,
               toLowerCase suffix = low -> ends_with_ci (stem ++ suffix) low).
    { intros low <-. now exists stem, suffix. }
    destruct Hin as [<-|[<-|[<-|[<-|Hin]]]];
      [left; now apply E ..|].
    destruct Hin as [<-|[<-|[<-|[<-|Hin]]]];
      [right; left; now apply E ..|].
    destruct Hin as [<-|[<-|Hin]];
      [right; right; left; now apply E ..|].
    destruct Hin as [<-|[<-|Hin]];
      [right; right; right; left; now apply E ..|].
    destruct Hin as [<-|[<-|[]]];
      right; right; right; right; now apply E.
Qed.

(** C8.  For every room-type name and count: a count of at most 1 returns
    the name unchanged; a larger count pluralizes only the final word (the
    text after the last space), leaving everything before it as it was.
    The final word follows the ordered rules: ending in y or Y, that letter
    is dropped and "ies" appended; else ending in ch, sh, s, x or z in any
    casing (ch, cH, Ch, CH, ..., z, Z), "es" is appended; else "s" is
    appended; the stem keeps its casing.  The five examples evaluate as
    stated, and so do upper-case names: 'Sun PORCH' gives 'Sun PORCHes',
    'PANTRY' gives 'PANTRies', 'Mud BOX' gives 'Mud BOXes'. *)
Theorem pluralizeRoomType_spec :
  (forall (roomType : string) (count : Js.number),
      ((count <= 1)%Qc -> pluralizeRoomType roomType count = roomType)
      /\ ((1 < count)%Qc ->
          exists pre w,
            roomType = pre ++ w
            /\ includes_space w = false
            /\ (pre = "" \/ exists p, pre = p ++ " ")
            /\ pluralizeRoomType roomType count = pre ++ pluralizeWord w))
  /\ (forall w : string,
        (forall stem,
            w = stem ++ "y" \/ w = stem ++ "Y" ->
            pluralizeWord w = stem ++ "ies")
        /\ (~ ends_with_one_of w ["y"; "Y"] ->
            ends_with_one_of w es_endings ->
            pluralizeWord w = w ++ "es")
        /\ (~ ends_with_one_of w ["y"; "Y"] ->
            ~ ends_with_one_of w es_endings ->
            pluralizeWord w = w ++ "s"))
  /\ pluralizeRoomType "Bedroom" (Js.ofZ 1) = "Bedroom"
  /\ pluralizeRoomType "Bedroom" (Js.ofZ 2) = "Bedrooms"
  /\ pluralizeRoomType "Living Room" (Js.ofZ 3) = "Living Rooms"
  /\ pluralizeRoomType "Family" (Js.ofZ 2) = "Families"
  /\ pluralizeRoomType "Bench" (Js.ofZ 2) = "Benches"
  /\ pluralizeRoomType "Patio" (Js.ofZ 2) = "Patios"
  /\ pluralizeRoomType "Sun PORCH" (Js.ofZ 2) = "Sun PORCHes"
  /\ pluralizeRoomType "PANTRY" (Js.ofZ 2) = "PANTRies"
  /\ pluralizeRoomType "Mud BOX" (Js.ofZ 2) = "Mud BOXes"
  /\ pluralizeRoomType "Wash" (Js.ofZ 2) = "Washes"
  /\ pluralizeRoomType "DEN" (Js.ofZ 2) = "DENs".
Proof.
  split; [|split; [|repeat split]].
  - intros roomType count. unfold pluralizeRoomType. split.
    + intros H. change 1%Qc with (Js.ofZ 1) in H. apply leb_le in H.
      now rewrite H.
    + intros H. change 1%Qc with (Js.ofZ 1) in H.
      assert (Hc : Js.leb count (Js.ofZ 1) = false).
      { apply not_true_is_false. intros Hle. apply leb_le in Hle.
        exact (Qclt_not_le _ _ H Hle). }
      rewrite Hc. destruct (includes_space roomType) eqn:Hs.
      * apply (replace_last_word pluralizeWord roomType).
      * exists "", roomType. repeat split; auto.
  - intros w. destruct (pluralizeWord_rules w) as (Hy & Hes & Hs).
    split; [|split].
    + intros stem Hw.
      assert (Hci : ends_with_ci w "y").
      { apply ends_with_ci_y.
        destruct Hw as [->| ->]; [one_of stem "y" | one_of stem "Y"]. }
      destruct (Hy Hci) as (stem' & c & E & _ & ->). f_equal.
      assert (El : forall a b x y,
                 a ++ String x "" = b ++ String y "" -> a = b).
      { clear. induction a as [|p a IH]; intros [|q b] x y H; simpl in H.
        - reflexivity.
        - destruct b; discriminate H.
        - destruct a; discriminate H.
        - injection H as -> H. f_equal. exact (IH _ _ _ H). }
      destruct Hw as [->| ->]; symmetry; exact (El _ _ _ _ E).
    + intros Hn He. apply Hes.
      * intros H. apply Hn. now apply ends_with_ci_y.
      * now apply ends_with_ci_es.
    + intros Hn He. apply Hs.
      * intros H. apply Hn. now apply ends_with_ci_y.
      * intros H. apply He. now apply ends_with_ci_es.
Qed.

(** The rules at work on a compound, upper-case name: only the last word
    changes, it takes "es" for its ending CH, and its stem keeps its
    casing. *)
Lemma pluralizeRoomType_witness :
  (1 < Js.ofZ 2)%Qc
  /\ (exists pre w,
         "Sun PORCH" = pre ++ w
         /\ includes_space w = false
         /\ (pre = "" \/ exists p, pre = p ++ " ")
         /\ pluralizeRoomType "Sun PORCH" (Js.ofZ 2) = pre ++ pluralizeWord w)
  /\ ~ ends_with_one_of "PORCH" ["y"; "Y"]
  /\ ends_with_one_of "PORCH" es_endings
  /\ pluralizeWord "PORCH" = "PORCHes".
Proof.
  assert (H : (1 < Js.ofZ 2)%Qc) by reflexivity.
  assert (Hn : ~ ends_with_one_of "PORCH" ["y"; "Y"]).
  { intros E. apply ends_with_one_of_iff in E. discriminate E. }
  assert (He : ends_with_one_of "PORCH" es_endings).
  { apply ends_with_one_of_iff. reflexivity. }
  split; [exact H|]. split.
  - exact (proj2 (proj1 pluralizeRoomType_spec "Sun PORCH" (Js.ofZ 2)) H).
  - split; [exact Hn|]. split; [exact He|].
    exact (proj1 (proj2 (proj1 (proj2 pluralizeRoomType_spec) "PORCH"))
                 Hn He).
Defined.

End RoomLabelFacts.

(** ** Soft delete of an appliance *)

Section SoftDeleteFacts.

Import Db.

Lemma update_where_In {R : Type} (cond : R -> bool) (set : R -> R)
      (table : list R) (r : R) :
  In r table -> cond r = true -> In (set r) (update_where cond set table).
Proof.
  intros Hin Hc. unfold update_where. apply in_map_iff.
  exists r. now rewrite Hc.
Qed.

Lemma update_where_inv {R : Type} (cond : R -> bool) (set : R -> R)
      (table : list R) (r' : R) :
  In r' (update_where cond set table) ->
  exists r, In r table
            /\ ((cond r = true /\ r' = set r) \/ (cond r = false /\ r' = r)).
Proof.
  unfold update_where. intros H. apply in_map_iff in H.
  destruct H as (r & E & Hin). exists r. split; [assumption|].
  destruct (cond r); [left | right]; now split.
Qed.

Lemma update_where_none {R : Type} (cond : R -> bool) (set : R -> R)
      (table : list R) :
  (forall r, In r table -> cond r = false) ->
  update_where cond set table = table.
Proof.
  intros H. unfold update_where. rewrite <- (map_id table) at 2.
  apply map_ext_in. intros r Hin. now rewrite (H r Hin).
Qed.

Lemma exists_owned_house_false (auth_uid : option uuid) (db : Database)
      (house_id : uuid) :
  (forall h, In h (houses db) -> h_id h = house_id ->
             Some (h_user_id h) <> auth_uid) ->
  exists_owned_house auth_uid db house_id = false.
Proof.
  intros H. unfold exists_owned_house.
  apply not_true_is_false. intros E. apply existsb_exists in E.
  destruct E as (h & Hin & Hh). apply andb_true_iff in Hh.
  destruct Hh as [Hid Hu]. apply String.eqb_eq in Hid.
  apply (H h Hin Hid). unfold eq_auth_uid in Hu.
  destruct auth_uid as [u|]; [|discriminate].
  apply String.eqb_eq in Hu. now rewrite Hu.
Qed.

(** C9.  Whoever calls soft_delete_appliance: every non-deleted repair and
    every non-deleted attachment that references the appliance is marked
    deleted at the time of the call, and afterwards no repair or attachment
    of that appliance is left non-deleted.  The ownership test guards the
    appliance row alone: when no house of the appliance belongs to the
    caller, the appliance table is left as it was (the row stays active). *)
Theorem soft_delete_appliance_cascade_unguarded
        (auth_uid : option uuid) (now : timestamptz) (appliance_id : uuid)
        (db : Database) :
  let db' := soft_delete_appliance auth_uid now appliance_id db in
  (forall r, In r (appliance_repairs db) ->
             ar_appliance_id r = appliance_id -> ar_deleted_at r = None ->
             In (set_ar_deleted_at (Some now) r) (appliance_repairs db'))
  /\ (forall r, In r (appliance_repairs db') ->
                ar_appliance_id r = appliance_id -> ar_deleted_at r <> None)
  /\ (forall f, In f (appliance_attachments db) ->
                aa_appliance_id f = appliance_id -> aa_deleted_at f = None ->
                In (set_aa_deleted_at (Some now) f) (appliance_attachments db'))
  /\ (forall f, In f (appliance_attachments db') ->
                aa_appliance_id f = appliance_id -> aa_deleted_at f <> None)
  /\ ((forall a h, In a (interior_appliances db) -> ia_id a = appliance_id ->
                   In h (houses db) -> h_id h = ia_house_id a ->
                   Some (h_user_id h) <> auth_uid) ->
      interior_appliances db' = interior_appliances db).
Proof.
  cbv zeta. unfold soft_delete_appliance. cbn [appliance_repairs
    appliance_attachments interior_appliances houses]. repeat split.
  - intros r Hin Hid Hdel. apply update_where_In; [assumption|].
    rewrite Hid, Hdel, String.eqb_refl. reflexivity.
  - intros r' Hin Hid. apply update_where_inv in Hin.
    destruct Hin as (r & _ & [[_ ->]|[Hc ->]]); [discriminate|].
    simpl in Hid. rewrite Hid, String.eqb_refl in Hc.
    destruct (ar_deleted_at r); [discriminate | discriminate Hc].
  - intros f Hin Hid Hdel. apply update_where_In; [assumption|].
    rewrite Hid, Hdel, String.eqb_refl. reflexivity.
  - intros f' Hin Hid. apply update_where_inv in Hin.
    destruct Hin as (f & _ & [[_ ->]|[Hc ->]]); [discriminate|].
    simpl in Hid. rewrite Hid, String.eqb_refl in Hc.
    destruct (aa_deleted_at f); [discriminate | discriminate Hc].
  - intros Hown. apply update_where_none. intros a Hin.
    destruct (String.eqb_spec (ia_id a) appliance_id) as [Hid|_];
      [|reflexivity].
    rewrite exists_owned_house_false.
    + apply andb_false_r.
    + intros h Hh Hhid. exact (Hown a h Hin Hid Hh Hhid).
Qed.

End SoftDeleteFacts.

(** A stranger calls soft_delete_appliance on the scenario's appliance: the
    appliance stays active, its repair and its attachment go to the trash. *)
Lemma soft_delete_appliance_witness :
  let db' := Db.soft_delete_appliance (Some "mallory"%string) 1000%Z
                                      "a1"%string Examples.scenario_db in
  Db.interior_appliances db' = Db.interior_appliances Examples.scenario_db
  /\ map Db.ia_deleted_at (Db.interior_appliances db') = [None]
  /\ (forall r, In r (Db.appliance_repairs db') ->
                Db.ar_appliance_id r = "a1"%string ->
                Db.ar_deleted_at r <> None)
  /\ (forall f, In f (Db.appliance_attachments db') ->
                Db.aa_appliance_id f = "a1"%string ->
                Db.aa_deleted_at f <> None).
Proof.
  intros db'.
  destruct (soft_delete_appliance_cascade_unguarded
              (Some "mallory"%string) 1000%Z "a1"%string Examples.scenario_db)
    as (_ & Hrep & _ & Hatt & Happ).
  assert (E : Db.interior_appliances db'
              = Db.interior_appliances Examples.scenario_db).
  { apply Happ. intros a h _ _ Hh _. simpl in Hh.
    destruct Hh as [<-|[]]. discriminate. }
  split; [exact E|]. split; [rewrite E; reflexivity|].
  split; [exact Hrep | exact Hatt].
Defined.

(** The owner's call on the scenario: the appliance, its repair and its
    attachment all carry the time of the call afterwards, and nothing else
    differs. *)
Lemma soft_delete_appliance_by_owner :
  Db.soft_delete_appliance (Some "alice"%string) 1000%Z "a1"%string
                           Examples.scenario_db
  = {| Db.houses := Db.houses Examples.scenario_db;
       Db.interior_appliances :=
         [{| Db.ia_id := "a1"%string; Db.ia_house_id := "h1"%string;
             Db.ia_purchase_cost := Some (Js.ofZ 1200);
             Db.ia_installation_cost := Some (Js.ofZ 300);
             Db.ia_deleted_at := Some 1000%Z |}];
       Db.appliance_repairs :=
         [{| Db.ar_id := "r1"%string; Db.ar_appliance_id := "a1"%string;
             Db.ar_repair_cost := Some (Js.ofZ 150);
             Db.ar_deleted_at := Some 1000%Z |}];
       Db.appliance_attachments :=
         [{| Db.aa_id := "f1"%string; Db.aa_appliance_id := "a1"%string;
             Db.aa_file_name := "manual.pdf"%string;
             Db.aa_deleted_at := Some 1000%Z |}];
       Db.exterior_features := Db.exterior_features Examples.scenario_db;
       Db.exterior_maintenance :=
         Db.exterior_maintenance Examples.scenario_db |}.
Proof. reflexivity. Qed.

(** ** Cost aggregation *)

Section CostFacts.

Import Db CostDashboard Examples.
Local Open Scope Qc_scope.

Ltac qc_ring :=
  unfold Js.zero, Js.ofZ, Js.number in *;
  change (Q2Qc (inject_Z 0)) with 0%Qc in *;
  ring.

Lemma is_zero_eq (x : Js.number) : Js.is_zero x = true -> x = Js.zero.
Proof.
  unfold Js.is_zero. intros H. apply Qeq_bool_eq in H.
  apply Qc_is_canon. rewrite H. reflexivity.
Qed.

Lemma is_zero_false (x : Js.number) : Js.is_zero x = false <-> x <> Js.zero.
Proof.
  split.
  - intros H E. subst x. discriminate H.
  - intros H. apply not_true_is_false. intros E. apply H.
    now apply is_zero_eq.
Qed.

Lemma or_zero_Num (x : Js.number) : Js.or_zero (Js.Num x) = x.
Proof.
  unfold Js.or_zero. destruct (Js.is_zero x) eqn:E; [|reflexivity].
  symmetry. now apply is_zero_eq.
Qed.

Lemma or_zero_Number (v : Js.value) : Js.or_zero (Js.Number v) = coalesce v.
Proof. destruct v; try reflexivity. apply or_zero_Num. Qed.

Lemma reduce_cost_acc {R : Type} (field : R -> Js.value) (rows : list R)
      (acc : Js.number) :
  fold_left (fun sum r => sum + Js.or_zero (Js.Number (field r))) rows acc
  = acc + total (map (fun r => coalesce (field r)) rows).
Proof.
  revert acc. induction rows as [|r rows IH]; intros acc; simpl.
  - qc_ring.
  - rewrite IH, or_zero_Number. qc_ring.
Qed.

Lemma sum_or_zero_rows {R : Type} (field : R -> Js.value) (rows : list R) :
  sum_or_zero field (Some rows)
  = total (map (fun r => coalesce (field r)) rows).
Proof.
  unfold sum_or_zero, reduce_cost. rewrite or_zero_Num, reduce_cost_acc.
  qc_ring.
Qed.

Lemma falsy_id_false (hid : uuid) :
  hid <> EmptyString -> falsy_id (Some hid) = false.
Proof. intros H. simpl. now apply String.eqb_neq. Qed.

Ltac run_loadCosts :=
  unfold loadCosts, try_catch_finally, loadCosts_body, phase1, bind, send,
    await, ret, setCosts, setHouseInfo, setLoading, set_component,
    console_error, id_or_empty.

(** What a load whose four first reads are fulfilled with rows computes. *)
Lemma loadCosts_costs (supabase : Client) (hid : uuid) (w : World)
      (house : option HouseInfo) (apps : list ApplianceCosts)
      (feats : list FeatureCost) (maint : list MaintenanceCost)
      (reps : list RepairCost) (eh ea ef em er : option Error) :
  hid <> EmptyString ->
  select_house supabase hid = Fulfilled {| data := house; error := eh |} ->
  select_appliances supabase hid
  = Fulfilled {| data := Some apps; error := ea |} ->
  select_features supabase hid
  = Fulfilled {| data := Some feats; error := ef |} ->
  select_maintenance supabase hid
  = Fulfilled {| data := Some maint; error := em |} ->
  (apps <> [] ->
   select_repairs supabase (map id apps)
   = Fulfilled {| data := Some reps; error := er |}) ->
  costs (component (snd (loadCosts supabase (Some hid) w)))
  = let housePurchase := price_paid_or_zero house in
    let appliances := total (map (fun a => coalesce (purchase_cost a)) apps) in
    let applianceInstallation :=
      total (map (fun a => coalesce (installation_cost a)) apps) in
    let applianceRepairs :=
      match apps with
      | [] => Js.zero
      | _ :: _ => total (map (fun r => coalesce (repair_cost r)) reps)
      end in
    let exteriorFeatures :=
      total (map (fun f => coalesce (build_cost f)) feats) in
    let exteriorMaintenance :=
      total (map (fun m => coalesce (cost m)) maint) in
    {| housePurchase := housePurchase;
       appliances := appliances;
       applianceInstallation := applianceInstallation;
       applianceRepairs := applianceRepairs;
       exteriorFeatures := exteriorFeatures;
       exteriorMaintenance := exteriorMaintenance;
       totalCost := housePurchase + appliances + applianceInstallation
                    + applianceRepairs + exteriorFeatures
                    + exteriorMaintenance |}.
Proof.
  intros Hid Hh Ha Hf Hm Hr. run_loadCosts.
  rewrite (falsy_id_false Hid), Hh, Ha, Hf, Hm. cbn [data non_empty].
  destruct apps as [|a apps].
  - destruct house; cbn [snd component costs data];
      rewrite !sum_or_zero_rows; reflexivity.
  - cbn [rows_or_nil]. rewrite Hr by discriminate.
    destruct house; cbn [snd component costs data];
      rewrite !sum_or_zero_rows; reflexivity.
Qed.

Lemma price_paid_or_zero_spec (house : option HouseInfo) :
  price_paid_or_zero house
  = match house with
    | Some h => match price_paid h with
                | Some p => p
                | None => Js.zero
                end
    | None => Js.zero
    end.
Proof.
  destruct house as [h|]; [|reflexivity]. unfold price_paid_or_zero.
  destruct (price_paid h); [apply or_zero_Num | reflexivity].
Qed.

Lemma CostBreakdown_eq (a b : CostBreakdown) :
  housePurchase a = housePurchase b ->
  appliances a = appliances b ->
  applianceInstallation a = applianceInstallation b ->
  applianceRepairs a = applianceRepairs b ->
  exteriorFeatures a = exteriorFeatures b ->
  exteriorMaintenance a = exteriorMaintenance b ->
  totalCost a = totalCost b ->
  a = b.
Proof. destruct a, b; simpl; intros; subst; reflexivity. Qed.

Ltac costs_eq := apply CostBreakdown_eq; apply Qc_is_canon; reflexivity.

(** *** The breakdown on its own *)

Lemma or_zero_Number_exact (v : Js.value) :
  CostSums.or_zero (CostSums.Number Arith.exact v) = Js.or_zero (Js.Number v).
Proof. destruct v; reflexivity. Qed.

Lemma sum_or_zero_exact {R : Type} (field : R -> Js.value)
      (rows : option (list R)) :
  CostSums.sum_or_zero Arith.exact field rows = sum_or_zero field rows.
Proof.
  destruct rows as [l|]; [|reflexivity].
  unfold CostSums.sum_or_zero, sum_or_zero, CostSums.reduce_cost, reduce_cost.
  cbn [CostSums.or_zero Js.or_zero Arith.falsy Arith.exact Arith.zero].
  assert (E : forall acc : Js.number,
             fold_left (fun sum r =>
                          Arith.add Arith.exact sum
                            (CostSums.or_zero
                               (CostSums.Number Arith.exact (field r))))
                       l acc
             = fold_left (fun sum r =>
                            sum + Js.or_zero (Js.Number (field r)))
                         l acc).
  { induction l as [|r l IH]; intros acc; [reflexivity|].
    cbn [fold_left]. rewrite IH, or_zero_Number_exact. reflexivity. }
  now rewrite E.
Qed.

(** The costs that loadCosts stores are [CostSums.breakdown] of the
    responses, taken in the arithmetic of this model of the effects. *)
Lemma loadCosts_stores_breakdown
      (supabase : Client) (hid : uuid) (w : World)
      (houseRes : Response HouseInfo)
      (appliancesRes : Response (list ApplianceCosts))
      (repairsRes : Response (list RepairCost))
      (featuresRes : Response (list FeatureCost))
      (maintenanceRes : Response (list MaintenanceCost)) :
  hid <> EmptyString ->
  select_house supabase hid = Fulfilled houseRes ->
  select_appliances supabase hid = Fulfilled appliancesRes ->
  select_features supabase hid = Fulfilled featuresRes ->
  select_maintenance supabase hid = Fulfilled maintenanceRes ->
  (non_empty (data appliancesRes) = true ->
   select_repairs supabase (map id (rows_or_nil (data appliancesRes)))
   = Fulfilled repairsRes) ->
  let c := costs (component (snd (loadCosts supabase (Some hid) w))) in
  let b := CostSums.breakdown Arith.exact houseRes appliancesRes repairsRes
                              featuresRes maintenanceRes in
  housePurchase c = CostSums.housePurchase b
  /\ appliances c = CostSums.appliances b
  /\ applianceInstallation c = CostSums.applianceInstallation b
  /\ applianceRepairs c = CostSums.applianceRepairs b
  /\ exteriorFeatures c = CostSums.exteriorFeatures b
  /\ exteriorMaintenance c = CostSums.exteriorMaintenance b
  /\ totalCost c = CostSums.totalCost b.
Proof.
  intros Hid Hh Ha Hf Hm Hr. cbv zeta. unfold CostSums.breakdown.
  cbn [CostSums.housePurchase CostSums.appliances
       CostSums.applianceInstallation CostSums.applianceRepairs
       CostSums.exteriorFeatures CostSums.exteriorMaintenance
       CostSums.totalCost].
  rewrite !sum_or_zero_exact.
  assert (Ep : CostSums.price_paid_or_zero Arith.exact (data houseRes)
               = price_paid_or_zero (data houseRes)).
  { destruct (data houseRes) as [h|]; [|reflexivity]. cbn.
    destruct (price_paid h); reflexivity. }
  rewrite Ep. clear Ep. run_loadCosts.
  rewrite (falsy_id_false Hid), Hh, Ha, Hf, Hm.
  destruct (non_empty (data appliancesRes)).
  - rewrite (Hr eq_refl).
    destruct (data houseRes); cbn [snd component costs housePurchase
      appliances applianceInstallation applianceRepairs exteriorFeatures
      exteriorMaintenance totalCost]; repeat split.
  - destruct (data houseRes); cbn [snd component costs housePurchase
      appliances applianceInstallation applianceRepairs exteriorFeatures
      exteriorMaintenance totalCost]; repeat split.
Qed.

(** Rows in the trash, rows of other houses and repairs of trashed
    appliances do not enter the breakdown. *)
Lemma loadCosts_ignores_deleted_rows :
  costs (component
           (snd (loadCosts (db_client crowded_db) (Some "h1"%string)
                           initialWorld)))
  = scenario_costs.
Proof. costs_eq. Qed.


(** *** Failed reads *)

(** Whatever error the responses carry, when every read resolves loadCosts
    logs nothing and clears [loading]. *)
Lemma loadCosts_resolved_reads_log_nothing
      (supabase : Client) (hid : uuid) (w : World)
      (houseRes : Response HouseInfo)
      (appliancesRes : Response (list ApplianceCosts))
      (featuresRes : Response (list FeatureCost))
      (maintenanceRes : Response (list MaintenanceCost)) :
  hid <> EmptyString ->
  select_house supabase hid = Fulfilled houseRes ->
  select_appliances supabase hid = Fulfilled appliancesRes ->
  select_features supabase hid = Fulfilled featuresRes ->
  select_maintenance supabase hid = Fulfilled maintenanceRes ->
  (forall ids, exists repairsRes,
      select_repairs supabase ids = Fulfilled repairsRes) ->
  let w' := snd (loadCosts supabase (Some hid) w) in
  console w' = console w /\ loading (component w') = false.
Proof.
  intros Hid Hh Ha Hf Hm Hr. cbv zeta. run_loadCosts.
  rewrite (falsy_id_false Hid), Hh, Ha, Hf, Hm.
  destruct (non_empty (data appliancesRes)).
  - destruct (Hr (map id (rows_or_nil (data appliancesRes)))) as [rr ->].
    destruct (data houseRes); split; reflexivity.
  - destruct (data houseRes); split; reflexivity.
Qed.

(** C2 (failing inputs).  When the appliances read resolves to
    [{ data: null, error }], loadCosts logs nothing, clears [loading] and
    stores a breakdown whose appliance components are 0, which the component
    then shows as the dashboard.  When a read rejects, the error is logged,
    [loading] is cleared, and the component shows the dashboard over the
    initial all-zero breakdown. *)
Theorem loadCosts_failed_read_is_displayed :
  (let w := snd (loadCosts appliances_error_client (Some "h1"%string)
                           initialWorld) in
   console w = []
   /\ loading (component w) = false
   /\ costs (component w) = partial_costs
   /\ forall currentYear,
       exists p y,
         render (Some "h1"%string) (component w) currentYear
         = DashboardView partial_costs p y)
  /\ (let w := snd (loadCosts maintenance_rejecting_client (Some "h1"%string)
                              initialWorld) in
      console w = [("Error loading costs:"%string, "Failed to fetch"%string)]
      /\ loading (component w) = false
      /\ forall currentYear,
          render (Some "h1"%string) (component w) currentYear
          = DashboardView zeroCosts None None).
Proof.
  split; cbv zeta.
  - assert (E : costs (component
                         (snd (loadCosts appliances_error_client
                                         (Some "h1"%string) initialWorld)))
                = partial_costs) by costs_eq.
    split; [reflexivity|]. split; [reflexivity|]. split; [exact E|].
    intros currentYear. unfold render. rewrite E.
    cbn [loading component snd falsy_id]. eexists. eexists. reflexivity.
  - split; [reflexivity|]. split; [reflexivity|]. intros currentYear.
    reflexivity.
Qed.

(** *** No appliances, no repair lookup *)

Lemma db_client_no_appliances (db : Database) (hid : uuid) :
  (forall a, In a (interior_appliances db) -> ia_house_id a = hid ->
             ia_deleted_at a <> None) ->
  select_appliances (db_client db) hid = ok (Some []).
Proof.
  intros H. cbn [select_appliances db_client]. do 2 f_equal.
  induction (interior_appliances db) as [|a l IH]; [reflexivity|].
  cbn [filter]. destruct (String.eqb_spec (ia_house_id a) hid) as [E|_].
  - specialize (H a (or_introl eq_refl) E) as Ha.
    destruct (ia_deleted_at a); [|congruence]. cbn.
    apply IH. intros b Hb. apply H. now right.
  - cbn. apply IH. intros b Hb. apply H. now right.
Qed.

(** C3.  When the appliances read returns no row, loadCosts sends the four
    first requests and nothing else, so no repair lookup is issued, whatever
    the other reads do; and when those reads are answered, the breakdown it
    stores has applianceRepairs = 0. *)
Theorem loadCosts_no_appliances_no_repair_lookup
        (supabase : Client) (hid : uuid) (w : World)
        (appliancesRes : Response (list ApplianceCosts)) :
  hid <> EmptyString ->
  select_appliances supabase hid = Fulfilled appliancesRes ->
  data appliancesRes = Some [] ->
  let w' := snd (loadCosts supabase (Some hid) w) in
  requests w'
  = (requests w
     ++ [From_houses hid; From_interior_appliances hid;
         From_exterior_features hid; From_exterior_maintenance hid])%list
  /\ (forall ids, In (From_appliance_repairs ids) (requests w') ->
                  In (From_appliance_repairs ids) (requests w))
  /\ (forall houseRes featuresRes maintenanceRes,
         select_house supabase hid = Fulfilled houseRes ->
         select_features supabase hid = Fulfilled featuresRes ->
         select_maintenance supabase hid = Fulfilled maintenanceRes ->
         applianceRepairs (costs (component w')) = Js.zero).
Proof.
  intros Hid Ha Hd. cbv zeta.
  assert (Hreq : requests (snd (loadCosts supabase (Some hid) w))
                 = (requests w
                    ++ [From_houses hid; From_interior_appliances hid;
                        From_exterior_features hid;
                        From_exterior_maintenance hid])%list).
  { run_loadCosts. rewrite (falsy_id_false Hid), Ha.
    destruct (select_house supabase hid) as [rh|e];
      destruct (select_features supabase hid) as [rf|e'];
      destruct (select_maintenance supabase hid) as [rm|e''];
      cbn [data non_empty snd requests]; rewrite ?Hd;
      cbn [data non_empty snd requests];
      try (destruct (data rh)); cbn [snd requests];
      rewrite <- ?app_assoc; reflexivity. }
  split; [exact Hreq|]. split.
  - intros ids Hin. rewrite Hreq in Hin. apply in_app_or in Hin.
    destruct Hin as [Hin|Hin]; [assumption|].
    cbn in Hin. destruct Hin as [H|[H|[H|[H|[]]]]]; discriminate H.
  - intros rh rf rm Hh Hf Hm. run_loadCosts.
    rewrite (falsy_id_false Hid), Ha, Hh, Hf, Hm.
    cbn [data non_empty]. rewrite Hd.
    destruct (data rh); reflexivity.
Qed.

(** A house of the database without a live appliance. *)
Lemma loadCosts_no_appliances_witness :
  let w' := snd (loadCosts (db_client bare_db) (Some "h1"%string)
                           initialWorld) in
  requests w'
  = [From_houses "h1"%string; From_interior_appliances "h1"%string;
     From_exterior_features "h1"%string; From_exterior_maintenance "h1"%string]
  /\ applianceRepairs (costs (component w')) = Js.zero.
Proof.
  assert (Hid : "h1"%string <> EmptyString) by discriminate.
  assert (Ha : select_appliances (db_client bare_db) "h1"%string
               = Fulfilled {| data := Some []; error := None |}).
  { apply db_client_no_appliances. intros a []. }
  destruct (@loadCosts_no_appliances_no_repair_lookup
              (db_client bare_db) "h1"%string initialWorld _ Hid Ha eq_refl)
    as (Hreq & _ & Hzero).
  split; [exact Hreq|].
  exact (Hzero _ _ _ eq_refl eq_refl eq_refl).
Defined.

End CostFacts.

(** ** The breakdown in the arithmetic of the engine *)

Section CostSumFacts.

Import CostDashboard SumExamples.
Local Open Scope float_scope.

Lemma or_zero_Number_coalesce (N : Arith.t) (v : Js.value) :
  CostSums.or_zero (CostSums.Number N v) = CostSums.coalesce N v.
Proof.
  destruct v; try reflexivity.
  cbn. destruct (Arith.falsy N (Arith.zero N)); reflexivity.
Qed.

(** [reduce] adds the coalesced costs from left to right. *)
Lemma reduce_cost_sum (N : Arith.t) {R : Type} (field : R -> Js.value)
      (rows : list R) :
  CostSums.reduce_cost N field rows
  = CostSums.sum N (map (fun r => CostSums.coalesce N (field r)) rows).
Proof.
  unfold CostSums.reduce_cost, CostSums.sum.
  generalize (Arith.zero N) as acc.
  induction rows as [|r rows IH]; intros acc; [reflexivity|].
  cbn [fold_left map]. rewrite IH, or_zero_Number_coalesce. reflexivity.
Qed.

Lemma sum_or_zero_sum (N : Arith.t) {R : Type} (field : R -> Js.value)
      (rows : list R) :
  CostSums.sum_or_zero N field (Some rows)
  = CostSums.unless_falsy N
      (CostSums.sum N (map (fun r => CostSums.coalesce N (field r)) rows)).
Proof.
  unfold CostSums.sum_or_zero. rewrite reduce_cost_sum. reflexivity.
Qed.

(** The decimals of the examples are read as the doubles that the same
    literals denote. *)
Lemma parse_decimal_examples :
  Arith.parse_decimal (Q2Qc (1999 # 100)) = 19.99
  /\ Arith.parse_decimal (Q2Qc (501 # 100)) = 5.01
  /\ Arith.parse_decimal (Q2Qc (1 # 10)) = 0.1
  /\ Arith.parse_decimal (Q2Qc (2 # 10)) = 0.2
  /\ Arith.parse_decimal (Q2Qc (7 # 10)) = 0.7
  /\ Arith.parse_decimal (Q2Qc (-5 # 2)) = -2.5
  /\ Arith.parse_decimal (Q2Qc (999999999999 # 100)) = 9999999999.99
  /\ Arith.parse_decimal (Js.ofZ 307450) = 307450.
Proof. repeat split. Qed.

(** The falsy doubles are 0, -0 and NaN. *)
Lemma falsy_double_examples :
  Arith.falsy_double 0 = true
  /\ Arith.falsy_double (-0) = true
  /\ Arith.falsy_double nan = true
  /\ Arith.falsy_double 0.01 = false
  /\ Arith.falsy_double (-2.5) = false
  /\ Arith.falsy_double infinity = false
  /\ CostSums.unless_falsy Arith.binary64 (infinity + neg_infinity) = 0
  /\ CostSums.unless_falsy Arith.binary64 0.01 = 0.01.
Proof. repeat split. Qed.

(** Added from the right, the purchase costs of the example give another
    double than added from the left. *)
Lemma sum_order_matters :
  CostSums.sum Arith.binary64 [19.99; 5.01; 0.1] = 25.1
  /\ fold_right PrimFloat.add 0 [19.99; 5.01; 0.1] = 25.099999999999998.
Proof. split; reflexivity. Qed.

(** C1.  In every arithmetic, and so in the binary64 arithmetic of the
    engine, the breakdown that loadCosts computes from its responses has:
    housePurchase, the purchase price of the house, or 0 when the house or
    its price is absent; every other component, the sum of its cost field
    over its fetched rows, each cost added in turn in the order of the rows
    with missing, null and non-numeric costs read as 0 (the repairs being
    read only when there are appliances), and 0 when the read came back
    without rows; and totalCost, the six components added from left to
    right.  A price or a sum that is itself falsy (0, -0, NaN) is stored as
    0.  No error field is read.  In binary64 the end-to-end scenario gives
    300000, 1200, 300, 150, 5000, 800 and totalCost 307450, and costs in
    cents are added as doubles: 19.99, 5.01 and 0.10 give 25.1; 0.10, 0.20
    and null give 0.30000000000000004. *)
Theorem loadCosts_totalCost :
  (forall (N : Arith.t) (house : option HouseInfo)
          (apps : option (list ApplianceCosts))
          (reps : option (list RepairCost))
          (feats : option (list FeatureCost))
          (maint : option (list MaintenanceCost))
          (eh ea er ef em : option Error),
      let c := CostSums.breakdown N
                 {| data := house; error := eh |}
                 {| data := apps; error := ea |}
                 {| data := reps; error := er |}
                 {| data := feats; error := ef |}
                 {| data := maint; error := em |} in
      CostSums.housePurchase c
      = match house with
        | Some h => match price_paid h with
                    | Some p => CostSums.unless_falsy N (Arith.parse N p)
                    | None => Arith.zero N
                    end
        | None => Arith.zero N
        end
      /\ CostSums.appliances c
         = match apps with
           | Some rows =>
               CostSums.unless_falsy N
                 (CostSums.sum N
                    (map (fun a => CostSums.coalesce N (purchase_cost a))
                         rows))
           | None => Arith.zero N
           end
      /\ CostSums.applianceInstallation c
         = match apps with
           | Some rows =>
               CostSums.unless_falsy N
                 (CostSums.sum N
                    (map (fun a => CostSums.coalesce N (installation_cost a))
                         rows))
           | None => Arith.zero N
           end
      /\ CostSums.applianceRepairs c
         = match apps, reps with
           | Some (_ :: _), Some rows =>
               CostSums.unless_falsy N
                 (CostSums.sum N
                    (map (fun r => CostSums.coalesce N (repair_cost r)) rows))
           | _, _ => Arith.zero N
           end
      /\ CostSums.exteriorFeatures c
         = match feats with
           | Some rows =>
               CostSums.unless_falsy N
                 (CostSums.sum N
                    (map (fun f => CostSums.coalesce N (build_cost f)) rows))
           | None => Arith.zero N
           end
      /\ CostSums.exteriorMaintenance c
         = match maint with
           | Some rows =>
               CostSums.unless_falsy N
                 (CostSums.sum N
                    (map (fun m => CostSums.coalesce N (cost m)) rows))
           | None => Arith.zero N
           end
      /\ CostSums.totalCost c
         = Arith.add N
             (Arith.add N
                (Arith.add N
                   (Arith.add N
                      (Arith.add N (CostSums.housePurchase c)
                                 (CostSums.appliances c))
                      (CostSums.applianceInstallation c))
                   (CostSums.applianceRepairs c))
                (CostSums.exteriorFeatures c))
             (CostSums.exteriorMaintenance c))
  /\ CostSums.breakdown Arith.binary64 scenario_house scenario_appliances
                        scenario_repairs scenario_features
                        scenario_maintenance
     = scenario_costs
  /\ (let c := CostSums.breakdown Arith.binary64 cents_house cents_appliances
                                  cents_repairs no_rows no_rows in
      CostSums.housePurchase c = 0
      /\ CostSums.appliances c = 25.1
      /\ CostSums.applianceInstallation c = 0.30000000000000004
      /\ CostSums.applianceRepairs c = 0.7999999999999999
      /\ CostSums.exteriorFeatures c = 0
      /\ CostSums.exteriorMaintenance c = 0
      /\ CostSums.totalCost c = 26.200000000000003).
Proof.
  split; [|split].
  - intros N house apps reps feats maint eh ea er ef em. cbv zeta.
    unfold CostSums.breakdown.
    cbn [data CostSums.housePurchase CostSums.appliances
         CostSums.applianceInstallation CostSums.applianceRepairs
         CostSums.exteriorFeatures CostSums.exteriorMaintenance
         CostSums.totalCost].
    split; [destruct house as [h|]; [|reflexivity];
            cbn; destruct (price_paid h); reflexivity|].
    split; [destruct apps; [apply sum_or_zero_sum | reflexivity]|].
    split; [destruct apps; [apply sum_or_zero_sum | reflexivity]|].
    split; [destruct apps as [[|a apps]|]; try reflexivity;
            destruct reps as [rs|]; [apply sum_or_zero_sum | reflexivity]|].
    split; [destruct feats; [apply sum_or_zero_sum | reflexivity]|].
    split; [destruct maint; [apply sum_or_zero_sum | reflexivity]|].
    reflexivity.
  - reflexivity.
  - cbv zeta. repeat split.
Qed.

End CostSumFacts.



(** ** House lifecycle figures *)

Section LifecycleFacts.

Import Db CostDashboard Examples.
Local Open Scope Qc_scope.

Lemma truthy_Some (x : Js.number) : Js.truthy (Some x) = true <-> x <> Js.zero.
Proof.
  unfold Js.truthy. rewrite negb_true_iff. apply is_zero_false.
Qed.

Lemma truthy_Some_false (x : Js.number) :
  Js.truthy (Some x) = false <-> x = Js.zero.
Proof.
  unfold Js.truthy. rewrite negb_false_iff. split.
  - apply is_zero_eq.
  - intros ->. reflexivity.
Qed.

Lemma gtb_lt (x y : Js.number) : Js.gtb x y = true <-> y < x.
Proof.
  unfold Js.gtb, Qclt. rewrite negb_true_iff. split.
  - intros H. apply Qnot_le_lt. intros Hle.
    apply Qle_bool_iff in Hle. congruence.
  - intros H. apply not_true_is_false. intros Hle.
    apply Qle_bool_iff in Hle. exact (Qlt_not_le _ _ H Hle).
Qed.

Lemma gtb_le (x y : Js.number) : Js.gtb x y = false <-> x <= y.
Proof.
  unfold Js.gtb, Qcle. rewrite negb_false_iff. apply Qle_bool_iff.
Qed.

Lemma lt_zero_neq (y : Js.number) : Js.zero < y -> y <> Js.zero.
Proof. intros H E. subst y. exact (Qclt_not_eq _ _ H eq_refl). Qed.

(** C4 as first stated fails: a recorded sale price of 0 is present, yet
    no profit is computed for it. *)
Lemma profit_sale_price_zero_counterexample :
  ~ (forall (st : Component) (p : Js.number),
        opt_field (houseInfo st) price_sold = Some p ->
        profit st = Some (p - totalCost (costs st))).
Proof.
  intros H.
  specialize (H (component_of (info (Some 300000%Z) (Some 0%Z)
                                    (Some 2020%Z) (Some 2024%Z))
                              scenario_costs)
                (Js.ofZ 0) eq_refl).
  discriminate H.
Qed.

(** C4, amended.  profit is defined exactly when a sale price is recorded
    and is not 0, and is then the sale price minus totalCost, of either
    sign; with no sale price, or with a sale price of 0, it is absent. *)
Theorem profit_spec (st : Component) :
  (forall p, opt_field (houseInfo st) price_sold = Some p -> p <> Js.zero ->
             profit st = Some (p - totalCost (costs st)))
  /\ (opt_field (houseInfo st) price_sold = Some Js.zero -> profit st = None)
  /\ (opt_field (houseInfo st) price_sold = None -> profit st = None)
  /\ (profit st <> None <->
      exists p, opt_field (houseInfo st) price_sold = Some p /\ p <> Js.zero).
Proof.
  unfold profit. repeat split.
  - intros p -> Hp. apply truthy_Some in Hp. now rewrite Hp.
  - intros ->. reflexivity.
  - intros ->. reflexivity.
  - destruct (opt_field (houseInfo st) price_sold) as [p|]; [|congruence].
    destruct (Js.truthy (Some p)) eqn:E; [|congruence].
    intros _. exists p. split; [reflexivity | now apply truthy_Some].
  - intros (p & -> & Hp). apply truthy_Some in Hp. rewrite Hp. discriminate.
Qed.

(** A house sold at a loss: the profit is negative. *)
Lemma profit_spec_witness :
  let st := component_of (info (Some 300000%Z) (Some 100000%Z)
                               (Some 2020%Z) (Some 2024%Z))
                         scenario_costs in
  Js.ofZ 100000 <> Js.zero
  /\ profit st = Some (Js.ofZ 100000 - Js.ofZ 307450).
Proof.
  intros st.
  assert (Hp : Js.ofZ 100000 <> Js.zero) by discriminate.
  split; [exact Hp|].
  exact (proj1 (profit_spec st) (Js.ofZ 100000) eq_refl Hp).
Defined.

(** C5.  costPerYear is defined exactly when yearsOwned is present and
    strictly positive, and is then totalCost / yearsOwned; a zero, negative
    or absent yearsOwned gives no per-year figure. *)
Theorem costPerYear_spec (st : Component) (currentYear : Js.number) :
  (forall y, yearsOwned st currentYear = Some y -> Js.zero < y ->
             costPerYear st currentYear = Some (totalCost (costs st) / y))
  /\ (forall y, yearsOwned st currentYear = Some y -> y <= Js.zero ->
                costPerYear st currentYear = None)
  /\ (yearsOwned st currentYear = None -> costPerYear st currentYear = None)
  /\ (costPerYear st currentYear <> None <->
      exists y, yearsOwned st currentYear = Some y /\ Js.zero < y).
Proof.
  unfold costPerYear, yearsCard. repeat split.
  - intros y -> Hy. pose proof (lt_zero_neq Hy) as Hn.
    apply truthy_Some in Hn. apply gtb_lt in Hy.
    rewrite Hn. cbn [perYear]. now rewrite Hy.
  - intros y -> Hy. apply gtb_le in Hy.
    destruct (Js.truthy (Some y)); [|reflexivity].
    cbn [perYear]. now rewrite Hy.
  - intros ->. reflexivity.
  - destruct (yearsOwned st currentYear) as [y|]; [|congruence].
    destruct (Js.truthy (Some y)); [|congruence]. cbn [perYear].
    destruct (Js.gtb y Js.zero) eqn:E; [|congruence].
    intros _. exists y. split; [reflexivity | now apply gtb_lt].
  - intros (y & -> & Hy). pose proof (lt_zero_neq Hy) as Hn.
    apply truthy_Some in Hn. apply gtb_lt in Hy.
    rewrite Hn. cbn [perYear]. rewrite Hy. discriminate.
Qed.

(** Four years of ownership of the scenario's house. *)
Lemma costPerYear_spec_witness :
  let st := component_of (info (Some 300000%Z) None (Some 2020%Z) (Some 2024%Z))
                         scenario_costs in
  yearsOwned st (Js.ofZ 2026) = Some (Js.ofZ 2024 - Js.ofZ 2020)
  /\ Js.zero < Js.ofZ 2024 - Js.ofZ 2020
  /\ costPerYear st (Js.ofZ 2026)
     = Some (Js.ofZ 307450 / (Js.ofZ 2024 - Js.ofZ 2020)).
Proof.
  intros st.
  assert (Hy : Js.zero < Js.ofZ 2024 - Js.ofZ 2020) by reflexivity.
  split; [reflexivity|]. split; [exact Hy|].
  exact (proj1 (costPerYear_spec st (Js.ofZ 2026)) _ eq_refl Hy).
Defined.

(** C6 as first stated fails: with a sale year of 0 on record the years
    owned run to the current year, not to the sale year. *)
Lemma yearsOwned_year_zero_counterexample :
  ~ (forall (st : Component) (currentYear b s : Js.number),
        opt_field (houseInfo st) year_bought = Some b ->
        opt_field (houseInfo st) year_sold = Some s ->
        yearsOwned st currentYear = Some (s - b)).
Proof.
  intros H.
  specialize (H (component_of (info (Some 300000%Z) None
                                    (Some 2000%Z) (Some 0%Z))
                              scenario_costs)
                (Js.ofZ 2026) (Js.ofZ 2000) (Js.ofZ 0) eq_refl eq_refl).
  discriminate H.
Qed.

(** C6, amended.  A year counts as present when it is recorded and is not
    0.  With both years present, yearsOwned is sale year minus purchase
    year; with the purchase year alone, current year minus purchase year;
    without a purchase year it is absent. *)
Theorem yearsOwned_spec (st : Component) (currentYear : Js.number) :
  let bought := opt_field (houseInfo st) year_bought in
  let sold := opt_field (houseInfo st) year_sold in
  (forall b s, bought = Some b -> sold = Some s ->
               b <> Js.zero -> s <> Js.zero ->
               yearsOwned st currentYear = Some (s - b))
  /\ (forall b, bought = Some b -> b <> Js.zero ->
                sold = None \/ sold = Some Js.zero ->
                yearsOwned st currentYear = Some (currentYear - b))
  /\ (bought = None \/ bought = Some Js.zero ->
      yearsOwned st currentYear = None).
Proof.
  cbv zeta. unfold yearsOwned. repeat split.
  - intros b s -> -> Hb Hs. apply truthy_Some in Hb, Hs.
    now rewrite Hb, Hs.
  - intros b -> Hb Hs. apply truthy_Some in Hb. rewrite Hb.
    destruct Hs as [->| ->]; reflexivity.
  - intros [->| ->]; reflexivity.
Qed.

(** Sold after four years; still owned after six. *)
Lemma yearsOwned_spec_witness :
  let sold_house := component_of (info (Some 300000%Z) (Some 350000%Z)
                                       (Some 2020%Z) (Some 2024%Z))
                                 scenario_costs in
  let kept_house := component_of (info (Some 300000%Z) None
                                       (Some 2020%Z) None)
                                 scenario_costs in
  yearsOwned sold_house (Js.ofZ 2026) = Some (Js.ofZ 2024 - Js.ofZ 2020)
  /\ yearsOwned kept_house (Js.ofZ 2026) = Some (Js.ofZ 2026 - Js.ofZ 2020).
Proof.
  intros sold_house kept_house.
  assert (H20 : Js.ofZ 2020 <> Js.zero) by discriminate.
  assert (H24 : Js.ofZ 2024 <> Js.zero) by discriminate.
  split.
  - exact (proj1 (yearsOwned_spec sold_house (Js.ofZ 2026))
                 _ _ eq_refl eq_refl H20 H24).
  - exact (proj1 (proj2 (yearsOwned_spec kept_house (Js.ofZ 2026)))
                 _ eq_refl H20 (or_introl eq_refl)).
Defined.

End LifecycleFacts.

(** ** File upload limits *)

Section FileUploadFacts.

Import FileUpload.
Local Open Scope Z_scope.

Variable props : Props.
Variable fileToBase64 : File -> option string.

Lemma for_of_spec (maxSize : Z) (batch : list File) (st : Loop) :
  for_of props fileToBase64 maxSize batch st
  = {| errors := errors st ++ raised props fileToBase64 maxSize batch;
       uploadedFiles :=
         uploadedFiles st ++ accepted fileToBase64 maxSize batch |}.
Proof.
  unfold for_of. revert st.
  induction batch as [|file batch IH]; intros st; cbn [fold_left].
  - cbn. rewrite !app_nil_r. now destruct st.
  - rewrite IH. unfold step, raised, accepted, too_large_message.
    cbn [flat_map]. rewrite Z.gtb_ltb, Z.ltb_antisym.
    destruct (size file <=? maxSize); cbn [negb].
    + destruct (fileToBase64 file); cbn [errors uploadedFiles];
        rewrite <- ?app_assoc, ?app_nil_r; reflexivity.
    + cbn [errors uploadedFiles]. rewrite <- ?app_assoc, ?app_nil_r.
      reflexivity.
Qed.

Lemma accepted_In (maxSize : Z) (batch : list File) (u : UploadedFile) :
  In u (accepted fileToBase64 maxSize batch) <->
  exists file base64,
    In file batch /\ size file <= maxSize
    /\ fileToBase64 file = Some base64 /\ u = uploaded file base64.
Proof.
  unfold accepted. rewrite in_flat_map. split.
  - intros (file & Hin & Hu).
    destruct (Z.leb_spec (size file) maxSize) as [Hle|_]; [|destruct Hu].
    destruct (fileToBase64 file) as [b|] eqn:E; [|destruct Hu].
    destruct Hu as [<-|[]]. now exists file, b.
  - intros (file & b & Hin & Hle & E & ->). exists file. split; [assumption|].
    apply Z.leb_le in Hle. rewrite Hle, E. now left.
Qed.

Lemma raised_too_large (maxSize : Z) (batch : list File) (file : File) :
  In file batch -> maxSize < size file ->
  In (too_large_message props file) (raised props fileToBase64 maxSize batch).
Proof.
  intros Hin Hgt. unfold raised. apply in_flat_map. exists file.
  split; [assumption|].
  apply Z.leb_gt in Hgt. rewrite Hgt. now left.
Qed.

(** C10.  With a batch selected, maxFiles being the value the caller
    passed or 10 when none was passed, and maxSizeMB the value passed or 5:
    if the files already attached plus the batch exceed maxFiles, nothing is
    handed to onFilesSelected and the error reads "Maximum N files allowed".
    Otherwise the files handed over are exactly those of the batch that are
    no larger than maxSizeMB megabytes and that the reader encoded, each
    with its data URI, in batch order; every larger file is left out and
    its "File ... exceeds N MB limit" message is raised. *)
Theorem handleFileSelect_limits (batch : list File) :
  let e := handleFileSelect props fileToBase64 (Some batch) in
  let limit := match maxFiles props with
               | Some n => n
               | None => 10
               end in
  let limitMB := match maxSizeMB props with
                 | Some n => n
                 | None => 5
                 end in
  let maxSize := limitMB * 1024 * 1024 in
  let count := Z.of_nat (List.length (existingFiles props))
               + Z.of_nat (List.length batch) in
  (limit < count ->
   onFilesSelected_call e = None
   /\ setError_calls e
      = [""%string;
         ("Maximum " ++ show limit ++ " files allowed")%string])
  /\ (count <= limit ->
      onFilesSelected_call e
      = match accepted fileToBase64 maxSize batch with
        | [] => None
        | u :: us => Some (u :: us)
        end
      /\ (forall u,
             In u (accepted fileToBase64 maxSize batch) <->
             exists file base64,
               In file batch /\ size file <= maxSize
               /\ fileToBase64 file = Some base64
               /\ u = uploaded file base64)
      /\ (forall file,
             In file batch -> maxSize < size file ->
             In ("File " ++ name file ++ " exceeds " ++ show limitMB
                 ++ "MB limit")%string
                (setError_calls e))).
Proof.
  cbv zeta. fold (maxFiles_of props). fold (maxSizeMB_of props).
  unfold handleFileSelect. repeat split.
  - apply Z.gtb_lt in H. now rewrite H.
  - apply Z.gtb_lt in H. now rewrite H.
  - assert (Hc : (Z.of_nat (List.length (existingFiles props))
                  + Z.of_nat (List.length batch) >? maxFiles_of props)
                 = false).
    { rewrite Z.gtb_ltb. now apply Z.ltb_ge. }
    rewrite Hc, for_of_spec. cbn [uploadedFiles app].
    destruct (accepted fileToBase64 (maxSizeMB_of props * 1024 * 1024) batch);
      reflexivity.
  - apply accepted_In.
  - apply accepted_In.
  - intros file Hin Hgt.
    assert (Hc : (Z.of_nat (List.length (existingFiles props))
                  + Z.of_nat (List.length batch) >? maxFiles_of props)
                 = false).
    { rewrite Z.gtb_ltb. now apply Z.ltb_ge. }
    rewrite Hc, for_of_spec. cbn [setError_calls errors]. apply in_or_app.
    right. change (In (too_large_message props file)
               (raised props fileToBase64
                       (maxSizeMB_of props * 1024 * 1024) batch)).
    now apply raised_too_large.
Qed.

End FileUploadFacts.

(** Three files under the default limits: the oversized one is reported
    and left out, the other two are handed over.  A widget limited to 3
    files of 1 MB: with two files attached a batch of two is refused as a
    whole, and with none attached the file of 2 MB is reported and left out
    while the small one is handed over. *)
Lemma handleFileSelect_limits_witness :
  (let e := FileUpload.handleFileSelect Examples.default_props
              Examples.data_uri (Some Examples.upload_batch) in
   (0 + 3 <= 10)%Z
   /\ FileUpload.onFilesSelected_call e
      = Some [{| FileUpload.file_name := "a.png";
                 FileUpload.file_url := "data:image/png;base64,AAAA";
                 FileUpload.file_type := "image/png";
                 FileUpload.file_size := 10 |};
              {| FileUpload.file_name := "notes";
                 FileUpload.file_url := "data:;base64,AAAA";
                 FileUpload.file_type := "application/octet-stream";
                 FileUpload.file_size := 5242880 |}]
   /\ In "File big.pdf exceeds 5MB limit"%string
         (FileUpload.setError_calls e))
  /\ (let e := FileUpload.handleFileSelect UploadExamples.full_props
                 Examples.data_uri (Some UploadExamples.small_batch) in
      (3 < 2 + 2)%Z
      /\ FileUpload.onFilesSelected_call e = None
      /\ FileUpload.setError_calls e
         = [""%string; "Maximum 3 files allowed"%string])
  /\ (let e := FileUpload.handleFileSelect UploadExamples.small_props
                 Examples.data_uri (Some UploadExamples.small_batch) in
      (0 + 2 <= 3)%Z
      /\ FileUpload.onFilesSelected_call e
         = Some [{| FileUpload.file_name := "a.png";
                    FileUpload.file_url := "data:image/png;base64,AAAA";
                    FileUpload.file_type := "image/png";
                    FileUpload.file_size := 10 |}]
      /\ In "File scan.pdf exceeds 1MB limit"%string
            (FileUpload.setError_calls e)).
Proof.
  split; [|split].
  - intros e.
    assert (Hc : (0 + 3 <= 10)%Z) by lia.
    destruct (handleFileSelect_limits Examples.default_props
                Examples.data_uri Examples.upload_batch)
      as (_ & Hin).
    destruct (Hin Hc) as (Hcall & _ & Herr).
    split; [exact Hc|]. split; [exact Hcall|].
    apply (Herr {| FileUpload.name := "big.pdf"; FileUpload.size := 5242881;
                   FileUpload.type := "application/pdf" |}).
    + right. left. reflexivity.
    + reflexivity.
  - intros e.
    assert (Hc : (3 < 2 + 2)%Z) by lia.
    destruct (handleFileSelect_limits UploadExamples.full_props
                Examples.data_uri UploadExamples.small_batch)
      as (Hover & _).
    destruct (Hover Hc) as (Hcall & Herr).
    split; [exact Hc|]. split; [exact Hcall | exact Herr].
  - intros e.
    assert (Hc : (0 + 2 <= 3)%Z) by lia.
    destruct (handleFileSelect_limits UploadExamples.small_props
                Examples.data_uri UploadExamples.small_batch)
      as (_ & Hin).
    destruct (Hin Hc) as (Hcall & _ & Herr).
    split; [exact Hc|]. split; [exact Hcall|].
    apply (Herr {| FileUpload.name := "scan.pdf"; FileUpload.size := 2097152;
                   FileUpload.type := "application/pdf" |}).
    + right. left. reflexivity.
    + reflexivity.
Defined.

(** ** The other stored procedures *)

Section DbOpsFacts.

Import Db DbOps.

Lemma exists_owned_house_iff (auth_uid : option uuid) (db : Database)
      (house_id : uuid) :
  exists_owned_house auth_uid db house_id = true
  <-> owns_house auth_uid db house_id.
Proof.
  unfold exists_owned_house, owns_house. rewrite existsb_exists.
  split; intros (h & Hin & H); exists h; (split; [assumption|]).
  - apply andb_true_iff in H. destruct H as [Hid Hu].
    apply String.eqb_eq in Hid. split; [assumption|].
    unfold eq_auth_uid in Hu. destruct auth_uid as [u|]; [|discriminate].
    apply String.eqb_eq in Hu. now rewrite Hu.
  - destruct H as [Hid Hu]. rewrite Hid, String.eqb_refl, <- Hu.
    simpl. apply String.eqb_refl.
Qed.

Lemma not_owned_false (auth_uid : option uuid) (db : Database)
      (house_id : uuid) :
  ~ owns_house auth_uid db house_id ->
  exists_owned_house auth_uid db house_id = false.
Proof.
  intros H. apply not_true_is_false. intros E.
  apply H. now apply exists_owned_house_iff.
Qed.

Lemma delete_where_none {R : Type} (cond : R -> bool) (table : list R) :
  (forall r, In r table -> cond r = false) -> delete_where cond table = table.
Proof.
  intros H. unfold delete_where. induction table as [|r t IH]; [reflexivity|].
  cbn [filter]. rewrite (H r (or_introl eq_refl)). cbn [negb].
  f_equal. apply IH. intros x Hx. apply H. now right.
Qed.

Lemma delete_where_In {R : Type} (cond : R -> bool) (table : list R) (r : R) :
  In r (delete_where cond table) <-> In r table /\ cond r = false.
Proof.
  unfold delete_where. rewrite filter_In, negb_true_iff. reflexivity.
Qed.

Lemma update_where_round_trip {R : Type} (c1 c2 : R -> bool)
      (s1 s2 : R -> R) (table : list R) :
  (forall r, In r table -> c1 r = true ->
             c2 (s1 r) = true /\ s2 (s1 r) = r) ->
  (forall r, In r table -> c1 r = false -> c2 r = false) ->
  update_where c2 s2 (update_where c1 s1 table) = table.
Proof.
  intros Ht Hf. unfold update_where. rewrite map_map.
  rewrite <- (map_id table) at 2. apply map_ext_in. intros r Hin.
  destruct (c1 r) eqn:E.
  - destruct (Ht r Hin E) as [-> ->]. reflexivity.
  - now rewrite (Hf r Hin E).
Qed.

Lemma with_same_tables (db : Database) :
  with_interior_appliances db (interior_appliances db) = db
  /\ with_appliance_repairs db (appliance_repairs db) = db
  /\ with_appliance_attachments db (appliance_attachments db) = db
  /\ with_exterior_features db (exterior_features db) = db
  /\ with_exterior_maintenance db (exterior_maintenance db) = db.
Proof. destruct db. repeat split. Qed.

(** X1.  For any caller: soft_delete_appliance followed by
    restore_appliance gives the database back, provided the appliance and
    all its repairs and attachments were active beforehand. *)
Theorem restore_after_soft_delete_appliance
        (auth_uid : option uuid) (now : timestamptz) (appliance_id : uuid)
        (db : Database) :
  (forall a, In a (interior_appliances db) -> ia_id a = appliance_id ->
             ia_deleted_at a = None) ->
  (forall r, In r (appliance_repairs db) ->
             ar_appliance_id r = appliance_id -> ar_deleted_at r = None) ->
  (forall f, In f (appliance_attachments db) ->
             aa_appliance_id f = appliance_id -> aa_deleted_at f = None) ->
  restore_appliance auth_uid appliance_id
    (soft_delete_appliance auth_uid now appliance_id db)
  = db.
Proof.
  intros Ha Hr Hf. destruct db as [hs apps reps atts feats maint].
  unfold restore_appliance, soft_delete_appliance, with_interior_appliances,
    with_appliance_repairs, with_appliance_attachments, exists_owned_house.
  cbn [houses interior_appliances appliance_repairs appliance_attachments
       exterior_features exterior_maintenance] in *.
  f_equal.
  - apply update_where_round_trip.
    + intros a Hin Hc. apply andb_true_iff in Hc. destruct Hc as [Hc Ho].
      apply andb_true_iff in Hc. destruct Hc as [Hid Hn].
      destruct a as [i h p c d]. cbn in *. rewrite Hid, Ho.
      destruct d; [discriminate|]. now split.
    + intros a Hin Hc. destruct (String.eqb_spec (ia_id a) appliance_id)
        as [Hid|_]; [|reflexivity].
      rewrite (Ha a Hin Hid). reflexivity.
  - apply update_where_round_trip.
    + intros r Hin Hc. apply andb_true_iff in Hc. destruct Hc as [Hid Hn].
      destruct r as [i a c d]. cbn in *. rewrite Hid.
      destruct d; [discriminate|]. now split.
    + intros r Hin Hc. destruct (String.eqb_spec (ar_appliance_id r)
        appliance_id) as [Hid|_]; [|reflexivity].
      rewrite (Hr r Hin Hid). reflexivity.
  - apply update_where_round_trip.
    + intros f Hin Hc. apply andb_true_iff in Hc. destruct Hc as [Hid Hn].
      destruct f as [i a n d]. cbn in *. rewrite Hid.
      destruct d; [discriminate|]. now split.
    + intros f Hin Hc. destruct (String.eqb_spec (aa_appliance_id f)
        appliance_id) as [Hid|_]; [|reflexivity].
      rewrite (Hf f Hin Hid). reflexivity.
Qed.

(** X2.  Whoever calls restore_appliance, afterwards no repair and no
    attachment of the appliance is in the trash, including those that were
    trashed before the appliance was; the ownership test guards the appliance
    row alone, so a caller who does not own its house leaves the appliance
    table as it was. *)
Theorem restore_appliance_cascade_unguarded
        (auth_uid : option uuid) (appliance_id : uuid) (db : Database) :
  let db' := restore_appliance auth_uid appliance_id db in
  (forall r, In r (appliance_repairs db') ->
             ar_appliance_id r = appliance_id -> ar_deleted_at r = None)
  /\ (forall f, In f (appliance_attachments db') ->
                aa_appliance_id f = appliance_id -> aa_deleted_at f = None)
  /\ ((forall a, In a (interior_appliances db) -> ia_id a = appliance_id ->
                 ~ owns_house auth_uid db (ia_house_id a)) ->
      interior_appliances db' = interior_appliances db).
Proof.
  cbv zeta. unfold restore_appliance, with_interior_appliances,
    with_appliance_repairs, with_appliance_attachments, is_not_null.
  cbn [houses interior_appliances appliance_repairs appliance_attachments].
  repeat split.
  - intros r' Hin Hid. apply update_where_inv in Hin.
    destruct Hin as (r & _ & [[_ ->]|[Hc ->]]); [reflexivity|].
    rewrite Hid, String.eqb_refl in Hc.
    destruct (ar_deleted_at r); [discriminate Hc | reflexivity].
  - intros f' Hin Hid. apply update_where_inv in Hin.
    destruct Hin as (f & _ & [[_ ->]|[Hc ->]]); [reflexivity|].
    rewrite Hid, String.eqb_refl in Hc.
    destruct (aa_deleted_at f); [discriminate Hc | reflexivity].
  - intros Hown. apply update_where_none. intros a Hin.
    destruct (String.eqb_spec (ia_id a) appliance_id) as [Hid|_];
      [|reflexivity].
    rewrite (not_owned_false (Hown a Hin Hid)). apply andb_false_r.
Qed.

Lemma exists_owned_appliance_false (auth_uid : option uuid) (db : Database)
      (appliance_id : uuid) :
  (forall a, In a (interior_appliances db) -> ia_id a = appliance_id ->
             ~ owns_house auth_uid db (ia_house_id a)) ->
  exists_owned_appliance auth_uid db appliance_id = false.
Proof.
  intros H. apply not_true_is_false. intros E.
  unfold exists_owned_appliance in E.
  apply existsb_exists in E. destruct E as (a & Hin & Ha).
  apply andb_true_iff in Ha. destruct Ha as [Hid Ho].
  apply String.eqb_eq in Hid. apply exists_owned_house_iff in Ho.
  exact (H a Hin Hid Ho).
Qed.

Lemma exists_owned_appliance_true (auth_uid : option uuid) (db : Database)
      (appliance_id : uuid) (a : interior_appliances_row) :
  In a (interior_appliances db) -> ia_id a = appliance_id ->
  owns_house auth_uid db (ia_house_id a) ->
  exists_owned_appliance auth_uid db appliance_id = true.
Proof.
  intros Hin Hid Ho. unfold exists_owned_appliance. apply existsb_exists.
  exists a. split; [assumption|]. rewrite Hid, String.eqb_refl.
  now apply exists_owned_house_iff.
Qed.

(** X3.  permanent_delete_appliance called by someone who owns no house of
    an appliance with that id (or for an id that no appliance has) changes
    nothing: unlike the soft delete, its three statements are all guarded. *)
Theorem permanent_delete_appliance_stranger
        (auth_uid : option uuid) (appliance_id : uuid) (db : Database) :
  (forall a, In a (interior_appliances db) -> ia_id a = appliance_id ->
             ~ owns_house auth_uid db (ia_house_id a)) ->
  permanent_delete_appliance auth_uid appliance_id db = db.
Proof.
  intros H. pose proof (exists_owned_appliance_false H) as E.
  destruct db as [hs apps reps atts feats maint].
  unfold permanent_delete_appliance, with_interior_appliances,
    with_appliance_repairs, with_appliance_attachments in *.
  unfold exists_owned_appliance, exists_owned_house in *.
  cbn [houses interior_appliances appliance_repairs appliance_attachments
       exterior_features exterior_maintenance] in *.
  f_equal.
  - apply delete_where_none. intros a Hin.
    destruct (String.eqb_spec (ia_id a) appliance_id) as [Hid|_];
      [|reflexivity].
    pose proof (not_owned_false (H a Hin Hid)) as Ho.
    unfold exists_owned_house in Ho. cbn [houses] in Ho. rewrite Ho.
    reflexivity.
  - apply delete_where_none. intros r _. rewrite E. apply andb_false_r.
  - apply delete_where_none. intros f _. rewrite E. apply andb_false_r.
Qed.

(** X4.  permanent_delete_appliance called by the owner of the appliance's
    house removes every repair and attachment that references the appliance
    and every appliance row with that id in a house of the caller; all other
    rows stay, in order, and the other tables are untouched. *)
Theorem permanent_delete_appliance_owner
        (auth_uid : option uuid) (appliance_id : uuid) (db : Database)
        (a : interior_appliances_row) :
  In a (interior_appliances db) -> ia_id a = appliance_id ->
  owns_house auth_uid db (ia_house_id a) ->
  let db' := permanent_delete_appliance auth_uid appliance_id db in
  appliance_repairs db'
  = filter (fun r => negb (String.eqb (ar_appliance_id r) appliance_id))
           (appliance_repairs db)
  /\ appliance_attachments db'
     = filter (fun f => negb (String.eqb (aa_appliance_id f) appliance_id))
              (appliance_attachments db)
  /\ (forall b, In b (interior_appliances db') <->
                In b (interior_appliances db)
                /\ ~ (ia_id b = appliance_id
                      /\ owns_house auth_uid db (ia_house_id b)))
  /\ ~ In a (interior_appliances db')
  /\ houses db' = houses db
  /\ exterior_features db' = exterior_features db
  /\ exterior_maintenance db' = exterior_maintenance db.
Proof.
  intros Hin Hid Ho. cbv zeta.
  pose proof (exists_owned_appliance_true _ Hin Hid Ho) as E.
  assert (Hiff : forall b,
             In b (interior_appliances
                     (permanent_delete_appliance auth_uid appliance_id db))
             <-> In b (interior_appliances db)
                 /\ ~ (ia_id b = appliance_id
                       /\ owns_house auth_uid db (ia_house_id b))).
  { intros b. unfold permanent_delete_appliance, with_interior_appliances,
      with_appliance_repairs, with_appliance_attachments.
    cbn [houses interior_appliances appliance_repairs appliance_attachments].
    rewrite delete_where_In.
    change (exists_owned_house auth_uid _ (ia_house_id b))
      with (exists_owned_house auth_uid db (ia_house_id b)).
    split; intros [Hb Hc]; (split; [assumption|]).
    - intros [Hbid Hbo]. apply exists_owned_house_iff in Hbo.
      rewrite Hbid, String.eqb_refl, Hbo in Hc. discriminate.
    - apply not_true_is_false. intros Ht. apply andb_true_iff in Ht.
      destruct Ht as [Hbid Hbo]. apply String.eqb_eq in Hbid.
      apply exists_owned_house_iff in Hbo. now apply Hc. }
  unfold permanent_delete_appliance, with_interior_appliances,
    with_appliance_repairs, with_appliance_attachments, delete_where in *.
  cbn [houses interior_appliances appliance_repairs appliance_attachments
       exterior_features exterior_maintenance] in *.
  change (exists_owned_appliance auth_uid _ appliance_id)
    with (exists_owned_appliance auth_uid db appliance_id).
  rewrite E.
  split; [apply filter_ext; intros r; now rewrite andb_true_r|].
  split; [apply filter_ext; intros f; now rewrite andb_true_r|].
  split; [exact Hiff|].
  split; [|repeat split].
  intros Hin'. apply Hiff in Hin'. destruct Hin' as [_ Hn]. now apply Hn.
Qed.


(** X5.  Exterior features: called by someone who does not own the house of
    the row, soft delete and restore both change nothing; called by the owner on
    an active row, the soft delete stamps it with the time of the call; and
    for any caller a soft delete followed by a restore gives the database
    back when the row was active. *)
Theorem soft_delete_exterior_feature_restore
        (auth_uid : option uuid) (now : timestamptz) (feature_id : uuid)
        (db : Database) :
  ((forall x, In x (exterior_features db) -> ef_id x = feature_id ->
              ~ owns_house auth_uid db (ef_house_id x)) ->
   soft_delete_exterior_feature auth_uid now feature_id db = db
   /\ restore_exterior_feature auth_uid feature_id db = db)
  /\ (forall x, In x (exterior_features db) -> ef_id x = feature_id ->
                ef_deleted_at x = None ->
                owns_house auth_uid db (ef_house_id x) ->
                In (set_ef_deleted_at (Some now) x)
                   (exterior_features
                      (soft_delete_exterior_feature
                         auth_uid now feature_id db)))
  /\ ((forall x, In x (exterior_features db) -> ef_id x = feature_id ->
                 ef_deleted_at x = None) ->
      restore_exterior_feature auth_uid feature_id
        (soft_delete_exterior_feature auth_uid now feature_id db)
      = db).
Proof.
  destruct db as [hs apps reps atts feats maint].
  unfold soft_delete_exterior_feature, restore_exterior_feature,
    with_exterior_features, is_not_null.
  cbn [houses interior_appliances appliance_repairs appliance_attachments
       exterior_features exterior_maintenance].
  split; [|split].
  - intros H. split; f_equal; apply update_where_none; intros x Hin;
      (destruct (String.eqb_spec (ef_id x) feature_id) as [Hid|_];
       [|reflexivity]);
      rewrite (not_owned_false (H x Hin Hid)); apply andb_false_r.
  - intros x Hin Hid Hn Ho. apply update_where_In; [assumption|].
    apply exists_owned_house_iff in Ho. rewrite Hid, Hn, Ho.
    now rewrite String.eqb_refl.
  - intros H. f_equal. apply update_where_round_trip.
    + intros x Hin Hc. apply andb_true_iff in Hc. destruct Hc as [Hc Ho].
      apply andb_true_iff in Hc. destruct Hc as [Hid Hn].
      destruct x as [i h c d]. cbn in *.
      unfold exists_owned_house in *. cbn [houses] in *. rewrite Hid, Ho.
      destruct d; [discriminate|]. now split.
    + intros x Hin Hc.
      destruct (String.eqb_spec (ef_id x) feature_id) as [Hid|_];
        [|reflexivity].
      rewrite (H x Hin Hid). reflexivity.
Qed.

(** X6.  Exterior maintenance records: called by someone who does not own
    the house of the row, soft delete and restore both change nothing;
    called by the owner on an active row, the soft delete stamps it with the
    time of the call; and for any caller a soft delete followed by a restore
    gives the database back when the row was active. *)
Theorem soft_delete_exterior_maintenance_restore
        (auth_uid : option uuid) (now : timestamptz) (maintenance_id : uuid)
        (db : Database) :
  ((forall x, In x (exterior_maintenance db) -> em_id x = maintenance_id ->
              ~ owns_house auth_uid db (em_house_id x)) ->
   soft_delete_exterior_maintenance auth_uid now maintenance_id db = db
   /\ restore_exterior_maintenance auth_uid maintenance_id db = db)
  /\ (forall x, In x (exterior_maintenance db) -> em_id x = maintenance_id ->
                em_deleted_at x = None ->
                owns_house auth_uid db (em_house_id x) ->
                In (set_em_deleted_at (Some now) x)
                   (exterior_maintenance
                      (soft_delete_exterior_maintenance
                         auth_uid now maintenance_id db)))
  /\ ((forall x, In x (exterior_maintenance db) -> em_id x = maintenance_id ->
                 em_deleted_at x = None) ->
      restore_exterior_maintenance auth_uid maintenance_id
        (soft_delete_exterior_maintenance auth_uid now maintenance_id db)
      = db).
Proof.
  destruct db as [hs apps reps atts feats maint].
  unfold soft_delete_exterior_maintenance, restore_exterior_maintenance,
    with_exterior_maintenance, is_not_null.
  cbn [houses interior_appliances appliance_repairs appliance_attachments
       exterior_features exterior_maintenance].
  split; [|split].
  - intros H. split; f_equal; apply update_where_none; intros x Hin;
      (destruct (String.eqb_spec (em_id x) maintenance_id) as [Hid|_];
       [|reflexivity]);
      rewrite (not_owned_false (H x Hin Hid)); apply andb_false_r.
  - intros x Hin Hid Hn Ho. apply update_where_In; [assumption|].
    apply exists_owned_house_iff in Ho. rewrite Hid, Hn, Ho.
    now rewrite String.eqb_refl.
  - intros H. f_equal. apply update_where_round_trip.
    + intros x Hin Hc. apply andb_true_iff in Hc. destruct Hc as [Hc Ho].
      apply andb_true_iff in Hc. destruct Hc as [Hid Hn].
      destruct x as [i h c d]. cbn in *.
      unfold exists_owned_house in *. cbn [houses] in *. rewrite Hid, Ho.
      destruct d; [discriminate|]. now split.
    + intros x Hin Hc.
      destruct (String.eqb_spec (em_id x) maintenance_id) as [Hid|_];
        [|reflexivity].
      rewrite (H x Hin Hid). reflexivity.
Qed.

(** X7.  Rooms: called by someone who does not own the room's house, the
    three room procedures change nothing; the owner's permanent delete
    removes exactly the rooms with that id in the caller's houses; and for
    any caller a soft delete followed by a restore gives the table back when
    the room was active. *)
Theorem room_procedures
        (auth_uid : option uuid) (now : timestamptz) (room_id : uuid)
        (db : Database) (rooms : list rooms_row) :
  ((forall r, In r rooms -> rm_id r = room_id ->
              ~ owns_house auth_uid db (rm_house_id r)) ->
   soft_delete_room auth_uid now room_id db rooms = rooms
   /\ restore_room auth_uid room_id db rooms = rooms
   /\ permanent_delete_room auth_uid room_id db rooms = rooms)
  /\ (forall r, In r (permanent_delete_room auth_uid room_id db rooms) <->
                In r rooms
                /\ ~ (rm_id r = room_id
                      /\ owns_house auth_uid db (rm_house_id r)))
  /\ ((forall r, In r rooms -> rm_id r = room_id -> rm_deleted_at r = None) ->
      restore_room auth_uid room_id db
        (soft_delete_room auth_uid now room_id db rooms)
      = rooms).
Proof.
  unfold soft_delete_room, restore_room, permanent_delete_room, is_not_null.
  split; [|split].
  - intros H.
    assert (Hf : forall r, In r rooms ->
                   String.eqb (rm_id r) room_id
                   && exists_owned_house auth_uid db (rm_house_id r) = false).
    { intros r Hin. destruct (String.eqb_spec (rm_id r) room_id) as [Hid|_];
        [|reflexivity].
      now rewrite (not_owned_false (H r Hin Hid)). }
    repeat split.
    + apply update_where_none. intros r Hin.
      rewrite <- andb_assoc, (andb_comm (is_null _)), andb_assoc.
      now rewrite (Hf r Hin).
    + apply update_where_none. intros r Hin.
      rewrite <- andb_assoc, (andb_comm (negb _)), andb_assoc.
      now rewrite (Hf r Hin).
    + apply delete_where_none. exact Hf.
  - intros r. rewrite delete_where_In.
    split; intros [Hin Hc]; (split; [assumption|]).
    + intros [Hid Ho]. apply exists_owned_house_iff in Ho.
      rewrite Hid, String.eqb_refl, Ho in Hc. discriminate.
    + apply not_true_is_false. intros Ht. apply andb_true_iff in Ht.
      destruct Ht as [Hid Ho]. apply String.eqb_eq in Hid.
      apply exists_owned_house_iff in Ho. now apply Hc.
  - intros H. apply update_where_round_trip.
    + intros x Hin Hc. apply andb_true_iff in Hc. destruct Hc as [Hc Ho].
      apply andb_true_iff in Hc. destruct Hc as [Hid Hn].
      destruct x as [i h c d]. cbn in *. rewrite Hid, Ho.
      destruct d; [discriminate|]. now split.
    + intros x Hin Hc.
      destruct (String.eqb_spec (rm_id x) room_id) as [Hid|_]; [|reflexivity].
      rewrite (H x Hin Hid). reflexivity.
Qed.

Lemma update_where_again {R : Type} (c : R -> bool) (s1 s2 : R -> R)
      (table : list R) :
  (forall r, In r table -> c r = true -> c (s1 r) = false) ->
  update_where c s2 (update_where c s1 table) = update_where c s1 table.
Proof.
  intros H. unfold update_where. rewrite map_map. apply map_ext_in.
  intros r Hin. destruct (c r) eqn:E.
  - now rewrite (H r Hin E).
  - now rewrite E.
Qed.

(** X8.  soft_delete_appliance is idempotent for a caller: a second call,
    at whatever later time, changes nothing, so the rows keep the time of
    the first deletion. *)
Theorem soft_delete_appliance_keeps_first_time
        (auth_uid : option uuid) (now later : timestamptz)
        (appliance_id : uuid) (db : Database) :
  soft_delete_appliance auth_uid later appliance_id
    (soft_delete_appliance auth_uid now appliance_id db)
  = soft_delete_appliance auth_uid now appliance_id db.
Proof.
  destruct db as [hs apps reps atts feats maint].
  unfold soft_delete_appliance, exists_owned_house.
  cbn [houses interior_appliances appliance_repairs appliance_attachments
       exterior_features exterior_maintenance].
  f_equal; apply update_where_again; intros x _ _; cbn;
    rewrite ?andb_false_r; reflexivity.
Qed.

End DbOpsFacts.

(** *** The procedures on the scenario database *)

Section DbOpsWitnesses.

Import Db DbOps.
Local Open Scope string_scope.

Lemma alice_owns_h1 : owns_house (Some "alice") Examples.scenario_db "h1".
Proof.
  exists (Examples.house "h1" "alice" (Some 300000%Z) None (Some 2020%Z) None).
  repeat split. now left.
Qed.

Lemma mallory_owns_nothing (house_id : uuid) :
  ~ owns_house (Some "mallory") Examples.scenario_db house_id.
Proof.
  intros (h & Hin & _ & Hu). destruct Hin as [<-|[]]. discriminate Hu.
Qed.

Lemma restore_after_soft_delete_appliance_witness :
  restore_appliance (Some "alice") "a1"
    (soft_delete_appliance (Some "alice") 1000%Z "a1" Examples.scenario_db)
  = Examples.scenario_db.
Proof.
  apply restore_after_soft_delete_appliance.
  - intros a [<-|[]] _. reflexivity.
  - intros r [<-|[]] _. reflexivity.
  - intros f [<-|[]] _. reflexivity.
Defined.

Lemma restore_appliance_cascade_unguarded_witness :
  interior_appliances
    (restore_appliance (Some "mallory") "a1"
       (soft_delete_appliance (Some "alice") 1000%Z "a1"
                              Examples.scenario_db))
  = interior_appliances
      (soft_delete_appliance (Some "alice") 1000%Z "a1" Examples.scenario_db).
Proof.
  refine (proj2 (proj2 (restore_appliance_cascade_unguarded
                          (Some "mallory") "a1"
                          (soft_delete_appliance (Some "alice") 1000%Z "a1"
                                                 Examples.scenario_db))) _).
  intros a _ _ (h & Hin & _ & Hu). destruct Hin as [<-|[]]. discriminate Hu.
Defined.

Lemma permanent_delete_appliance_stranger_witness :
  permanent_delete_appliance (Some "mallory") "a1" Examples.scenario_db
  = Examples.scenario_db.
Proof.
  apply permanent_delete_appliance_stranger.
  intros a _ _. apply mallory_owns_nothing.
Defined.

Lemma permanent_delete_appliance_owner_witness :
  let db' := permanent_delete_appliance (Some "alice") "a1"
                                        Examples.scenario_db in
  appliance_repairs db' = []
  /\ appliance_attachments db' = []
  /\ ~ In MoreExamples.the_appliance (interior_appliances db').
Proof.
  intros db'.
  destruct (@permanent_delete_appliance_owner (Some "alice") "a1"
              Examples.scenario_db MoreExamples.the_appliance
              (or_introl eq_refl) eq_refl alice_owns_h1)
    as (Hr & Ha & _ & Hn & _).
  split; [exact Hr|]. split; [exact Ha | exact Hn].
Defined.

Lemma soft_delete_exterior_feature_restore_witness :
  soft_delete_exterior_feature (Some "mallory") 1000%Z "e1"
                               Examples.scenario_db
  = Examples.scenario_db
  /\ In (set_ef_deleted_at (Some 1000%Z) MoreExamples.the_feature)
        (exterior_features
           (soft_delete_exterior_feature (Some "alice") 1000%Z "e1"
                                         Examples.scenario_db))
  /\ restore_exterior_feature (Some "alice") "e1"
       (soft_delete_exterior_feature (Some "alice") 1000%Z "e1"
                                     Examples.scenario_db)
     = Examples.scenario_db.
Proof.
  pose proof (soft_delete_exterior_feature_restore (Some "mallory") 1000%Z "e1"
                Examples.scenario_db) as Hm.
  pose proof (soft_delete_exterior_feature_restore (Some "alice") 1000%Z "e1"
                Examples.scenario_db) as Ha.
  split; [|split].
  - refine (proj1 (proj1 Hm _)).
    intros x _ _. apply mallory_owns_nothing.
  - exact (proj1 (proj2 Ha) MoreExamples.the_feature (or_introl eq_refl)
                 eq_refl eq_refl alice_owns_h1).
  - refine (proj2 (proj2 Ha) _).
    intros x [<-|[]] _. reflexivity.
Defined.

Lemma soft_delete_exterior_maintenance_restore_witness :
  restore_exterior_maintenance (Some "mallory") "m1" Examples.scenario_db
  = Examples.scenario_db
  /\ In (set_em_deleted_at (Some 1000%Z) MoreExamples.the_maintenance)
        (exterior_maintenance
           (soft_delete_exterior_maintenance (Some "alice") 1000%Z "m1"
                                             Examples.scenario_db))
  /\ restore_exterior_maintenance (Some "alice") "m1"
       (soft_delete_exterior_maintenance (Some "alice") 1000%Z "m1"
                                         Examples.scenario_db)
     = Examples.scenario_db.
Proof.
  pose proof (soft_delete_exterior_maintenance_restore
                (Some "mallory") 1000%Z "m1" Examples.scenario_db) as Hm.
  pose proof (soft_delete_exterior_maintenance_restore
                (Some "alice") 1000%Z "m1" Examples.scenario_db) as Ha.
  split; [|split].
  - refine (proj2 (proj1 Hm _)).
    intros x _ _. apply mallory_owns_nothing.
  - exact (proj1 (proj2 Ha) MoreExamples.the_maintenance
                 (or_introl eq_refl) eq_refl eq_refl alice_owns_h1).
  - refine (proj2 (proj2 Ha) _).
    intros x [<-|[]] _. reflexivity.
Defined.

Lemma room_procedures_witness :
  permanent_delete_room (Some "mallory") "k1" Examples.scenario_db
                        MoreExamples.the_rooms
  = MoreExamples.the_rooms
  /\ restore_room (Some "alice") "k1" Examples.scenario_db
       (soft_delete_room (Some "alice") 1000%Z "k1" Examples.scenario_db
                         MoreExamples.the_rooms)
     = MoreExamples.the_rooms.
Proof.
  split.
  - refine (proj2 (proj2 (proj1 (room_procedures (Some "mallory") 1000%Z "k1"
                                   Examples.scenario_db
                                   MoreExamples.the_rooms) _))).
    intros r _ _. apply mallory_owns_nothing.
  - refine (proj2 (proj2 (room_procedures (Some "alice") 1000%Z "k1"
                            Examples.scenario_db MoreExamples.the_rooms)) _).
    intros r [<-|[<-|[]]] _; reflexivity.
Defined.

End DbOpsWitnesses.

(** ** Soft deletes as seen by the dashboard *)

Section SoftDeleteOnDashboard.

Import Db DbOps CostDashboard.

Variable auth_uid : option uuid.
Variable now : timestamptz.
Variable appliance_id : uuid.
Variable db : Database.
Variable hid : uuid.



Let other (a : interior_appliances_row) : bool :=
  negb (String.eqb (ia_id a) appliance_id).





Variable w : World.



End SoftDeleteOnDashboard.


(** ** The dashboard beyond the breakdown *)

Section DashboardFacts.

Import Db CostDashboard CostDashboardEffect.
Local Open Scope Qc_scope.

Ltac run_load :=
  unfold loadCosts, try_catch_finally, loadCosts_body, phase1, bind, send,
    await, ret, setCosts, setHouseInfo, setLoading, set_component,
    console_error, id_or_empty.

(** X10.  Whatever the house id and whatever the reads do (answer, answer
    with an error, reject), the mount effect completes normally and leaves
    [loading] false: the component never stays on its loading screen and no
    rejection escapes loadCosts. *)
Theorem houseId_effect_clears_loading
        (supabase : Client) (houseId : option uuid) (w : World) :
  fst (houseId_effect supabase houseId w) = Normal tt
  /\ loading (component (snd (houseId_effect supabase houseId w))) = false.
Proof.
  unfold houseId_effect. destruct (falsy_id houseId) eqn:Hf.
  - split; reflexivity.
  - unfold loadCosts. rewrite Hf. generalize (id_or_empty houseId) as hid.
    intros hid. run_load.
    destruct (select_house supabase hid) as [rh|?];
      destruct (select_appliances supabase hid) as [ra|?];
      destruct (select_features supabase hid) as [rf|?];
      destruct (select_maintenance supabase hid) as [rm|?];
      try (split; reflexivity).
    destruct (non_empty (data ra)).
    + destruct (select_repairs supabase (map id (rows_or_nil (data ra))))
        as [rr|?]; [destruct (data rh)|]; split; reflexivity.
    + destruct (data rh); split; reflexivity.
Qed.

(** X11.  When a read that loadCosts awaits rejects, the stored breakdown
    and house info stay exactly as they were, [loading] is cleared, and the
    console receives one "Error loading costs:" entry carrying the error of
    a rejected read. *)
Theorem loadCosts_rejection_keeps_state
        (supabase : Client) (hid : uuid) (w : World) (e : Error) :
  hid <> EmptyString ->
  some_read_rejects supabase hid e ->
  let w' := snd (loadCosts supabase (Some hid) w) in
  costs (component w') = costs (component w)
  /\ houseInfo (component w') = houseInfo (component w)
  /\ loading (component w') = false
  /\ exists e', some_read_rejects supabase hid e'
                /\ console w'
                   = (console w ++ [("Error loading costs:"%string, e')])%list.
Proof.
  intros Hid Hrej. cbv zeta. unfold loadCosts.
  rewrite (falsy_id_false Hid). cbn [id_or_empty]. run_load.
  unfold some_read_rejects in *.
  destruct (select_house supabase hid) as [rh|e1] eqn:Eh.
  2:{ repeat split. exists e1. split; [now left | reflexivity]. }
  destruct (select_appliances supabase hid) as [ra|e2] eqn:Ea.
  2:{ repeat split. exists e2. split; [right; now left | reflexivity]. }
  destruct (select_features supabase hid) as [rf|e3] eqn:Ef.
  2:{ repeat split. exists e3. split; [right; right; now left | reflexivity]. }
  destruct (select_maintenance supabase hid) as [rm|e4] eqn:Em.
  2:{ repeat split. exists e4.
      split; [right; right; right; now left | reflexivity]. }
  destruct Hrej as [H|[H|[H|[H|(ra' & Hra & Hne & Hr)]]]]; try discriminate H.
  injection Hra as <-. rewrite Hne, Hr.
  repeat split. exists e. split; [|reflexivity].
  right; right; right; right. exists ra. repeat split; assumption.
Qed.


(** X13.  When the first four reads are answered and the appliances read
    brought rows, loadCosts issues exactly one repair lookup, after the four
    reads, keyed by the ids of the fetched appliances in their order. *)
Theorem loadCosts_repair_lookup
        (supabase : Client) (hid : uuid) (w : World)
        (houseRes : Response HouseInfo)
        (appliancesRes : Response (list ApplianceCosts))
        (featuresRes : Response (list FeatureCost))
        (maintenanceRes : Response (list MaintenanceCost))
        (a : ApplianceCosts) (apps : list ApplianceCosts) :
  hid <> EmptyString ->
  select_house supabase hid = Fulfilled houseRes ->
  select_appliances supabase hid = Fulfilled appliancesRes ->
  select_features supabase hid = Fulfilled featuresRes ->
  select_maintenance supabase hid = Fulfilled maintenanceRes ->
  data appliancesRes = Some (a :: apps) ->
  requests (snd (loadCosts supabase (Some hid) w))
  = (requests w
     ++ [From_houses hid; From_interior_appliances hid;
         From_exterior_features hid; From_exterior_maintenance hid;
         From_appliance_repairs (map id (a :: apps))])%list.
Proof.
  intros Hid Hh Ha Hf Hm Hd. unfold loadCosts.
  rewrite (falsy_id_false Hid). cbn [id_or_empty]. run_load.
  rewrite Hh, Ha, Hf, Hm, Hd. cbn [non_empty rows_or_nil].
  destruct (select_repairs supabase (map id (a :: apps))) as [rr|e];
    [destruct (data houseRes)|]; cbn [snd requests];
    rewrite <- ?app_assoc; reflexivity.
Qed.

Ltac qc_lra :=
  change Js.zero with 0%Qc in *; unfold Js.number in *;
  unfold Qcle, Qclt in *;
  repeat (progress (unfold Qcplus, Qcminus, Qcopp, Q2Qc in *;
                    cbn [this] in *));
  repeat rewrite Qred_correct in *; lra.

Lemma coalesce_not_negative (v : Js.value) :
  not_negative v -> Js.zero <= coalesce v.
Proof. destruct v; cbn; intros H; try exact H; apply Qcle_refl. Qed.

Lemma total_not_negative {R : Type} (field : R -> Js.value) (rows : list R) :
  Forall (fun r => not_negative (field r)) rows ->
  Js.zero <= total (map (fun r => coalesce (field r)) rows).
Proof.
  induction 1 as [|r rows Hr _ IH].
  - apply Qcle_refl.
  - change (Js.zero
            <= coalesce (field r)
               + total (map (fun r => coalesce (field r)) rows)).
    apply coalesce_not_negative in Hr.
    revert Hr IH. generalize (coalesce (field r))
      (total (map (fun r => coalesce (field r)) rows)).
    intros x y Hx Hy. qc_lra.
Qed.

(** X14.  When no fetched cost and no purchase price is negative, no
    component of the breakdown is negative and totalCost is at least as
    large as each of the six components. *)
Theorem loadCosts_not_negative
        (supabase : Client) (hid : uuid) (w : World)
        (house : option HouseInfo) (apps : list ApplianceCosts)
        (feats : list FeatureCost) (maint : list MaintenanceCost)
        (reps : list RepairCost) :
  hid <> EmptyString ->
  select_house supabase hid = ok house ->
  select_appliances supabase hid = ok (Some apps) ->
  select_features supabase hid = ok (Some feats) ->
  select_maintenance supabase hid = ok (Some maint) ->
  (apps <> [] -> select_repairs supabase (map id apps) = ok (Some reps)) ->
  (forall h p, house = Some h -> price_paid h = Some p -> Js.zero <= p) ->
  Forall (fun a => not_negative (purchase_cost a)) apps ->
  Forall (fun a => not_negative (installation_cost a)) apps ->
  Forall (fun r => not_negative (repair_cost r)) reps ->
  Forall (fun f => not_negative (build_cost f)) feats ->
  Forall (fun m => not_negative (cost m)) maint ->
  let c := costs (component (snd (loadCosts supabase (Some hid) w))) in
  (Js.zero <= housePurchase c /\ housePurchase c <= totalCost c)
  /\ (Js.zero <= appliances c /\ appliances c <= totalCost c)
  /\ (Js.zero <= applianceInstallation c
      /\ applianceInstallation c <= totalCost c)
  /\ (Js.zero <= applianceRepairs c /\ applianceRepairs c <= totalCost c)
  /\ (Js.zero <= exteriorFeatures c /\ exteriorFeatures c <= totalCost c)
  /\ (Js.zero <= exteriorMaintenance c
      /\ exteriorMaintenance c <= totalCost c).
Proof.
  intros Hid Hh Ha Hf Hm Hr Hprice Hp Hi Hrep Hfe Hma. cbv zeta.
  rewrite (@loadCosts_costs supabase hid w house apps feats maint reps
             None None None None None Hid Hh Ha Hf Hm Hr).
  cbv zeta. cbn [housePurchase appliances applianceInstallation
    applianceRepairs exteriorFeatures exteriorMaintenance totalCost].
  set (h := price_paid_or_zero house).
  set (a := total (map (fun a => coalesce (purchase_cost a)) apps)).
  set (i := total (map (fun a => coalesce (installation_cost a)) apps)).
  set (r := match apps with
            | [] => Js.zero
            | _ :: _ => total (map (fun r => coalesce (repair_cost r)) reps)
            end).
  set (f := total (map (fun f => coalesce (build_cost f)) feats)).
  set (m := total (map (fun m => coalesce (cost m)) maint)).
  assert (H1 : Js.zero <= h).
  { subst h. rewrite price_paid_or_zero_spec. destruct house as [x|];
      [|apply Qcle_refl].
    destruct (price_paid x) as [p|] eqn:E; [|apply Qcle_refl].
    exact (Hprice x p eq_refl E). }
  assert (H2 : Js.zero <= a) by exact (total_not_negative _ Hp).
  assert (H3 : Js.zero <= i) by exact (total_not_negative _ Hi).
  assert (H4 : Js.zero <= r).
  { subst r. destruct apps;
      [apply Qcle_refl | exact (total_not_negative _ Hrep)]. }
  assert (H5 : Js.zero <= f) by exact (total_not_negative _ Hfe).
  assert (H6 : Js.zero <= m) by exact (total_not_negative _ Hma).
  clearbody h a i r f m. clear - H1 H2 H3 H4 H5 H6.
  repeat split; qc_lra.
Qed.

(** X15.  The profit card.  With a sale price on record that is not 0 the
    card is shown, its amount is never negative, and it reads "Profit" with
    sale price minus totalCost when the sale price covers totalCost, "Loss"
    with totalCost minus sale price otherwise.  With no sale price, or a
    sale price of 0, there is no card. *)
Theorem profitCard_spec (st : Component) :
  (forall s, opt_field (houseInfo st) price_sold = Some s -> s <> Js.zero ->
             exists card,
               profitCard st = Some card
               /\ Js.zero <= amount card
               /\ (totalCost (costs st) <= s ->
                   label card = "Profit"%string
                   /\ amount card = s - totalCost (costs st))
               /\ (s < totalCost (costs st) ->
                   label card = "Loss"%string
                   /\ amount card = totalCost (costs st) - s))
  /\ (opt_field (houseInfo st) price_sold = None
      \/ opt_field (houseInfo st) price_sold = Some Js.zero ->
      profitCard st = None).
Proof.
  unfold profitCard, profit. split.
  - intros s Hs Hnz. rewrite Hs. apply truthy_Some in Hnz. rewrite Hnz.
    unfold Math_abs. generalize (totalCost (costs st)) as t. intros t.
    destruct (Js.leb Js.zero (s - t)) eqn:E.
    + apply leb_le in E. eexists. split; [reflexivity|].
      cbn [label amount]. split; [exact E|]. split.
      * intros _. split; reflexivity.
      * intros Hlt. exfalso. qc_lra.
    + assert (Hn : ~ Js.zero <= s - t).
      { intros H. apply leb_le in H. congruence. }
      eexists. split; [reflexivity|]. cbn [label amount].
      split; [qc_lra|]. split.
      * intros Hle. exfalso. qc_lra.
      * intros _. split; [reflexivity|]. unfold Js.number in *. ring.
  - intros [-> | ->]; reflexivity.
Qed.

End DashboardFacts.

(** ** Delete confirmation *)

Section DeleteConfirmationFacts.

Import Db DbOps DeleteConfirmation.
Local Open Scope string_scope.

Lemma handleConfirm_keeps_hidden (flag : bool) (st : Storage) :
  shouldShowDeleteConfirmation st = false ->
  shouldShowDeleteConfirmation (handleConfirm flag st) = false.
Proof. destruct flag; [reflexivity | trivial]. Qed.

(** X16.  The "don't show this warning again" choice is permanent and
    touches nothing else.  Confirming with the box ticked hides the
    confirmation; once hidden it stays hidden through any later
    confirmations, and a click on delete then calls deleteRoom at once.
    While it is not hidden, a click only opens the confirmation for that
    room and deletes nothing.  No other key of the storage is changed. *)
Theorem delete_confirmation_flag
        (st : Storage) (flags : list bool) (room : Room) :
  shouldShowDeleteConfirmation (handleConfirm true st) = false
  /\ (shouldShowDeleteConfirmation st = false ->
      let st' := fold_left (fun s flag => handleConfirm flag s) flags st in
      shouldShowDeleteConfirmation st' = false
      /\ handleDeleteRoomClick st' room = CallDeleteRoom (id room))
  /\ (shouldShowDeleteConfirmation st = true ->
      handleDeleteRoomClick st room
      = SetDeleteConfirmation
          {| isOpen := true; roomId := Some (id room);
             roomName := roomName_of room |})
  /\ (forall flag key, key <> STORAGE_KEY ->
                       getItem (handleConfirm flag st) key = getItem st key).
Proof.
  split; [reflexivity|]. split; [|split].
  - intros H. cbv zeta.
    assert (Hs : shouldShowDeleteConfirmation
                   (fold_left (fun s flag => handleConfirm flag s) flags st)
                 = false).
    { revert st H. induction flags as [|f fs IH]; intros st H; [exact H|].
      cbn [fold_left]. apply IH. now apply handleConfirm_keeps_hidden. }
    split; [exact Hs|]. unfold handleDeleteRoomClick. now rewrite Hs.
  - intros H. unfold handleDeleteRoomClick. now rewrite H.
  - intros flag key Hk. destruct flag; [|reflexivity].
    unfold handleConfirm, getItem, setItem.
    apply String.eqb_neq in Hk. now rewrite Hk.
Qed.

Lemma delete_confirmation_flag_witness :
  let st : Storage := fun _ => None in
  let room := {| id := "k1"; room_type := "Other";
                 room_type_other := Some "Pantry" |} in
  handleDeleteRoomClick st room
  = SetDeleteConfirmation
      {| isOpen := true; roomId := Some "k1"; roomName := "Pantry" |}
  /\ handleDeleteRoomClick
       (fold_left (fun s flag => handleConfirm flag s) [false; false]
                  (handleConfirm true st))
       room
     = CallDeleteRoom "k1".
Proof.
  intros st room. split.
  - exact (proj1 (proj2 (proj2 (delete_confirmation_flag st [] room)))
                 eq_refl).
  - exact (proj2 (proj1 (proj2 (delete_confirmation_flag
                                  (handleConfirm true st) [false; false]
                                  room))
                        eq_refl)).
Defined.

Lemma map_filter_ids {A : Type} (key : A -> uuid) (x : uuid) (l : list A) :
  map key (filter (fun r => negb (String.eqb (key r) x)) l)
  = filter (fun i => negb (String.eqb i x)) (map key l).
Proof.
  induction l as [|a l IH]; [reflexivity|]. cbn [filter map].
  destruct (String.eqb (key a) x); cbn [negb map]; now rewrite IH.
Qed.

(** X17.  deleteRoom and the procedure it calls.  When the rpc fails
    (rejects, or resolves with an error) the room list is left as it was
    and the error is logged.  When it succeeds for the owner of the rooms
    with that id, the ids left in the list are the ids left in the rooms
    table, provided list and table showed the same ids before. *)
Theorem deleteRoom_follows_table
        (auth_uid : option uuid) (room_id : uuid) (db : Database)
        (table : list rooms_row) (rooms : list Room)
        (rpc : CostDashboard.Settled unit) :
  (forall e, rpc = CostDashboard.Rejected e
             \/ (exists r, rpc = CostDashboard.Fulfilled r
                           /\ CostDashboard.error r = Some e) ->
             deleteRoom rpc rooms room_id
             = (rooms, [("Error deleting room:", e)]))
  /\ ((exists r, rpc = CostDashboard.Fulfilled r
                 /\ CostDashboard.error r = None) ->
      map id rooms = map rm_id table ->
      (forall r, In r table -> rm_id r = room_id ->
                 owns_house auth_uid db (rm_house_id r)) ->
      map id (fst (deleteRoom rpc rooms room_id))
      = map rm_id (permanent_delete_room auth_uid room_id db table)
      /\ snd (deleteRoom rpc rooms room_id) = []).
Proof.
  split.
  - intros e [-> | (r & -> & He)]; cbn; [reflexivity | now rewrite He].
  - intros (r & -> & He) Hids Hown. cbn. rewrite He. cbn [fst snd].
    split; [|reflexivity].
    rewrite map_filter_ids, Hids, <- map_filter_ids. f_equal.
    unfold permanent_delete_room, delete_where. apply filter_ext_in.
    intros x Hx. destruct (String.eqb_spec (rm_id x) room_id) as [E|_];
      [|reflexivity].
    pose proof (Hown x Hx E) as Ho. apply exists_owned_house_iff in Ho.
    now rewrite Ho.
Qed.

Lemma deleteRoom_follows_table_witness :
  let rooms := [{| id := "k1"; room_type := "Kitchen";
                   room_type_other := None |};
                {| id := "b1"; room_type := "Bedroom";
                   room_type_other := None |}] in
  let done := CostDashboard.Fulfilled
                {| CostDashboard.data := None;
                   CostDashboard.error := None |} in
  map id (fst (deleteRoom done rooms "k1"))
  = map rm_id (permanent_delete_room (Some "alice") "k1"
                                     Examples.scenario_db
                                     MoreExamples.the_rooms)
  /\ deleteRoom (CostDashboard.Rejected "offline") rooms "k1"
     = (rooms, [("Error deleting room:", "offline")]).
Proof.
  intros rooms done. split.
  - refine (proj1 (proj2 (deleteRoom_follows_table
                            (Some "alice") "k1" Examples.scenario_db
                            MoreExamples.the_rooms rooms done)
                         (ex_intro _ _ (conj eq_refl eq_refl)) eq_refl _)).
    intros r [<-|[<-|[]]] _; exact alice_owns_h1.
  - exact (proj1 (deleteRoom_follows_table
                    (Some "alice") "k1" Examples.scenario_db
                    MoreExamples.the_rooms rooms
                    (CostDashboard.Rejected "offline"))
                 "offline" (or_introl eq_refl)).
Defined.

End DeleteConfirmationFacts.

(** ** Attachments of the appliance form *)

Section AttachmentsFacts.

Import FileUpload Attachments.
Local Open Scope Z_scope.

Variable fileToBase64 : File -> option string.

(** What the form keeps true of its list of uploaded files. *)
Let within_limits (l : list UploadedFile) : Prop :=
  Z.of_nat (List.length l) <= 10
  /\ Forall (fun u => file_size u <= 5 * 1024 * 1024
                      /\ file_type u <> EmptyString) l.

Lemma accepted_length (maxSize : Z) (batch : list File) :
  (List.length (accepted fileToBase64 maxSize batch) <= List.length batch)%nat.
Proof.
  unfold accepted. induction batch as [|f batch IH]; [apply Nat.le_refl|].
  cbn [flat_map]. rewrite length_app. cbn [List.length].
  destruct (size f <=? maxSize); [destruct (fileToBase64 f)|];
    cbn [List.length]; lia.
Qed.

Lemma type_or_default_not_empty (t : string) :
  type_or_default t <> EmptyString.
Proof.
  unfold type_or_default. destruct (String.eqb_spec t EmptyString) as [E|E];
    [discriminate | exact E].
Qed.

Lemma filter_index_length {A : Type} (index : nat) (l : list A) :
  (List.length (filter_index index l) <= List.length l)%nat.
Proof.
  revert index. induction l as [|x l IH]; intros [|i]; cbn; try lia.
  specialize (IH i). lia.
Qed.

Lemma filter_index_Forall {A : Type} (P : A -> Prop) (index : nat)
      (l : list A) :
  Forall P l -> Forall P (filter_index index l).
Proof.
  revert index. induction l as [|x l IH]; intros index H; [destruct index;
    constructor|].
  inversion H; subst. destruct index; cbn; [assumption|].
  constructor; [assumption | now apply IH].
Qed.

Lemma act_within_limits (l : list UploadedFile) (a : Action) :
  within_limits l -> within_limits (act fileToBase64 l a).
Proof.
  unfold within_limits. intros [Hlen Hall].
  destruct a as [[batch|]|index|]; [| | |split; [cbn; lia | constructor]].
  - cbn [act]. unfold handleFileSelect.
    cbn [existingFiles props_of maxFiles_of maxSizeMB_of maxFiles maxSizeMB].
    destruct (Z.of_nat (List.length l) + Z.of_nat (List.length batch) >? 10)
      eqn:Hc; cbn [onFilesSelected_call]; [now split|].
    rewrite for_of_spec. cbn [uploadedFiles app].
    destruct (Z.of_nat (List.length (accepted fileToBase64 (5 * 1024 * 1024)
                                              batch)) >? 0);
      [|now split].
    unfold onFilesSelected. split.
    + rewrite length_app, Nat2Z.inj_add.
      pose proof (accepted_length (5 * 1024 * 1024) batch) as Ha.
      rewrite Z.gtb_ltb in Hc. apply Z.ltb_ge in Hc. lia.
    + apply Forall_app. split; [assumption|]. apply Forall_forall.
      intros u Hu. apply accepted_In in Hu.
      destruct Hu as (f & b & _ & Hs & _ & ->). cbn [uploaded file_size
        file_type]. split; [exact Hs | apply type_or_default_not_empty].
  - now split.
  - cbn [act]. unfold onRemoveFile. split.
    + pose proof (filter_index_length index l). lia.
    + now apply filter_index_Forall.
Qed.

(** X18.  Whatever files the user selects or drops, whatever entries are
    removed and whenever the form is cleared, in any sequence, the appliance
    form never holds more than 10 uploaded files, never one larger than
    5 MB, and never one with an empty MIME type. *)
Theorem attachments_stay_within_limits (actions : list Action) :
  Z.of_nat (List.length (after fileToBase64 actions)) <= 10
  /\ Forall (fun u => file_size u <= 5 * 1024 * 1024
                      /\ file_type u <> EmptyString)
            (after fileToBase64 actions).
Proof.
  unfold after.
  assert (H : within_limits []) by (split; [cbn; lia | constructor]).
  revert H. generalize (@nil UploadedFile) as l.
  induction actions as [|a actions IH]; intros l H; [exact H|].
  cbn [fold_left]. apply IH. now apply act_within_limits.
Qed.

End AttachmentsFacts.

(** ** Sign-in form *)

Section AuthFormFacts.

Import AuthForm.
Local Open Scope string_scope.

Variable signUp : string -> list code_unit -> AuthResult.
Variable signIn : string -> list code_unit -> AuthResult.
Variable resetPassword : string -> AuthResult.

Lemma isPasswordValid_iff (p : list code_unit) :
  isPasswordValid p = true
  <-> (6 <= List.length p)%nat /\ exists c, In c p /\ In c special.
Proof.
  unfold isPasswordValid, hasMinLength, hasSpecialChar.
  rewrite andb_true_iff, Nat.leb_le, existsb_exists. split.
  - intros [Hl (c & Hc & Hs)]. split; [assumption|]. exists c.
    split; [assumption|]. apply existsb_exists in Hs.
    destruct Hs as (d & Hd & E). apply N.eqb_eq in E. now subst d.
  - intros [Hl (c & Hc & Hs)]. split; [assumption|]. exists c.
    split; [assumption|]. apply existsb_exists. exists c.
    split; [assumption | apply N.eqb_refl].
Qed.

(** X19.  The sign-up gate.  handleSubmit calls signUp only with a
    password of at least 6 code units that contains one of the 28 special
    characters; a sign-up with any other password makes no call at all, sets
    the requirements message and leaves [loading] alone.  A sign-in is
    passed to signIn whatever the password is. *)
Theorem handleSubmit_sign_up_gate (st : State) :
  let '(st', calls) := handleSubmit signUp signIn st in
  (forall e p, In (SignUp e p) calls ->
               (6 <= List.length p)%nat
               /\ exists c, In c p /\ In c special)
  /\ (isSignUp st = true -> isPasswordValid (password st) = false ->
      calls = []
      /\ error st' = "Please meet all password requirements"
      /\ loading st' = loading st)
  /\ (isSignUp st = true -> isPasswordValid (password st) = true ->
      calls = [SignUp (email st) (password st)])
  /\ (isSignUp st = false -> calls = [SignIn (email st) (password st)]).
Proof.
  unfold handleSubmit.
  destruct (isSignUp st) eqn:Hs; destruct (isPasswordValid (password st))
    eqn:Hv; cbn [andb negb]; (split; [|split; [|split]]);
    try discriminate; try (intros _ _; reflexivity);
    try (intros _; reflexivity).
  - intros e p [H|[]]. injection H as _ <-. now apply isPasswordValid_iff.
  - intros e p [].
  - intros _ _. repeat split.
  - intros e p [H|[]]. discriminate H.
  - intros e p [H|[]]. discriminate H.
Qed.

(** X20.  Once handleSubmit has made its call, it always ends with
    [loading] false, and the error shown is the message of the error the
    call resolved with, "An unexpected error occurred" if the call threw,
    and empty if the call succeeded, whatever error was shown before. *)
Theorem handleSubmit_outcome (st : State) :
  isSignUp st = false \/ isPasswordValid (password st) = true ->
  let r := if isSignUp st then signUp (email st) (password st)
           else signIn (email st) (password st) in
  let st' := fst (handleSubmit signUp signIn st) in
  loading st' = false
  /\ error st' = match r with
                 | Resolved (Some message) => message
                 | Resolved None => ""
                 | Threw => "An unexpected error occurred"
                 end
  /\ email st' = email st /\ password st' = password st
  /\ isSignUp st' = isSignUp st.
Proof.
  intros H. cbv zeta. unfold handleSubmit.
  destruct (isSignUp st) eqn:Hs.
  - destruct H as [H|H]; [discriminate|]. rewrite H. cbn [andb negb fst].
    unfold settle. destruct (signUp (email st) (password st)) as [[m|]|];
      cbn; rewrite ?Hs; repeat split.
  - cbn [andb fst]. unfold settle.
    destruct (signIn (email st) (password st)) as [[m|]|];
      cbn; rewrite ?Hs; repeat split.
Qed.

(** X21.  handlePasswordReset makes exactly one resetPassword call with
    the e-mail of the form, ends with [loading] false, and switches to the
    "check your e-mail" state exactly when the call resolved without an
    error (when it was not already in that state); otherwise it shows the
    error. *)
Theorem handlePasswordReset_outcome (st : State) :
  let st' := fst (handlePasswordReset resetPassword st) in
  snd (handlePasswordReset resetPassword st) = [ResetPassword (email st)]
  /\ loading st' = false
  /\ (resetEmailSent st = false ->
      (resetEmailSent st' = true
       <-> resetPassword (email st) = Resolved None))
  /\ error st' = match resetPassword (email st) with
                 | Resolved (Some message) => message
                 | Resolved None => ""
                 | Threw => "An unexpected error occurred"
                 end.
Proof.
  cbv zeta. unfold handlePasswordReset, settle. cbn [fst snd].
  destruct (resetPassword (email st)) as [[m|]|]; cbn;
    repeat split; try reflexivity; try discriminate;
    intros; congruence.
Qed.

End AuthFormFacts.

(** ** Currency options, plural labels, upload errors *)

Section MoreFacts.

Import Currency RoomLabel FileUpload.

(** X22.  Whatever the country and the options, formatCurrency asks the
    platform for style "currency" with the locale and the currency code of
    one and the same table entry; and when the caller gives no minimum, the
    minimum it asks for is at most 2 and at most the maximum, so a maximum
    of 0 (the per-year figure of the dashboard) asks for 0 to 0 digits. *)
Theorem formatCurrency_options
        (fmt : string -> NumberFormatOptions -> Js.number -> string)
        (amount : Js.number) (country : option Country) (options : Options) :
  exists o,
    formatCurrency fmt amount country options
    = fmt (locale (currencyMap (orUnitedStates country))) o amount
    /\ style o = "currency"%string
    /\ currency o = code (currencyMap (orUnitedStates country))
    /\ fmt_maximumFractionDigits o
       = nullish (maximumFractionDigits options) 2%Z
    /\ (minimumFractionDigits options = None ->
        (fmt_minimumFractionDigits o <= fmt_maximumFractionDigits o)%Z
        /\ (fmt_minimumFractionDigits o <= 2)%Z
        /\ ((2 <= fmt_maximumFractionDigits o)%Z ->
            fmt_minimumFractionDigits o = 2%Z))
    /\ (forall m, minimumFractionDigits options = Some m ->
                  fmt_minimumFractionDigits o = m).
Proof.
  unfold formatCurrency. eexists. split; [reflexivity|].
  cbn [style currency fmt_minimumFractionDigits fmt_maximumFractionDigits].
  repeat split.
  - rewrite H. cbn [nullish]. apply Z.le_min_r.
  - rewrite H. cbn [nullish]. apply Z.le_min_l.
  - rewrite H. cbn [nullish]. intros Hm. now apply Z.min_l.
  - intros m ->. reflexivity.
Qed.

Lemma length_append (a b : string) :
  String.length (a ++ b) = (String.length a + String.length b)%nat.
Proof. induction a as [|c a IH]; cbn; [reflexivity | now rewrite IH]. Qed.

Lemma pluralizeWord_longer (w : string) :
  endsWith (pluralizeWord w) "s" = true
  /\ (String.length (pluralizeWord w) = String.length w + 1
      \/ String.length (pluralizeWord w) = String.length w + 2)%nat.
Proof.
  destruct (pluralizeWord_rules w) as (Hy & Hes & Hs).
  destruct (endsWith (toLowerCase w) "y") eqn:Ey.
  - apply ends_with_ci_iff in Ey. destruct (Hy Ey) as (stem & c & -> & _ & ->).
    split.
    + apply endsWith_iff. exists (stem ++ "ie")%string.
      now rewrite append_assoc.
    + right. rewrite !length_append. cbn. lia.
  - assert (Hn : ~ ends_with_ci w "y").
    { intros H. apply ends_with_ci_iff in H. congruence. }
    destruct (endsWith (toLowerCase w) "ch" || endsWith (toLowerCase w) "sh"
              || endsWith (toLowerCase w) "s" || endsWith (toLowerCase w) "x"
              || endsWith (toLowerCase w) "z") eqn:Ees.
    + unfold pluralizeWord. rewrite Ey, Ees. split.
      * apply endsWith_iff. exists (w ++ "e")%string.
        now rewrite append_assoc.
      * right. rewrite length_append. reflexivity.
    + unfold pluralizeWord. rewrite Ey, Ees. split.
      * apply endsWith_iff. now exists w.
      * left. rewrite length_append. reflexivity.
Qed.

(** X23.  For a count above 1 the label that pluralizeRoomType returns
    always ends in "s" and is one or two characters longer than the name,
    so it is never the name itself (not even for an empty name or a name
    that ends in a space). *)
Theorem pluralizeRoomType_longer (roomType : string) (count : Js.number) :
  (1 < count)%Qc ->
  endsWith (pluralizeRoomType roomType count) "s" = true
  /\ (String.length (pluralizeRoomType roomType count)
      = String.length roomType + 1
      \/ String.length (pluralizeRoomType roomType count)
         = String.length roomType + 2)%nat
  /\ pluralizeRoomType roomType count <> roomType.
Proof.
  intros H. change 1%Qc with (Js.ofZ 1) in H.
  assert (Hc : Js.leb count (Js.ofZ 1) = false).
  { apply not_true_is_false. intros Hle. apply leb_le in Hle.
    exact (Qclt_not_le _ _ H Hle). }
  assert (Hex : exists pre w,
             roomType = (pre ++ w)%string
             /\ pluralizeRoomType roomType count
                = (pre ++ pluralizeWord w)%string).
  { unfold pluralizeRoomType. rewrite Hc.
    destruct (includes_space roomType).
    - destruct (replace_last_word pluralizeWord roomType)
        as (pre & w & E & _ & _ & R).
      exists pre, w. split; [exact E | exact R].
    - exists ""%string, roomType. split; reflexivity. }
  destruct Hex as (pre & w & -> & ->).
  destruct (pluralizeWord_longer w) as [He Hl].
  assert (Hlen : (String.length (pre ++ pluralizeWord w)
                  = String.length (pre ++ w) + 1
                  \/ String.length (pre ++ pluralizeWord w)
                     = String.length (pre ++ w) + 2)%nat).
  { rewrite !length_append. destruct Hl as [-> | ->]; [left | right]; lia. }
  split; [|split].
  - apply endsWith_iff in He. destruct He as [p ->].
    apply endsWith_iff. exists (pre ++ p)%string. now rewrite append_assoc.
  - exact Hlen.
  - intros E. rewrite E in Hlen. lia.
Qed.

Lemma last_cons_default {A : Type} (x : A) (l : list A) (d : A) :
  last (x :: l) d = last l x.
Proof.
  revert x d. induction l as [|y l IH]; intros x d; [reflexivity|].
  change (last (y :: l) d = last (y :: l) x). now rewrite !IH.
Qed.

Lemma raised_nothing (props : Props) (fileToBase64 : File -> option string)
      (maxSize : Z) (batch : list File) :
  (forall f, In f batch -> (size f <= maxSize)%Z /\ fileToBase64 f <> None) ->
  raised props fileToBase64 maxSize batch = [].
Proof.
  unfold raised. induction batch as [|f batch IH]; intros Hall;
    [reflexivity|].
  cbn [flat_map]. destruct (Hall f (or_introl eq_refl)) as [Hs Hr].
  apply Z.leb_le in Hs. rewrite Hs.
  destruct (fileToBase64 f); [|congruence]. cbn [app].
  apply IH. intros g Hg. apply Hall. now right.
Qed.

(** X24.  The error that FileUpload shows after a selection.  With no file
    list at all the error is left as it was.  With too many files it is the
    "Maximum N files allowed" message.  Otherwise the error shown before is
    cleared and replaced by the message of the last file of the batch that
    was too large or could not be read; when every file was accepted, no
    error is shown. *)
Theorem handleFileSelect_error_shown
        (props : Props) (fileToBase64 : File -> option string)
        (before : string) (batch : list File) :
  let maxSize := (maxSizeMB_of props * 1024 * 1024)%Z in
  let count := (Z.of_nat (List.length (existingFiles props))
                + Z.of_nat (List.length batch))%Z in
  error_after before (handleFileSelect props fileToBase64 None) = before
  /\ ((maxFiles_of props < count)%Z ->
      error_after before (handleFileSelect props fileToBase64 (Some batch))
      = ("Maximum " ++ show (maxFiles_of props) ++ " files allowed")%string)
  /\ ((count <= maxFiles_of props)%Z ->
      error_after before (handleFileSelect props fileToBase64 (Some batch))
      = last (raised props fileToBase64 maxSize batch) EmptyString
      /\ ((forall f, In f batch ->
                     (size f <= maxSize)%Z /\ fileToBase64 f <> None) ->
          error_after before
                      (handleFileSelect props fileToBase64 (Some batch))
          = EmptyString)).
Proof.
  cbv zeta. unfold error_after, handleFileSelect. split; [reflexivity|].
  split.
  - intros H. apply Z.gtb_lt in H. rewrite H. reflexivity.
  - intros H.
    assert (Hc : (Z.of_nat (List.length (existingFiles props))
                  + Z.of_nat (List.length batch) >? maxFiles_of props)%Z
                 = false).
    { rewrite Z.gtb_ltb. now apply Z.ltb_ge. }
    rewrite Hc, for_of_spec. cbn [setError_calls errors app].
    rewrite last_cons_default. split; [reflexivity|].
    intros Hall.
    now rewrite (@raised_nothing props fileToBase64 _ batch Hall).
Qed.

End MoreFacts.

(** ** The properties on examples *)

Section MoreWitnesses.

Import Db CostDashboard CostDashboardEffect AuthForm FormExamples.
Local Open Scope string_scope.

Lemma loadCosts_rejection_keeps_state_witness :
  let w' := snd (loadCosts Examples.maintenance_rejecting_client (Some "h1")
                           initialWorld) in
  some_read_rejects Examples.maintenance_rejecting_client "h1"
                    "Failed to fetch"
  /\ costs (component w') = zeroCosts
  /\ houseInfo (component w') = None.
Proof.
  intros w'.
  assert (Hid : "h1" <> EmptyString) by discriminate.
  assert (Hr : some_read_rejects Examples.maintenance_rejecting_client "h1"
                                 "Failed to fetch").
  { right; right; right; left. reflexivity. }
  destruct (@loadCosts_rejection_keeps_state
              Examples.maintenance_rejecting_client "h1" initialWorld
              "Failed to fetch" Hid Hr) as (Hc & Hh & _).
  split; [exact Hr|]. split; [exact Hc | exact Hh].
Defined.


Lemma loadCosts_repair_lookup_witness :
  requests (snd (loadCosts (db_client Examples.scenario_db) (Some "h1")
                           initialWorld))
  = [From_houses "h1"; From_interior_appliances "h1";
     From_exterior_features "h1"; From_exterior_maintenance "h1";
     From_appliance_repairs ["a1"]].
Proof.
  assert (Hid : "h1" <> EmptyString) by discriminate.
  exact (@loadCosts_repair_lookup
           (db_client Examples.scenario_db) "h1" initialWorld
           _ _ _ _ _ _ Hid eq_refl eq_refl eq_refl eq_refl eq_refl).
Defined.

Lemma ofZ_not_negative (z : Z) : (0 <= z)%Z -> (Js.zero <= Js.ofZ z)%Qc.
Proof.
  intros H. unfold Js.zero, Js.ofZ, Qcle, Q2Qc. cbn [this].
  rewrite !Qred_correct. unfold Qle. cbn. lia.
Qed.

Lemma loadCosts_not_negative_witness :
  let c := costs (component
                    (snd (loadCosts (db_client Examples.scenario_db)
                                    (Some "h1") initialWorld))) in
  (Js.zero <= applianceRepairs c)%Qc
  /\ (applianceRepairs c <= totalCost c)%Qc.
Proof.
  intros c.
  assert (Hid : "h1" <> EmptyString) by discriminate.
  assert (H : forall z, (0 <= z)%Z -> not_negative (cell (Some (Js.ofZ z)))).
  { intros z Hz. cbn. now apply ofZ_not_negative. }
  refine (proj1 (proj2 (proj2 (proj2
            (@loadCosts_not_negative
               (db_client Examples.scenario_db) "h1" initialWorld
               _ _ _ _ _ Hid eq_refl eq_refl eq_refl eq_refl
               (fun _ => eq_refl) _ _ _ _ _ _))))).
  - intros h p Hh Hp. injection Hh as <-. injection Hp as <-.
    now apply ofZ_not_negative.
  - repeat constructor. now apply H.
  - repeat constructor. now apply H.
  - repeat constructor. now apply H.
  - repeat constructor. now apply H.
  - repeat constructor. now apply H.
Defined.

Lemma profitCard_spec_witness :
  Js.ofZ 350000 <> Js.zero
  /\ exists card,
       profitCard sold_component = Some card
       /\ (Js.zero <= amount card)%Qc.
Proof.
  assert (Hn : Js.ofZ 350000 <> Js.zero) by discriminate.
  split; [exact Hn|].
  destruct (proj1 (profitCard_spec sold_component) (Js.ofZ 350000)
                  eq_refl Hn) as (card & Hc & Ha & _).
  exists card. split; [exact Hc | exact Ha].
Defined.

Lemma handleSubmit_sign_up_gate_witness :
  let r := handleSubmit signUp_service signIn_service (form true "abcdefgh") in
  snd r = []
  /\ AuthForm.error (fst r) = "Please meet all password requirements"
  /\ AuthForm.loading (fst r) = false.
Proof.
  intros r.
  pose proof (handleSubmit_sign_up_gate signUp_service signIn_service
                                        (form true "abcdefgh")) as H.
  fold r in H. destruct r as [st' calls].
  destruct H as (_ & H & _). exact (H eq_refl eq_refl).
Defined.

Lemma handleSubmit_outcome_witness :
  let st' := fst (handleSubmit signUp_service signIn_service
                               (form false "guess")) in
  AuthForm.loading st' = false
  /\ AuthForm.error st' = "Invalid login credentials".
Proof.
  intros st'.
  destruct (@handleSubmit_outcome signUp_service signIn_service
              (form false "guess") (or_introl eq_refl)) as (Hl & He & _).
  split; [exact Hl | exact He].
Defined.

Lemma handlePasswordReset_outcome_witness :
  resetEmailSent (fst (handlePasswordReset reset_service (form false "")))
  = true.
Proof.
  destruct (handlePasswordReset_outcome reset_service (form false ""))
    as (_ & _ & H & _).
  exact (proj2 (H eq_refl) eq_refl).
Defined.

Lemma pluralizeRoomType_longer_witness :
  (1 < Js.ofZ 3)%Qc
  /\ RoomLabel.endsWith
       (RoomLabel.pluralizeRoomType "Living Room" (Js.ofZ 3)) "s" = true
  /\ RoomLabel.pluralizeRoomType "Living Room" (Js.ofZ 3) <> "Living Room".
Proof.
  assert (H : (1 < Js.ofZ 3)%Qc) by reflexivity.
  destruct (@pluralizeRoomType_longer "Living Room" (Js.ofZ 3) H)
    as (He & _ & Hn).
  split; [exact H|]. split; [exact He | exact Hn].
Defined.

Lemma handleFileSelect_error_shown_witness :
  (0 + 3 <= 10)%Z
  /\ FileUpload.error_after "stale"
       (FileUpload.handleFileSelect Examples.default_props Examples.data_uri
                                    (Some Examples.upload_batch))
     = "File big.pdf exceeds 5MB limit".
Proof.
  assert (Hc : (0 + 3 <= 10)%Z) by lia.
  split; [exact Hc|].
  destruct (handleFileSelect_error_shown Examples.default_props
              Examples.data_uri "stale" Examples.upload_batch)
    as (_ & _ & H).
  exact (proj1 (H Hc)).
Defined.

Lemma formatCurrency_options_witness :
  exists o,
    Currency.formatCurrency
      locale_only (Js.ofZ 76862) (Some Currency.Mexico)
      {| Currency.minimumFractionDigits := None;
         Currency.maximumFractionDigits := Some 0%Z |}
    = "es-MX"
    /\ (Currency.fmt_minimumFractionDigits o
        <= Currency.fmt_maximumFractionDigits o)%Z
    /\ Currency.fmt_maximumFractionDigits o = 0%Z.
Proof.
  destruct (formatCurrency_options
              locale_only (Js.ofZ 76862) (Some Currency.Mexico)
              {| Currency.minimumFractionDigits := None;
                 Currency.maximumFractionDigits := Some 0%Z |})
    as (o & Hf & _ & _ & Hmax & Hmin & _).
  exists o. split; [exact Hf|]. split; [exact (proj1 (Hmin eq_refl))|].
  exact Hmax.
Defined.

End MoreWitnesses.
